(** * LumoKit chat request pipeline

    A shallow embedding of [src/api/chat/controllers.py] (with the parts of
    [api/chat/schema.py], [models/requests.py], [models/users.py],
    [settings/config.py], [api/users/controllers.py] and [tools/__init__.py]
    it relies on) and of the authentication, membership and payment
    controllers of [src/api/users/controllers.py], followed by the
    properties of both.

    Conventions of the embedding.
    - A Python [str] is a [string]; each character stands for the code point
      of the same number (0..255), so [len] is [String.length].
    - A timestamp is an integer number of seconds ([Z]).
    - The relational store is the list of its rows in insertion order; an
      attribute assignment on a row loaded through the session followed by
      [db.commit()] is an update of that row in the list.  Database calls are
      taken to return (no driver error is modelled).
    - Everything the pipeline calls but does not implement (signature
      check, clocks, random source, tokenizer, model backends) is a field of
      the record [World]; a Python exception is represented by its [str(e)],
      and stands for an instance of [Exception], the class the handlers of
      the controller catch. *)

From Stdlib Require Import List String Ascii ZArith QArith Bool Arith Lia.
From Stdlib Require Import Sorted Permutation.
From Stdlib Require DecimalString.
Import ListNotations.
Local Open Scope string_scope.
Local Close Scope Q_scope.
Local Open Scope Z_scope.

Set Implicit Arguments.

(* ------------------------------------------------------------------ *)
(** ** Python strings and [json.dumps] *)

Module Py.

Definition dq : string := String (ascii_of_nat 34) EmptyString.
Definition bs : string := String (ascii_of_nat 92) EmptyString.
Definition nl : string := String (ascii_of_nat 10) EmptyString.

(** [s.startswith(p)] *)
Definition startswith (s p : string) : bool := String.prefix p s.

(** [sub in s] *)
Fixpoint contains (sub s : string) : bool :=
  String.prefix sub s ||
  match s with
  | EmptyString => false
  | String _ t => contains sub t
  end.

(** [s.endswith(suf)] *)
Definition endswith (s suf : string) : bool :=
  (String.length suf <=? String.length s)%nat &&
  String.eqb
    (substring (String.length s - String.length suf) (String.length suf) s)
    suf.

Definition lower_char (c : ascii) : ascii :=
  let n := nat_of_ascii c in
  if ((65 <=? n) && (n <=? 90) ||
      (192 <=? n) && (n <=? 222) && negb (n =? 215))%nat
  then ascii_of_nat (n + 32) else c.

(** [s.lower()] *)
Fixpoint lower (s : string) : string :=
  match s with
  | EmptyString => EmptyString
  | String c t => String (lower_char c) (lower t)
  end.

(** Truth value of a string: [if s:] *)
Definition truthy (s : string) : bool := negb (String.eqb s "").

(** Truth value of an optional string ([None] and the empty string are
    false). *)
Definition truthy_opt (o : option string) : bool :=
  match o with
  | Some s => truthy s
  | None => false
  end.

(** [s[:n]] *)
Definition slice_to (n : nat) (s : string) : string := substring 0 n s.

Definition hex_digit (n : nat) : string :=
  String (nth n ["0"; "1"; "2"; "3"; "4"; "5"; "6"; "7"; "8"; "9";
                 "a"; "b"; "c"; "d"; "e"; "f"]%char "0"%char) EmptyString.

(** The replacement [json.dumps] (with its default [ensure_ascii=True])
    makes for one character of a string. *)
Definition escape_char (c : ascii) : string :=
  let n := nat_of_ascii c in
  if (n =? 34)%nat then bs ++ dq
  else if (n =? 92)%nat then bs ++ bs
  else if (n =? 10)%nat then bs ++ "n"
  else if (n =? 13)%nat then bs ++ "r"
  else if (n =? 9)%nat then bs ++ "t"
  else if (n =? 8)%nat then bs ++ "b"
  else if (n =? 12)%nat then bs ++ "f"
  else if ((n <? 32) || (126 <? n))%nat
       then bs ++ "u00" ++ hex_digit (n / 16) ++ hex_digit (n mod 16)
  else String c EmptyString.

Fixpoint escape (s : string) : string :=
  match s with
  | EmptyString => EmptyString
  | String c t => escape_char c ++ escape t
  end.

(** [json.dumps(s)] for a string [s] *)
Definition json_dumps_str (s : string) : string := dq ++ escape s ++ dq.

(** [json.dumps({k: v})] for a one-entry dict of strings *)
Definition json_dumps (k v : string) : string :=
  "{" ++ json_dumps_str k ++ ": " ++ json_dumps_str v ++ "}".

(** [string.ascii_letters + string.digits] *)
Definition ascii_letters : string :=
  "abcdefghijklmnopqrstuvwxyzABCDEFGHIJKLMNOPQRSTUVWXYZ".
Definition digits : string := "0123456789".

End Py.

(* ------------------------------------------------------------------ *)
(** ** Request schema ([api/chat/schema.py]) *)

Inductive AllowedModelName : Type :=
| gpt_4_1
| gpt_4_1_mini
| gpt_4o
| anthropic_claude_3_7_sonnet
| google_gemini_2_5_pro_preview
| meta_llama_llama_4_maverick
| lumo_70b
| lumo_8b
| lumo_deepseek_8b.

(** The literal each member of [AllowedModelName] stands for. *)
Definition model_literal (m : AllowedModelName) : string :=
  match m with
  | gpt_4_1 => "gpt-4.1"
  | gpt_4_1_mini => "gpt-4.1-mini"
  | gpt_4o => "gpt-4o"
  | anthropic_claude_3_7_sonnet => "anthropic/claude-3.7-sonnet"
  | google_gemini_2_5_pro_preview => "google/gemini-2.5-pro-preview"
  | meta_llama_llama_4_maverick => "meta-llama/llama-4-maverick"
  | lumo_70b => "lumo-70b"
  | lumo_8b => "lumo-8b"
  | lumo_deepseek_8b => "lumo-deepseek-8b"
  end.

Module ChatRequest.
Record t : Type := Build {
  public_key : string;
  signature : string;
  agent_public : option string;
  agent_private : option string;
  conversation_key : option string;
  message : string;
  model_name : option AllowedModelName;
  temperature : option Q;
  tools : option (list string)
}.
End ChatRequest.

Module LastConversationsRequest.
Record t : Type := Build {
  public_key : string;
  signature : string
}.
End LastConversationsRequest.

Module ConversationSummary.
Record t : Type := Build {
  conversation_key : string;
  last_message_preview : string;
  timestamp : Z
}.
End ConversationSummary.

(* ------------------------------------------------------------------ *)
(** ** Stored rows ([models/requests.py], [models/users.py]) *)

(** The [input_params] snapshot stored with a turn. *)
Module InputParams.
Record t : Type := Build {
  public_key : string;
  conversation_key : string;
  message : string;
  model_name : string;
  temperature : Q;
  tools : option (list string)
}.
End InputParams.

(** A row of table [requests]: one ConversationTurn. *)
Module Requests.
Record t : Type := Build {
  id : Z;
  pubkey : string;
  conversation_key : string;
  input_params : InputParams.t;
  message : string;
  success : bool;
  response : option string;
  verbose : option string;
  liked : option bool;
  input_token_count : option Z;
  output_token_count : option Z;
  total_token_count : option Z;
  time : Z
}.

Definition set_response (v : option string) (r : t) : t :=
  Build (id r) (pubkey r) (conversation_key r) (input_params r) (message r)
        (success r) v (verbose r) (liked r) (input_token_count r)
        (output_token_count r) (total_token_count r) (time r).

Definition set_success (v : bool) (r : t) : t :=
  Build (id r) (pubkey r) (conversation_key r) (input_params r) (message r)
        v (response r) (verbose r) (liked r) (input_token_count r)
        (output_token_count r) (total_token_count r) (time r).

Definition set_verbose (v : option string) (r : t) : t :=
  Build (id r) (pubkey r) (conversation_key r) (input_params r) (message r)
        (success r) (response r) v (liked r) (input_token_count r)
        (output_token_count r) (total_token_count r) (time r).

Definition set_token_counts (i o tot : Z) (r : t) : t :=
  Build (id r) (pubkey r) (conversation_key r) (input_params r) (message r)
        (success r) (response r) (verbose r) (liked r) (Some i) (Some o)
        (Some tot) (time r).
End Requests.

Module User.
Record t : Type := Build {
  id : Z;
  pubkey : string;
  premium_end : option Z
}.
End User.

(** The database session: the two tables the pipeline touches. *)
Record Session : Type := {
  requests : list Requests.t;
  users : list User.t
}.

(* ------------------------------------------------------------------ *)
(** ** Capability registry ([tools/__init__.py]) *)

Inductive Tool : Type :=
| WalletPortfolioTool
| TokenIdentificationTool
| RugcheckTokenInformationTool
| FluxBeamTokenPriceTool
| JupiterTokenPriceTool
| JupiterTokenInformationTool
| JupiterSwapTool
| DexScreenerTopBoostsTool
| DexScreenerTokenInformationTool
| BirdeyeTokenTrendingTool
| BirdeyeAllTimeTradesTool
| CMCCryptoNewsTool
| CMCTrendingCoinsTool
| CNMemecoinsNewsTool
| GTPumpFunTrendingTool
| CoinGeckoGlobalCryptoDataTool
| CoinGeckoTrendingTool
| CoinGeckoExchangeRatesTool
| CoinGeckoCoinDataTool
| SolanaSendSolTool
| SolanaSendSplTokensTool
| SolanaBurnTokenTool
| PumpFunLaunchCoinTool.

Definition Tool_eq_dec (a b : Tool) : {a = b} + {a <> b}.
Proof. decide equality. Defined.

(** [t in tools] on a list of tool instances *)
Definition tool_in (t : Tool) (l : list Tool) : bool :=
  if in_dec Tool_eq_dec t l then true else false.

(** The dict [available_tools] of [stream_response], as its items. *)
Definition available_tools : list (string * Tool) :=
  [ ("rugcheck_token_information_tool", RugcheckTokenInformationTool);
    ("fluxbeam_token_price_tool", FluxBeamTokenPriceTool);
    ("jupiter_token_price_tool", JupiterTokenPriceTool);
    ("jupiter_token_information_tool", JupiterTokenInformationTool);
    ("jupiter_swap_tool", JupiterSwapTool);
    ("dexscreener_top_boosts_tool", DexScreenerTopBoostsTool);
    ("dexscreener_token_information_tool", DexScreenerTokenInformationTool);
    ("birdeye_token_trending_tool", BirdeyeTokenTrendingTool);
    ("birdeye_all_time_trades_tool", BirdeyeAllTimeTradesTool);
    ("cmc_crypto_news_tool", CMCCryptoNewsTool);
    ("cmc_trending_coins_tool", CMCTrendingCoinsTool);
    ("cn_memecoins_news_tool", CNMemecoinsNewsTool);
    ("geckoterminal_trending_pumpfun_tool", GTPumpFunTrendingTool);
    ("coingecko_global_crypto_data_tool", CoinGeckoGlobalCryptoDataTool);
    ("coingecko_trending_tool", CoinGeckoTrendingTool);
    ("coingecko_exchange_rates_tool", CoinGeckoExchangeRatesTool);
    ("coingecko_coin_data_tool", CoinGeckoCoinDataTool);
    ("solana_send_sol_tool", SolanaSendSolTool);
    ("solana_send_spl_tokens_tool", SolanaSendSplTokensTool);
    ("solana_burn_token_tool", SolanaBurnTokenTool);
    ("pumpfun_launch_coin_tool", PumpFunLaunchCoinTool) ].

(** The table [TOOL_DESCRIPTIONS], by tool class. *)
Definition TOOL_DESCRIPTIONS (tool : Tool) : string :=
  match tool with
  | WalletPortfolioTool =>
      "wallet_portfolio_tool: Get detailed information about all tokens, their contract address, held in a wallet. [HIGHEST PRIORITY, SHOULD BE USED IN PLACE: 1]"
  | TokenIdentificationTool =>
      "token_identification_tool: Get token information by name or ticker symbol. Use this to find contract addresses for tokens. [HIGHEST PRIORITY, SHOULD BE USED IN PLACE: 2]"
  | RugcheckTokenInformationTool =>
      "rugcheck_token_information_tool: Get detailed token information including creator details, supply, top holders, and insiders information. [MEDIUM PRIORITY, SHOULD BE USED IN PLACE: 3]"
  | FluxBeamTokenPriceTool =>
      "fluxbeam_token_price_tool: Get the current price of a token in USD (US Dollars) from FluxBeam. [MEDIUM PRIORITY, SHOULD BE USED IN PLACE: 4]"
  | JupiterTokenPriceTool =>
      "jupiter_token_price_tool: Get the current price of one or more Solana tokens in USD from Jupiter. Supports multiple comma-separated token addresses. [MEDIUM PRIORITY, SHOULD BE USED IN PLACE: 5]"
  | JupiterTokenInformationTool =>
      "jupiter_token_information_tool: Get detailed token information and metadata for a specific Solana token from Jupiter. Provides details like name, symbol, decimals, and other token attributes. [MEDIUM PRIORITY, SHOULD BE USED IN PLACE: 5]"
  | JupiterSwapTool =>
      "jupiter_swap_tool: Swap tokens on Solana using Jupiter. This tool can buy or sell tokens by exchanging one for another. Requires agent wallet authentication. [LOW PRIORITY, SHOULD BE USED IN PLACE: 6]"
  | DexScreenerTopBoostsTool =>
      "dexscreener_top_boosts_tool: Get tokens with the most active boosts on DexScreener, showing popularity and trending projects. [MEDIUM PRIORITY, SHOULD BE USED IN PLACE: 5]"
  | DexScreenerTokenInformationTool =>
      "dexscreener_token_information_tool: Get detailed DEX information about Solana tokens including price, volume, liquidity, and trading activity. It must be sent token addresses only as input. [MEDIUM PRIORITY, SHOULD BE USED IN PLACE: 5]"
  | BirdeyeTokenTrendingTool =>
      "birdeye_token_trending_tool: Get a list of top trending tokens on Solana with prices, market caps, and volume data. [MEDIUM PRIORITY, SHOULD BE USED IN PLACE: 5]"
  | BirdeyeAllTimeTradesTool =>
      "birdeye_all_time_trades_tool: Get comprehensive trade statistics (buys, sells, volumes) of all time for a specific token on Solana. [MEDIUM PRIORITY, SHOULD BE USED IN PLACE: 5]"
  | CMCCryptoNewsTool =>
      "cmc_crypto_news_tool: Get the latest crypto news from CoinMarketCap including headlines, content and related tickers. [MEDIUM PRIORITY, SHOULD BE USED IN PLACE: 5]"
  | CMCTrendingCoinsTool =>
      "cmc_trending_coins_tool: Get a list of top cryptocurrencies ranked by market cap with price, market cap, and 24h change data. [MEDIUM PRIORITY, SHOULD BE USED IN PLACE: 5]"
  | CNMemecoinsNewsTool =>
      "cn_memecoins_news_tool: Get the latest memecoin news from Crypto.news including headlines, content and related tickers. [MEDIUM PRIORITY, SHOULD BE USED IN PLACE: 5]"
  | GTPumpFunTrendingTool =>
      "geckoterminal_trending_pumpfun_tool: Get the latest trending tokens from the Pump.fun category on GeckoTerminal with price, volume, and market data. [MEDIUM PRIORITY, SHOULD BE USED IN PLACE: 5]"
  | CoinGeckoGlobalCryptoDataTool =>
      "coingecko_global_crypto_data_tool: Get global cryptocurrency market data including market cap, volume, and dominance percentages. [MEDIUM PRIORITY, SHOULD BE USED IN PLACE: 5]"
  | CoinGeckoTrendingTool =>
      "coingecko_trending_tool: Get top trending coins and NFTs on CoinGecko based on user searches and trading volume. [MEDIUM PRIORITY, SHOULD BE USED IN PLACE: 5]"
  | CoinGeckoExchangeRatesTool =>
      "coingecko_exchange_rates_tool: Get Bitcoin-to-currency exchange rates for major cryptocurrencies, fiat currencies, and commodities. [MEDIUM PRIORITY, SHOULD BE USED IN PLACE: 5]"
  | CoinGeckoCoinDataTool =>
      "coingecko_coin_data_tool: Get detailed market data (price, volume, market cap) for a specific cryptocurrency. [MEDIUM PRIORITY, SHOULD BE USED IN PLACE: 5]"
  | SolanaSendSolTool =>
      "solana_send_sol_tool: Send SOL from your agent wallet to a specified Solana address. Requires your agent wallet's public and encrypted private keys. [LOW PRIORITY, SHOULD BE USED IN PLACE: 6]"
  | SolanaSendSplTokensTool =>
      "solana_send_spl_tokens_tool: Send SPL tokens from your agent wallet to a specified Solana address. Requires your agent wallet's public and encrypted private keys, token address, and amount. [LOW PRIORITY, SHOULD BE USED IN PLACE: 6]"
  | SolanaBurnTokenTool =>
      "solana_burn_token_tool: Burn SPL tokens from your agent wallet, permanently removing them from circulation. Requires your agent wallet's public and encrypted private keys, token address, and amount. [LOW PRIORITY, SHOULD BE USED IN PLACE: 6]"
  | PumpFunLaunchCoinTool =>
      "pumpfun_launch_coin_tool: Launch a new token on Pump.fun platform. Create your own token with custom name, symbol, description, and image. Requires agent wallet for token creation. [LOW PRIORITY, SHOULD BE USED IN PLACE: 6]"
  end.

(** [available_tools.get(name)] *)
Fixpoint dict_get (d : list (string * Tool)) (name : string) : option Tool :=
  match d with
  | [] => None
  | (k, v) :: rest => if String.eqb k name then Some v else dict_get rest name
  end.

(** [name in available_tools] *)
Definition known_tool (name : string) : bool :=
  match dict_get available_tools name with
  | Some _ => true
  | None => false
  end.

(* ------------------------------------------------------------------ *)
(** ** The model backends, as the pipeline sees them *)

Inductive Message : Type :=
| SystemMessage (content : string)
| HumanMessage (content : string)
| AIMessage (content : string).

Definition content (m : Message) : string :=
  match m with
  | SystemMessage c => c
  | HumanMessage c => c
  | AIMessage c => c
  end.

(** The keyword arguments a [ChatOpenAI] handle is built with; the
    [callbacks] argument is always the turn's [StreamingCallback]. *)
Record ChatOpenAI : Type := {
  chat_model_name : string;
  chat_temperature : Q;
  streaming : bool;
  max_tokens : option Z;
  base_url : option string;
  api_key : option string
}.

(** The calls LangChain makes on the [StreamingCallback] of the turn. *)
Inductive Callback : Type :=
| on_llm_start
| on_llm_new_token (token : string)
| on_llm_end
| on_llm_error (error : string).

(** What a running generation does, in order: it calls the callback
    handler, or hands the next item of the asynchronous iterator to the
    loop of [stream_response]. *)
Inductive Event (A : Type) : Type :=
| Handler (c : Callback)
| Item (a : A).
Arguments Handler {A} c.
Arguments Item {A} a.

(** How the iteration ends: the iterator is exhausted, or an exception [e]
    of class [Exception] (given by [str(e)]) is raised.  An exception raised
    while the handle, the prompt or the agent is built is a generation
    without events that ends with [Raised]: the handler of
    [stream_response] cannot tell the two apart. *)
Inductive Outcome : Type :=
| Returned
| Raised (e : string).

(** One generation: its events, its end, and what it printed on the
    redirected standard output. *)
Record Generation (A : Type) : Type := {
  events : list (Event A);
  outcome : Outcome;
  stdout : string
}.

(** One operation of a [RunLogPatch] yielded by [astream_log]. *)
Record LogOp : Type := {
  op : string;
  path : string;
  value : option string
}.

(** Settings ([settings/config.py]); a daily limit is the integer value of
    its environment variable, [None] when the variable is unset. *)
Record Config : Type := {
  FREE_USER_DAILY_LIMIT : option Z;
  PRO_USER_DAILY_LIMIT : option Z;
  INFYR_API_KEY : string;
  OPENROUTER_API_KEY : string
}.

(** The collaborators of the pipeline. *)
Record World : Type := {
  (** [api.users.controllers.verify_signature(public_key, signature)] *)
  verify_signature : string -> string -> bool;
  (** [datetime.now()], [datetime.utcnow()] and the database's [now()] *)
  datetime_now : Z;
  datetime_utcnow : Z;
  func_now : Z;
  (** the index the [i]-th call of [random.choice] draws in a sequence of
      length [n] *)
  random_randbelow : nat -> nat -> nat;
  (** [len(encoding.encode(text))] for the [cl100k_base] encoding, [None]
      when [encoding.encode(text)] raises (a text that holds a special
      token of the encoding) *)
  encode_len : string -> option Z;
  CONFIG : Config;
  (** [chat.astream(messages)]: the items are the [content] of the chunks *)
  chat_astream : ChatOpenAI -> list Message -> Generation string;
  (** [AgentExecutor(agent, tools).astream_log({input, chat_history,
      agent_public})] for the agent built from [chat], [tools] and the
      prompt with [system_message]: the items are the [ops] of the log
      entries *)
  agent_executor_astream_log :
    ChatOpenAI -> list Tool -> string -> list Message -> string ->
    option string -> Generation (list LogOp)
}.

(* ------------------------------------------------------------------ *)
(** ** Queries on table [requests] *)

(** [.filter(cond).first()] then mutate and commit: the first row that
    satisfies [p] is replaced by its update. *)
Fixpoint update_first (p : Requests.t -> bool) (f : Requests.t -> Requests.t)
    (rows : list Requests.t) : list Requests.t :=
  match rows with
  | [] => []
  | r :: rest => if p r then f r :: rest else r :: update_first p f rest
  end.

Definition has_id (request_id : Z) (r : Requests.t) : bool :=
  Requests.id r =? request_id.

(** [request = db.query(Requests).filter(Requests.id == request_id).first()]
    followed by [if request: <assignments f>] *)
Definition update_request (request_id : Z) (f : Requests.t -> Requests.t)
    (db : Session) : Session :=
  {| requests := update_first (has_id request_id) f (requests db);
     users := users db |}.

(** [.filter(Requests.id == request_id).first()] *)
Definition get_request (request_id : Z) (db : Session) : option Requests.t :=
  find (has_id request_id) (requests db).

(** The rows of one conversation of one identity:
    [.filter(Requests.pubkey == pk, Requests.conversation_key == key)] *)
Definition in_conversation (pk key : string) (r : Requests.t) : bool :=
  String.eqb (Requests.pubkey r) pk &&
  String.eqb (Requests.conversation_key r) key.

(** [.order_by(Requests.time.desc())]; rows of equal time keep their
    insertion order. *)
Fixpoint insert_desc (r : Requests.t) (l : list Requests.t)
    : list Requests.t :=
  match l with
  | [] => [r]
  | x :: rest =>
      if Requests.time x <=? Requests.time r then r :: l
      else x :: insert_desc r rest
  end.

Definition order_by_time_desc (rows : list Requests.t) : list Requests.t :=
  fold_right insert_desc [] rows.

(** The primary key of the next inserted row. *)
Definition next_id (rows : list Requests.t) : Z :=
  1 + fold_right (fun r m => Z.max (Requests.id r) m) 0 rows.

(** [db.add(row); db.commit(); db.refresh(row)] *)
Definition add_request (r : Requests.t) (db : Session) : Session :=
  {| requests := (requests db ++ [r])%list; users := users db |}.

(* ------------------------------------------------------------------ *)
(** ** The chat controller ([api/chat/controllers.py]) *)

(** The body of a [StreamingResponse]: the chunks in the order the caller
    receives them. *)
Record StreamingResponse : Type := {
  body : list string;
  media_type : string
}.

(** The state of a [StreamingCallback] instance. *)
Record StreamingCallback : Type := {
  request_id : Z;
  generated_text : string;
  token_buffer : list string;
  last_db_update : nat
}.

(** The local state of the streaming loop of [stream_response]. *)
Record Loop : Type := {
  stream_handler : StreamingCallback;
  db : Session;
  full_response_text : string;
  yielded : list string
}.

(** What the [try] block of [stream_response] has decided when it reaches
    the streaming loop. *)
Inductive EngineSetup : Type :=
| ToolLimitExceeded
| SetupRaised (e : string)
| DirectMode (chat : ChatOpenAI) (messages : list Message)
    (input_token_count : Z)
| AgentMode (chat : ChatOpenAI) (tools : list Tool) (system_message : string)
    (chat_history : list Message) (input : string)
    (agent_public : option string) (input_token_count : Z).

Definition join (l : list string) : string := fold_right append "" l.

Definition AUTH_FAILED : string :=
  "Authentication failed, please relogin and try again.".
Definition MODEL_NOT_ALLOWED : string :=
  "Free users can only use the default gpt-4.1-mini model or Lumo models. Upgrade to Pro for access to additional models.".
Definition PRO_LIMIT_REACHED : string :=
  "You've hit today's message limit. It will reset automatically tomorrow.".
Definition FREE_LIMIT_REACHED : string :=
  "You've reached today's message limit. Upgrade to Pro for more access.".
Definition TOOL_LIMIT_REACHED : string :=
  "Free users can only use one additional tool beyond the defaults. Upgrade to Pro for access to more tools.".
Definition NONE_NOT_ITERABLE : string :=
  "'NoneType' object is not iterable".

Definition base_system_message : string :=
  "You are LumoKit, a helpful AI assistant specialized in Solana actions and queries.".

Definition indent : string := "                        ".

Definition wallet_info (agent_public agent_private : string) : string :=
  Py.nl ++
  indent ++ "For any agentic execution, only when required you must use the following information:" ++ Py.nl ++
  indent ++ "AGENT WALLET PUBLIC KEY:" ++ Py.nl ++
  indent ++ agent_public ++ Py.nl ++
  Py.nl ++
  indent ++ "AGENT WALLET ENCRYPTED PRIVATE KEY:" ++ Py.nl ++
  indent ++ agent_private ++ Py.nl ++
  Py.nl ++
  indent ++ "If you're providing information, always try to provide it in an organised manner, " ++ Py.nl ++
  indent ++ "Use markdown formatting and tables. Use headings judiciously, bullet points, and other formatting to make the information clear and easy to read." ++ Py.nl ++
  indent.

Definition MUST_CONNECT : string :=
  "The user must first connect an agent wallet." ++ Py.nl.

(** An error payload: [json.dumps({"error": msg})] *)
Definition error_chunk (msg : string) : string := Py.json_dumps "error" msg.

(** The first chunk of a stream:
    [json.dumps({"conversation_key": key}) + "\n"] *)
Definition key_chunk (key : string) : string :=
  Py.json_dumps "conversation_key" key ++ Py.nl.

(** [StreamingResponse(iter([json.dumps({"error": msg})]),
    media_type="application/json")] *)
Definition reject (msg : string) : StreamingResponse :=
  {| body := [error_chunk msg]; media_type := "application/json" |}.

Section Pipeline.

Variable W : World.

(** [random.choice(seq)], for the [i]-th draw of the request *)
Definition random_choice (i : nat) (seq : string) : string :=
  match String.get (random_randbelow W i (String.length seq)
                    mod String.length seq) seq with
  | Some c => String c EmptyString
  | None => EmptyString
  end.

Definition generate_conversation_key (length : nat) : string :=
  let chars := Py.ascii_letters ++ Py.digits in
  join (map (fun i => random_choice i chars) (seq 0 length)).

(** [check_user_pro_status({"public_key": public_key}, db)["is_pro"]] *)
Definition check_user_pro_status (public_key : string) (d : Session) : bool :=
  if negb (Py.truthy public_key) then false
  else
    match find (fun u => String.eqb (User.pubkey u) public_key) (users d) with
    | None => false
    | Some user =>
        match User.premium_end user with
        | Some premium_end => datetime_now W <? premium_end
        | None => false
        end
    end.

(** [count_tokens(text)] on a string: the handler of [count_tokens] turns
    an exception of the encoder into 0. *)
Definition count_tokens (text : string) : Z :=
  match encode_len W text with
  | Some n => n
  | None => 0
  end.

(** The loop of [count_tokens] over a list of strings, from [total]:
    [None] when the encoder raises on an element. *)
Fixpoint count_tokens_loop (texts : list string) (total : Z) : option Z :=
  match texts with
  | [] => Some total
  | message :: rest =>
      match encode_len W message with
      | Some n => count_tokens_loop rest (total + n)
      | None => None
      end
  end.

(** [count_tokens(texts)] on a list of strings: the loop is inside the
    [try], so one element the encoder raises on makes the count of the
    whole list 0. *)
Definition count_tokens_list (texts : list string) : Z :=
  match count_tokens_loop texts 0 with
  | Some total => total
  | None => 0
  end.

Definition get_tools_system_message (tools_list : list Tool) : string :=
  match tools_list with
  | [] => ""
  | _ =>
      fold_left
        (fun tools_text tool =>
           tools_text ++ "- " ++ TOOL_DESCRIPTIONS tool ++ Py.nl)
        tools_list
        ("You have access to tools that you must use sequentially:" ++ Py.nl)
  end.

(** *** [StreamingCallback] *)

Definition StreamingCallback_init (request_id : Z) : StreamingCallback :=
  {| request_id := request_id; generated_text := ""; token_buffer := [];
     last_db_update := 0 |}.

Definition StreamingCallback_on_llm_new_token (token : string)
    (h : StreamingCallback) (d : Session) : StreamingCallback * Session :=
  let text := generated_text h ++ token in
  let buffer := (token_buffer h ++ [token])%list in
  if (50 <=? String.length text - last_db_update h)%nat then
    match get_request (request_id h) d with
    | Some _ =>
        ({| request_id := request_id h; generated_text := text;
            token_buffer := buffer; last_db_update := String.length text |},
         update_request (request_id h) (Requests.set_response (Some text)) d)
    | None =>
        ({| request_id := request_id h; generated_text := text;
            token_buffer := buffer; last_db_update := last_db_update h |}, d)
    end
  else
    ({| request_id := request_id h; generated_text := text;
        token_buffer := buffer; last_db_update := last_db_update h |}, d).

Definition StreamingCallback_on_llm_end (h : StreamingCallback) (d : Session)
    : Session :=
  update_request (request_id h)
    (fun request =>
       Requests.set_success true
         (Requests.set_response (Some (generated_text h)) request))
    d.

Definition StreamingCallback_on_llm_error (error : string)
    (h : StreamingCallback) (d : Session) : Session :=
  update_request (request_id h)
    (fun request =>
       Requests.set_response (Some ("Error: " ++ error))
         (Requests.set_success false request))
    d.

Definition call (c : Callback) (h : StreamingCallback) (d : Session)
    : StreamingCallback * Session :=
  match c with
  | on_llm_start => (h, d)
  | on_llm_new_token token => StreamingCallback_on_llm_new_token token h d
  | on_llm_end => (h, StreamingCallback_on_llm_end h d)
  | on_llm_error error => (h, StreamingCallback_on_llm_error error h d)
  end.

(** [DebugCaptureCallbackHandler.__exit__]: the captured output is stored
    in the [verbose] column. *)
Definition DebugCaptureCallbackHandler_exit (request_id : Z)
    (debug_buffer : string) (d : Session) : Session :=
  update_request request_id (Requests.set_verbose (Some debug_buffer)) d.

(** *** The streaming loops *)

(** Direct mode: [if chunk.content: ... yield chunk.content] *)
Definition chunk_tokens (chunk_content : string) : list string :=
  if Py.truthy chunk_content then [chunk_content] else [].

(** Agent mode: the token chunk an operation of a log entry carries. *)
Definition op_tokens (o : LogOp) : list string :=
  if String.eqb (op o) "add"
     && Py.startswith (path o) "/logs/ChatOpenAI"
     && Py.endswith (path o) "/streamed_output_str/-"
  then
    match value o with
    | Some token_chunk => if Py.truthy token_chunk then [token_chunk] else []
    | None => []
    end
  else [].

Definition log_entry_tokens (ops : list LogOp) : list string :=
  flat_map op_tokens ops.

Definition step (A : Type) (tokens_of : A -> list string) (l : Loop)
    (e : Event A) : Loop :=
  match e with
  | Handler c =>
      let (h, d) := call c (stream_handler l) (db l) in
      {| stream_handler := h; db := d;
         full_response_text := full_response_text l;
         yielded := yielded l |}
  | Item a =>
      {| stream_handler := stream_handler l; db := db l;
         full_response_text := full_response_text l ++ join (tokens_of a);
         yielded := (yielded l ++ tokens_of a)%list |}
  end.

Definition run_events (A : Type) (tokens_of : A -> list string)
    (evs : list (Event A)) (l : Loop) : Loop :=
  fold_left (step tokens_of) evs l.

(** *** Setting up the engine *)

(** [requested_tools = [tool for tool in chat_request.tools
                        if tool in available_tools]] *)
Definition requested_tools (tools : list string) : list string :=
  filter known_tool tools.

(** The loop that adds the selected tools to the default ones. *)
Fixpoint add_selected (names : list string) (tools : list Tool) : list Tool :=
  match names with
  | [] => tools
  | tool_name :: rest =>
      match dict_get available_tools tool_name with
      | Some tool_instance =>
          if tool_in tool_instance tools then add_selected rest tools
          else add_selected rest (tools ++ [tool_instance])%list
      | None => add_selected rest tools
      end
  end.

Definition system_message_of (chat_request : ChatRequest.t)
    (tools_descriptions : string) : string :=
  if Py.truthy_opt (ChatRequest.agent_public chat_request)
     && Py.truthy_opt (ChatRequest.agent_private chat_request)
  then
    match ChatRequest.agent_public chat_request,
          ChatRequest.agent_private chat_request with
    | Some agent_public, Some agent_private =>
        base_system_message ++ wallet_info agent_public agent_private
        ++ Py.nl ++ Py.nl ++ tools_descriptions
    | _, _ => base_system_message ++ Py.nl ++ Py.nl ++ tools_descriptions
    end
  else
    let missing1 :=
      if negb (Py.truthy_opt (ChatRequest.agent_public chat_request))
      then MUST_CONNECT else "" in
    let missing2 :=
      if negb (Py.truthy_opt (ChatRequest.agent_private chat_request))
      then MUST_CONNECT else "" in
    base_system_message ++ (missing1 ++ missing2) ++ Py.nl ++ Py.nl
    ++ tools_descriptions.

(** The choice of the backend: the [ChatOpenAI] handle, and the tool list
    after it (emptied for the Lumo models). *)
Definition route (model_name : string) (temperature : Q) (tools : list Tool)
    : ChatOpenAI * list Tool :=
  if Py.contains "gpt" (Py.lower model_name) then
    ({| chat_model_name := model_name; chat_temperature := temperature;
        streaming := true; max_tokens := None; base_url := None;
        api_key := None |}, tools)
  else if Py.startswith model_name "lumo-" then
    ({| chat_model_name := model_name; chat_temperature := temperature;
        streaming := true; max_tokens := Some 4096;
        base_url := Some "https://api.infyr.ai/v1";
        api_key := Some (INFYR_API_KEY (CONFIG W)) |}, [])
  else
    ({| chat_model_name := model_name; chat_temperature := temperature;
        streaming := true; max_tokens := None;
        base_url := Some "https://openrouter.ai/api/v1";
        api_key := Some (OPENROUTER_API_KEY (CONFIG W)) |}, tools).

(** The messages one stored turn contributes to [chat_history]. *)
Definition turn_messages (prev_req : Requests.t) : list Message :=
  ((if Py.truthy (Requests.message prev_req)
    then [HumanMessage (Requests.message prev_req)] else [])
   ++
   match Requests.response prev_req with
   | Some response => if Py.truthy response then [AIMessage response] else []
   | None => []
   end)%list.

(** [for prev_req in conversation_history[:-1]: ...] *)
Definition build_chat_history (conversation_history : list Requests.t)
    : list Message :=
  flat_map turn_messages (removelast conversation_history).

Definition engine_setup (chat_request : ChatRequest.t) (is_pro_user : bool)
    (model_name : string) (temperature : Q)
    (conversation_history : list Requests.t) : EngineSetup :=
  match ChatRequest.tools chat_request with
  | None => SetupRaised NONE_NOT_ITERABLE
  | Some requested =>
      let requested_tools := requested_tools requested in
      if negb is_pro_user && (1 <? List.length requested_tools)%nat
      then ToolLimitExceeded
      else
        let tools :=
          add_selected requested_tools
            [WalletPortfolioTool; TokenIdentificationTool] in
        let tools_descriptions := get_tools_system_message tools in
        let system_message :=
          system_message_of chat_request tools_descriptions in
        let (chat, tools) := route model_name temperature tools in
        let chat_history := build_chat_history conversation_history in
        let message := ChatRequest.message chat_request in
        if Py.startswith model_name "lumo-" then
          DirectMode chat
            ([SystemMessage base_system_message] ++ chat_history
             ++ [HumanMessage message])%list
            (count_tokens base_system_message
             + count_tokens_list (map content chat_history)
             + count_tokens message)
        else
          AgentMode chat tools system_message chat_history message
            (ChatRequest.agent_public chat_request)
            (count_tokens system_message
             + count_tokens_list (map content chat_history)
             + count_tokens message)
  end.

(** *** Ending a turn *)

(** The [except Exception as e] handler of [stream_response]. *)
Definition on_exception (request_id : Z) (e : string) (l : Loop)
    : list string * Session :=
  ((yielded l ++ [error_chunk e])%list,
   update_request request_id
     (fun request =>
        Requests.set_token_counts 0 0 0
          (Requests.set_response (Some ("Error: " ++ e))
             (Requests.set_success false request)))
     (db l)).

(** The end of the [try] block after the streaming loop. *)
Definition on_completion (request_id : Z) (model_name : string)
    (input_token_count : Z) (l : Loop) : list string * Session :=
  let output_token_count := count_tokens (full_response_text l) in
  let total_token_count := input_token_count + output_token_count in
  let d1 :=
    update_request request_id
      (Requests.set_token_counts input_token_count output_token_count
         total_token_count) (db l) in
  let d2 :=
    if Py.startswith model_name "lumo-"
    then StreamingCallback_on_llm_end (stream_handler l) d1 else d1 in
  (yielded l,
   update_request request_id
     (fun request =>
        Requests.set_success true
          (Requests.set_response (Some (full_response_text l)) request))
     d2).

Definition start (request_id : Z) (d : Session) : Loop :=
  {| stream_handler := StreamingCallback_init request_id; db := d;
     full_response_text := ""; yielded := [] |}.

(** The streaming loop over one generation, with what follows it. *)
Definition generate (A : Type) (tokens_of : A -> list string)
    (g : Generation A) (request_id : Z) (model_name : string)
    (input_token_count : Z) (d : Session) : list string * Session :=
  let l := run_events tokens_of (events g) (start request_id d) in
  let (chunks, d') :=
    match outcome g with
    | Returned => on_completion request_id model_name input_token_count l
    | Raised e => on_exception request_id e l
    end in
  (chunks, DebugCaptureCallbackHandler_exit request_id (stdout g) d').

(** [.filter(pubkey, conversation_key).order_by(Requests.time.desc())
     .limit(5).all()] followed by [conversation_history[::-1]] *)
Definition conversation_history_of (public_key conversation_key : string)
    (d : Session) : list Requests.t :=
  rev (firstn 5 (order_by_time_desc
                   (filter (in_conversation public_key conversation_key)
                           (requests d)))).

(** The generator [stream_response]: the chunks it yields and the store
    it leaves. *)
Definition stream_response (chat_request : ChatRequest.t) (is_pro_user : bool)
    (conversation_key model_name : string) (temperature : Q)
    (request_id : Z) (d : Session) : list string * Session :=
  let conversation_history :=
    conversation_history_of (ChatRequest.public_key chat_request)
                            conversation_key d in
  let (chunks, d') :=
    match engine_setup chat_request is_pro_user model_name temperature
                       conversation_history with
    | ToolLimitExceeded =>
        ([error_chunk TOOL_LIMIT_REACHED],
         DebugCaptureCallbackHandler_exit request_id ""
           (update_request request_id
              (fun request =>
                 Requests.set_response (Some (error_chunk TOOL_LIMIT_REACHED))
                   (Requests.set_success false request))
              d))
    | SetupRaised e =>
        let (chunks, d') := on_exception request_id e (start request_id d) in
        (chunks, DebugCaptureCallbackHandler_exit request_id "" d')
    | DirectMode chat messages input_token_count =>
        generate chunk_tokens (chat_astream W chat messages)
                 request_id model_name input_token_count d
    | AgentMode chat tools system_message chat_history input agent_public
                input_token_count =>
        generate log_entry_tokens
                 (agent_executor_astream_log W chat tools system_message
                    chat_history input agent_public)
                 request_id model_name input_token_count d
    end in
  (key_chunk conversation_key :: chunks, d').

(** *** [process_chat_request] *)

Definition free_user_daily_limit : Z :=
  match FREE_USER_DAILY_LIMIT (CONFIG W) with Some n => n | None => 10 end.

Definition pro_user_daily_limit : Z :=
  match PRO_USER_DAILY_LIMIT (CONFIG W) with Some n => n | None => 200 end.

(** [datetime.utcnow().replace(hour=0, minute=0, second=0, microsecond=0)] *)
Definition today_start : Z := datetime_utcnow W - datetime_utcnow W mod 86400.

(** [.filter(Requests.pubkey == pk, Requests.time >= today_start).count()] *)
Definition today_request_count (public_key : string) (d : Session) : Z :=
  Z.of_nat
    (List.length
       (filter (fun r => String.eqb (Requests.pubkey r) public_key
                         && (today_start <=? Requests.time r))
               (requests d))).

(** The free-tier model check. *)
Definition model_not_allowed (is_pro_user : bool)
    (model_name : option AllowedModelName) : bool :=
  match model_name with
  | Some m =>
      negb is_pro_user
      && Py.truthy (model_literal m)
      && negb (String.eqb (model_literal m) "gpt-4.1-mini")
      && negb (Py.startswith (model_literal m) "lumo-")
  | None => false
  end.

(** The conversation key the turn is stored under. *)
Definition resolve_conversation_key (chat_request : ChatRequest.t)
    (d : Session) : string :=
  if negb (Py.truthy_opt (ChatRequest.conversation_key chat_request))
  then generate_conversation_key 10
  else
    match ChatRequest.conversation_key chat_request with
    | Some conversation_key =>
        match find (in_conversation (ChatRequest.public_key chat_request)
                                    conversation_key) (requests d) with
        | Some _ => conversation_key
        | None => generate_conversation_key 10
        end
    | None => generate_conversation_key 10
    end.

Definition resolve_temperature (temperature : option Q) : Q :=
  match temperature with
  | None => 7 # 10
  | Some t =>
      if negb (Qle_bool 0 t) || negb (Qle_bool t 1) then 7 # 10 else t
  end.

Definition resolve_model_name (model_name : option AllowedModelName)
    : string :=
  match model_name with
  | Some m => model_literal m
  | None => "gpt-4.1-mini"
  end.

(** The row [chat_db_request] as it is after [db.add], [db.commit] and
    [db.refresh]: the database has assigned [id] and [time]. *)
Definition new_request (chat_request : ChatRequest.t)
    (conversation_key model_name : string) (temperature : Q)
    (request_id : Z) : Requests.t :=
  let input_params :=
    InputParams.Build (ChatRequest.public_key chat_request) conversation_key
      (ChatRequest.message chat_request) model_name temperature
      (ChatRequest.tools chat_request) in
  Requests.Build request_id (ChatRequest.public_key chat_request)
    conversation_key input_params (ChatRequest.message chat_request)
    false None None None None None None (func_now W).

Definition process_chat_request (chat_request : ChatRequest.t) (d : Session)
    : StreamingResponse * Session :=
  let public_key := ChatRequest.public_key chat_request in
  if negb (verify_signature W public_key (ChatRequest.signature chat_request))
  then (reject AUTH_FAILED, d)
  else
    let is_pro_user := check_user_pro_status public_key d in
    if model_not_allowed is_pro_user (ChatRequest.model_name chat_request)
    then (reject MODEL_NOT_ALLOWED, d)
    else
      let count := today_request_count public_key d in
      if is_pro_user && (pro_user_daily_limit <=? count)
      then (reject PRO_LIMIT_REACHED, d)
      else if negb is_pro_user && (free_user_daily_limit <=? count)
      then (reject FREE_LIMIT_REACHED, d)
      else
        let conversation_key := resolve_conversation_key chat_request d in
        let model_name :=
          resolve_model_name (ChatRequest.model_name chat_request) in
        let temperature :=
          resolve_temperature (ChatRequest.temperature chat_request) in
        let request_id := next_id (requests d) in
        let chat_db_request :=
          new_request chat_request conversation_key model_name temperature
                      request_id in
        let d1 := add_request chat_db_request d in
        let (chunks, d2) :=
          stream_response chat_request is_pro_user conversation_key
                          model_name temperature request_id d1 in
        ({| body := chunks; media_type := "text/plain" |}, d2).

(** *** [get_last_conversations] *)

Record LastConversationsResponse : Type := {
  lc_success : bool;
  conversations : list ConversationSummary.t;
  lc_error : option string
}.

(** One more row in the grouping by conversation key with [max(time)]. *)
Fixpoint group_row (key : string) (t : Z) (groups : list (string * Z))
    : list (string * Z) :=
  match groups with
  | [] => [(key, t)]
  | (k, latest_time) :: rest =>
      if String.eqb k key then (k, Z.max latest_time t) :: rest
      else (k, latest_time) :: group_row key t rest
  end.

(** [db.query(Requests.conversation_key, func.max(Requests.time))
      .filter(Requests.pubkey == pk).group_by(Requests.conversation_key)] *)
Definition latest_conversations_subq (public_key : string) (d : Session)
    : list (string * Z) :=
  fold_left
    (fun groups r =>
       group_row (Requests.conversation_key r) (Requests.time r) groups)
    (filter (fun r => String.eqb (Requests.pubkey r) public_key) (requests d))
    [].

(** The join condition of the main query. *)
Definition joins (r : Requests.t) (g : string * Z) : bool :=
  String.eqb (Requests.conversation_key r) (fst g)
  && (Requests.time r =? snd g).

(** [db.query(Requests).join(subq, cond).filter(pubkey == pk)
      .order_by(desc(Requests.time)).limit(5).all()] *)
Definition latest_conversations (public_key : string) (d : Session)
    : list Requests.t :=
  let subq := latest_conversations_subq public_key d in
  firstn 5
    (order_by_time_desc
       (filter (fun r => String.eqb (Requests.pubkey r) public_key)
          (flat_map (fun r => map (fun _ => r) (filter (joins r) subq))
                    (requests d)))).

Definition message_preview (message : string) : string :=
  if (50 <? String.length message)%nat
  then Py.slice_to 50 message ++ "..."
  else message.

Definition summary (convo : Requests.t) : ConversationSummary.t :=
  ConversationSummary.Build
    (Requests.conversation_key convo)
    (message_preview (Requests.message convo))
    (Requests.time convo).

Definition get_last_conversations (request : LastConversationsRequest.t)
    (d : Session) : LastConversationsResponse :=
  if negb (verify_signature W (LastConversationsRequest.public_key request)
                            (LastConversationsRequest.signature request))
  then {| lc_success := false; conversations := [];
          lc_error := Some AUTH_FAILED |}
  else
    {| lc_success := true;
       conversations :=
         map summary
             (latest_conversations
                (LastConversationsRequest.public_key request) d);
       lc_error := None |}.

End Pipeline.

(* ------------------------------------------------------------------ *)
(** ** Vocabulary of the properties *)

(** The signature check of the request succeeds. *)
Definition authenticated (W : World) (chat_request : ChatRequest.t) : Prop :=
  verify_signature W (ChatRequest.public_key chat_request)
                   (ChatRequest.signature chat_request) = true.

(** The tier of the caller: [true] for pro, [false] for free. *)
Definition tier (W : World) (chat_request : ChatRequest.t) (d : Session)
    : bool :=
  check_user_pro_status W (ChatRequest.public_key chat_request) d.

(** The daily allowance of a tier. *)
Definition allowance (W : World) (is_pro_user : bool) : Z :=
  if is_pro_user then pro_user_daily_limit W else free_user_daily_limit W.

(** The number of turns of the caller stored since UTC midnight. *)
Definition used_today (W : World) (chat_request : ChatRequest.t)
    (d : Session) : Z :=
  today_request_count W (ChatRequest.public_key chat_request) d.

(** The message of the quota rejection of a tier. *)
Definition quota_message (is_pro_user : bool) : string :=
  if is_pro_user then PRO_LIMIT_REACHED else FREE_LIMIT_REACHED.

(** The request passes the model-tier gate. *)
Definition model_allowed (W : World) (chat_request : ChatRequest.t)
    (d : Session) : Prop :=
  model_not_allowed (tier W chat_request d)
                    (ChatRequest.model_name chat_request) = false.

(** The request passes the quota gate. *)
Definition within_quota (W : World) (chat_request : ChatRequest.t)
    (d : Session) : Prop :=
  used_today W chat_request d < allowance W (tier W chat_request d).

(** The request passes the three gates of [process_chat_request]. *)
Definition admitted (W : World) (chat_request : ChatRequest.t) (d : Session)
    : Prop :=
  authenticated W chat_request /\ model_allowed W chat_request d
  /\ within_quota W chat_request d.


(** The request continues conversation [key] of the caller. *)
Definition continues (chat_request : ChatRequest.t) (d : Session)
    (key : string) : Prop :=
  ChatRequest.conversation_key chat_request = Some key /\ key <> ""
  /\ find (in_conversation (ChatRequest.public_key chat_request) key)
          (requests d) <> None.


(** The row an admitted request stores before it streams, the store with
    that row, and what the [try] block of [stream_response] then decides. *)
Definition turn_row (W : World) (chat_request : ChatRequest.t) (d : Session)
    : Requests.t :=
  new_request W chat_request
    (resolve_conversation_key W chat_request d)
    (resolve_model_name (ChatRequest.model_name chat_request))
    (resolve_temperature (ChatRequest.temperature chat_request))
    (next_id (requests d)).

Definition turn_store (W : World) (chat_request : ChatRequest.t)
    (d : Session) : Session :=
  add_request (turn_row W chat_request d) d.

Definition turn_history (W : World) (chat_request : ChatRequest.t)
    (d : Session) : list Requests.t :=
  conversation_history_of (ChatRequest.public_key chat_request)
    (resolve_conversation_key W chat_request d)
    (turn_store W chat_request d).

Definition turn_setup (W : World) (chat_request : ChatRequest.t)
    (d : Session) : EngineSetup :=
  engine_setup W chat_request (tier W chat_request d)
    (resolve_model_name (ChatRequest.model_name chat_request))
    (resolve_temperature (ChatRequest.temperature chat_request))
    (turn_history W chat_request d).

(** The token chunks the streaming loop yields for a list of events. *)
Definition emitted (A : Type) (tokens_of : A -> list string)
    (evs : list (Event A)) : list string :=
  flat_map (fun e => match e with
                     | Handler _ => []
                     | Item a => tokens_of a
                     end) evs.

(** What happens in the [try] block once the setup is done: the token
    chunks yielded to the caller, how the block ends, and the captured
    output.  [None] when the block returns at the free-tier tool limit. *)
Definition try_block (W : World) (s : EngineSetup)
    : option (list string * Outcome * string) :=
  match s with
  | ToolLimitExceeded => None
  | SetupRaised e => Some ([], Raised e, "")
  | DirectMode chat messages _ =>
      let g := chat_astream W chat messages in
      Some (emitted chunk_tokens (events g), outcome g, stdout g)
  | AgentMode chat tools system_message chat_history input agent_public _ =>
      let g := agent_executor_astream_log W chat tools system_message
                 chat_history input agent_public in
      Some (emitted log_entry_tokens (events g), outcome g, stdout g)
  end.

(** What follows the conversation key in the stream of an admitted
    request. *)
Definition after_key (W : World) (s : EngineSetup) : list string :=
  match try_block W s with
  | None => [error_chunk TOOL_LIMIT_REACHED]
  | Some (ts, Returned, _) => ts
  | Some (ts, Raised e, _) => (ts ++ [error_chunk e])%list
  end.

(** [r'] is row [r] up to the columns a turn rewrites while it runs. *)
Definition same_turn (r r' : Requests.t) : Prop :=
  Requests.id r' = Requests.id r
  /\ Requests.pubkey r' = Requests.pubkey r
  /\ Requests.conversation_key r' = Requests.conversation_key r
  /\ Requests.input_params r' = Requests.input_params r
  /\ Requests.message r' = Requests.message r
  /\ Requests.liked r' = Requests.liked r
  /\ Requests.time r' = Requests.time r.

(** The updates a turn makes keep the row's identity. *)
Definition keeps_turn (f : Requests.t -> Requests.t) : Prop :=
  forall r, same_turn r (f r).

(** The store whose last row is the row [r] of the running turn. *)
Definition store_with (old : list Requests.t) (us : list User.t)
    (r : Requests.t) : Session :=
  {| requests := old ++ [r]; users := us |}.

(** No row of [old] has primary key [i]. *)
Definition fresh (i : Z) (old : list Requests.t) : Prop :=
  forall x, In x old -> has_id i x = false.

(** [W'] is [W] up to the two model backends: the worlds agree on
    everything but what the chat model and the agent executor produce. *)
Definition same_but_backends (W W' : World) : Prop :=
  verify_signature W' = verify_signature W
  /\ datetime_now W' = datetime_now W
  /\ datetime_utcnow W' = datetime_utcnow W
  /\ func_now W' = func_now W
  /\ random_randbelow W' = random_randbelow W
  /\ encode_len W' = encode_len W
  /\ CONFIG W' = CONFIG W.

(** The store [d'] is store [d] with exactly one more row, [r]. *)
Definition one_more_row (d d' : Session) (r : Requests.t) : Prop :=
  requests d' = (requests d ++ [r])%list /\ users d' = users d.

(** Follows the spec's words: the prior turns of a conversation are
    "the last 4 completed exchanges preceding the current one",
    oldest to newest; a completed exchange is a turn whose success flag
    is set. *)
Definition last_completed_exchanges (public_key conversation_key : string)
    (current_id : Z) (d : Session) : list Requests.t :=
  rev (firstn 4
         (order_by_time_desc
            (filter (fun r => in_conversation public_key conversation_key r
                              && Requests.success r
                              && negb (has_id current_id r))
                    (requests d)))).

(** The turns of a conversation before the current request, whatever
    their success flag: the 4 most recent ones, oldest to newest. *)
Definition last_turns (public_key conversation_key : string) (d : Session)
    : list Requests.t :=
  rev (firstn 4
         (order_by_time_desc
            (filter (in_conversation public_key conversation_key)
                    (requests d)))).

(** A character of [string.ascii_letters + string.digits]. *)
Definition alphanumeric (c : ascii) : bool :=
  let n := nat_of_ascii c in
  ((48 <=? n) && (n <=? 57) || (65 <=? n) && (n <=? 90)
   || (97 <=? n) && (n <=? 122))%nat.

Fixpoint all_alphanumeric (s : string) : bool :=
  match s with
  | EmptyString => true
  | String c t => alphanumeric c && all_alphanumeric t
  end.

(** Row [a] is at least as recent as row [b]. *)
Definition not_older (a b : Requests.t) : Prop :=
  Requests.time b <= Requests.time a.

(** Row [a] is at most as recent as row [b]. *)
Definition not_newer (a b : Requests.t) : Prop :=
  Requests.time a <= Requests.time b.

(* ------------------------------------------------------------------ *)
(** ** A concrete world and store, for running the definitions *)

Module Demo.

Definition quiet (A : Type) : Generation A :=
  {| events := []; outcome := Returned; stdout := "" |}.

(** A backend that streams ["Hello, "] and then fails with ["boom"]. *)
Definition hello_then_boom : Generation string :=
  {| events := [Handler (on_llm_new_token "Hello, "); Item "Hello, "];
     outcome := Raised "boom"; stdout := "trace" |}.

Definition hello_then_boom_log : Generation (list LogOp) :=
  {| events :=
       [Handler (on_llm_new_token "Hello, ");
        Item [ {| op := "add";
                  path := "/logs/ChatOpenAI/streamed_output_str/-";
                  value := Some "Hello, " |} ]];
     outcome := Raised "boom"; stdout := "trace" |}.

Definition config : Config :=
  {| FREE_USER_DAILY_LIMIT := None; PRO_USER_DAILY_LIMIT := None;
     INFYR_API_KEY := "infyr"; OPENROUTER_API_KEY := "openrouter" |}.

Definition world (g1 : Generation string) (g2 : Generation (list LogOp))
    : World :=
  {| verify_signature := fun _ _ => true;
     datetime_now := 1000000;
     datetime_utcnow := 1000000;
     func_now := 1000000;
     random_randbelow := fun i _ => i;
     encode_len := fun s => Some (Z.of_nat (String.length s));
     CONFIG := config;
     chat_astream := fun _ _ => g1;
     agent_executor_astream_log := fun _ _ _ _ _ _ => g2 |}.

Definition failing : World := world hello_then_boom hello_then_boom_log.
Definition silent : World := world (quiet string) (quiet (list LogOp)).

Definition empty : Session := {| requests := []; users := [] |}.

Definition chat (key : option string) (model : option AllowedModelName)
    (tools : option (list string)) : ChatRequest.t :=
  ChatRequest.Build "U1" "sig" None None key "hi" model None tools.

Definition turn (id : Z) (pk key msg : string) (ok : bool)
    (resp : option string) (t : Z) : Requests.t :=
  Requests.Build id pk key
    (InputParams.Build pk key msg "gpt-4.1-mini" (7 # 10) (Some []))
    msg ok resp None None None None None t.

(** Three identifiers of the registry. *)
Definition three_tools : list string :=
  ["jupiter_swap_tool"; "rugcheck_token_information_tool";
   "cmc_crypto_news_tool"].

(** A free-tier request for the default model with three known tools. *)
Definition greedy : ChatRequest.t :=
  chat None (Some gpt_4_1_mini) (Some three_tools).

(** A free-tier request for a Lumo model with three known tools. *)
Definition greedy_lumo : ChatRequest.t :=
  chat None (Some lumo_8b) (Some three_tools).

(** [n] successful turns of U1, all stored today. *)
Definition turns_today (n : nat) : list Requests.t :=
  map (fun k => turn (Z.of_nat k) "U1" "c" "hi" true (Some "ok")
                     (960000 + Z.of_nat k))
      (seq 1 n).

Definition at_allowance : Session :=
  {| requests := turns_today 10; users := [] |}.
Definition below_allowance : Session :=
  {| requests := turns_today 9; users := [] |}.

(** A conversation whose only turn failed. *)
Definition failed_before : Session :=
  {| requests := [turn 1 "U1" "k" "hi" false (Some "Error: boom") 960000];
     users := [] |}.

(** A store in which U1 is a pro user. *)
Definition pro_store : Session :=
  {| requests := []; users := [User.Build 1 "U1" (Some 2000000)] |}.



Definition listing : LastConversationsRequest.t :=
  LastConversationsRequest.Build "U1" "sig".

End Demo.

(* ------------------------------------------------------------------ *)
(** ** [get_conversation_history] *)

Module GetConversationRequest.
Record t : Type := Build {
  public_key : string;
  signature : string;
  conversation_key : string
}.
End GetConversationRequest.

Module MessageResponse.
Record t : Type := Build {
  id : Z;
  message : string;
  response : option string;
  timestamp : Z
}.
End MessageResponse.

Record GetConversationResponse : Type := {
  gc_success : bool;
  gc_conversation_key : string;
  gc_messages : list MessageResponse.t;
  gc_error : option string
}.

(** [.order_by(Requests.time.asc())]; rows of equal time keep their
    insertion order. *)
Fixpoint insert_asc (r : Requests.t) (l : list Requests.t)
    : list Requests.t :=
  match l with
  | [] => [r]
  | x :: rest =>
      if Requests.time r <=? Requests.time x then r :: l
      else x :: insert_asc r rest
  end.

Definition order_by_time_asc (rows : list Requests.t) : list Requests.t :=
  fold_right insert_asc [] rows.

Definition message_response (msg : Requests.t) : MessageResponse.t :=
  MessageResponse.Build (Requests.id msg) (Requests.message msg)
    (Requests.response msg) (Requests.time msg).

Definition CONVERSATION_NOT_FOUND : string := "Conversation not found".

Definition get_conversation_history (W : World)
    (request : GetConversationRequest.t) (d : Session)
    : GetConversationResponse :=
  let public_key := GetConversationRequest.public_key request in
  let conversation_key := GetConversationRequest.conversation_key request in
  if negb (verify_signature W public_key
             (GetConversationRequest.signature request))
  then {| gc_success := false; gc_conversation_key := conversation_key;
          gc_messages := []; gc_error := Some AUTH_FAILED |}
  else
    match find (in_conversation public_key conversation_key) (requests d) with
    | None =>
        {| gc_success := false; gc_conversation_key := conversation_key;
           gc_messages := []; gc_error := Some CONVERSATION_NOT_FOUND |}
    | Some _ =>
        let conversation_messages :=
          order_by_time_asc
            (filter (in_conversation public_key conversation_key)
                    (requests d)) in
        {| gc_success := true; gc_conversation_key := conversation_key;
           gc_messages :=
             map message_response
                 (filter Requests.success conversation_messages);
           gc_error := None |}
    end.

(* ------------------------------------------------------------------ *)
(** ** Further vocabulary *)

(** The text a row holds as its response, empty while it is null. *)
Definition stored_text (r : Requests.t) : string :=
  match Requests.response r with
  | Some s => s
  | None => ""
  end.

(** The events of a generation that is still streaming: items, and the
    start and new-token calls of the handler. *)
Definition still_streaming (A : Type) (e : Event A) : bool :=
  match e with
  | Item _ => true
  | Handler on_llm_start => true
  | Handler (on_llm_new_token _) => true
  | Handler _ => false
  end.

(** The tokens the handler is given, in order. *)
Definition handler_tokens (A : Type) (evs : list (Event A)) : list string :=
  flat_map (fun e => match e with
                     | Handler (on_llm_new_token token) => [token]
                     | _ => []
                     end) evs.

(** What holds between the handler and the row while tokens arrive: the
    row's text is the generated text up to the last write, the part not
    yet written is shorter than 50 characters, and nothing is written
    before 50 characters exist. *)
Definition in_step (i : Z) (h : StreamingCallback) (r : Requests.t)
    : Prop :=
  request_id h = i
  /\ Requests.id r = i
  /\ last_db_update h = String.length (stored_text r)
  /\ (exists rest, generated_text h = stored_text r ++ rest
                   /\ (String.length rest < 50)%nat)
  /\ (Requests.response r = None \/ (50 <= String.length (stored_text r))%nat).

(** The input-token count the setup computed, when an engine runs. *)
Definition setup_input_tokens (s : EngineSetup) : option Z :=
  match s with
  | DirectMode _ _ itc => Some itc
  | AgentMode _ _ _ _ _ _ itc => Some itc
  | _ => None
  end.

(** The tool list handed to the agent, when the agent runs. *)
Definition agent_tools (s : EngineSetup) : option (list Tool) :=
  match s with
  | AgentMode _ tools _ _ _ _ _ => Some tools
  | _ => None
  end.

(** The handle of the backend, when an engine runs. *)
Definition setup_chat (s : EngineSetup) : option ChatOpenAI :=
  match s with
  | DirectMode chat _ _ => Some chat
  | AgentMode chat _ _ _ _ _ _ => Some chat
  | _ => None
  end.

(** The model of a request: the one it names, or the default one. *)
Definition requested_model (chat_request : ChatRequest.t)
    : AllowedModelName :=
  match ChatRequest.model_name chat_request with
  | Some m => m
  | None => gpt_4_1_mini
  end.

(** The models a free-tier caller may name. *)
Definition free_model (m : AllowedModelName) : bool :=
  match m with
  | gpt_4_1_mini | lumo_70b | lumo_8b | lumo_deepseek_8b => true
  | _ => false
  end.

(** The Lumo models. *)
Definition lumo_model (m : AllowedModelName) : bool :=
  match m with
  | lumo_70b | lumo_8b | lumo_deepseek_8b => true
  | _ => false
  end.

(** The first-party models. *)
Definition gpt_model (m : AllowedModelName) : bool :=
  match m with
  | gpt_4_1 | gpt_4_1_mini | gpt_4o => true
  | _ => false
  end.

Module Samples.

Definition hi_there : Generation string :=
  {| events := [Handler on_llm_start; Handler (on_llm_new_token "Hi");
                Item "Hi"; Item ""; Handler (on_llm_new_token " there");
                Item " there"; Handler on_llm_end];
     outcome := Returned; stdout := "dbg" |}.

Definition answering : World :=
  Demo.world hi_there (Demo.quiet (list LogOp)).

(** Two conversations of U1 and one of U2. *)
Definition busy : Session :=
  {| requests :=
       [Demo.turn 1 "U1" "a" "m1" true (Some "r1") 960010;
        Demo.turn 2 "U1" "b" "m2" true (Some "r2") 960020;
        Demo.turn 3 "U1" "a" "m3" false (Some "Error: x") 960030;
        Demo.turn 4 "U2" "a" "m4" true (Some "r4") 960040;
        Demo.turn 5 "U1" "a" "m5" true (Some "r5") 960050];
     users := [] |}.

Definition history_of (key : string) : GetConversationRequest.t :=
  GetConversationRequest.Build "U1" "sig" key.

End Samples.

(* ------------------------------------------------------------------ *)
(** ** The users controller ([api/users/controllers.py]) *)

(** Table [transactions] ([models/transactions.py]) *)
Module Transaction.
Record t : Type := Build {
  id : Z;
  pubkey : string;
  tx_hash : string;
  success : bool;
  time : Z
}.
End Transaction.

(** Table [login_logs] ([models/login_logs.py]) *)
Module LoginLogs.
Record t : Type := Build {
  id : Z;
  pubkey : string;
  time : Z
}.
End LoginLogs.

(** The tables the users controller touches, each in insertion order. *)
Record Accounts : Type := {
  user_rows : list User.t;
  transactions : list Transaction.t;
  login_logs : list LoginLogs.t
}.

Module UserAuthRequest.
Record t : Type := Build {
  public_key : string;
  signature : string
}.
End UserAuthRequest.

Module UserProStatusResponse.
Record t : Type := Build {
  is_pro : bool;
  days_remaining : option Z
}.
End UserProStatusResponse.

Module ProUpgradeRequest.
Record t : Type := Build {
  public_key : string;
  transaction_signature : string
}.
End ProUpgradeRequest.

Module ProUpgradeResponse.
Record t : Type := Build {
  success : bool;
  message : string;
  premium_end_date : option Z
}.
End ProUpgradeResponse.

(** The result of an expression that may raise: its value, or the
    [str(e)] of the exception. *)
Inductive Try (A : Type) : Type :=
| Done (a : A)
| Except (e : string).

Arguments Done {A} a.
Arguments Except {A} e.

(** An entry of [preTokenBalances] or [postTokenBalances] in the answer of
    the [getTransaction] call.  [accountIndex] is
    [int(balance.get("accountIndex"))] and [amount] is
    [int(balance.get("uiTokenAmount", {}).get("amount", "0"))]; [mint] and
    [owner] are [None] when the key is absent or its value is not a
    string. *)
Module TokenBalance.
Record t : Type := Build {
  accountIndex : Try Z;
  mint : option string;
  owner : option string;
  amount : Try Z
}.
End TokenBalance.

(** The value of [tx_data.get("meta", {})] when it is truthy; the two
    lists are [meta.get("preTokenBalances", [])] and
    [meta.get("postTokenBalances", [])]. *)
Module Meta.
Record t : Type := Build {
  preTokenBalances : list TokenBalance.t;
  postTokenBalances : list TokenBalance.t
}.
End Meta.

Record TxData : Type := {
  meta : option Meta.t
}.

(** The answer of [get_transaction_details(signature)]: [(True, result)]
    or [(False, error_msg)]. *)
Inductive Details : Type :=
| Retrieved (result : TxData)
| NotRetrieved (error_msg : string).

(** The membership settings of [settings/config.py]. *)
Record Membership : Type := {
  PRO_MEMBERSHIP_WALLET : string;
  PRO_MEMBERSHIP_TOKEN : string;
  PRO_MEMBERSHIP_COST : Z
}.

(** [str(n)] of an [int] *)
Definition int_str (n : Z) : string :=
  DecimalString.NilZero.string_of_int (Z.to_int n).

(** [x == expected] for a value that is a string or something else *)
Definition is_str (x : option string) (expected : string) : bool :=
  match x with
  | Some s => String.eqb s expected
  | None => false
  end.

(** The dict comprehension of [verify_spl_token_transfer]: the entries are
    visited in order, the key is evaluated before the value, and a later
    entry replaces an earlier one with the same key.  The dict is the list
    of its items, the most recent first. *)
Fixpoint pre_balances (pre_token_balances : list TokenBalance.t)
    (d : list (Z * Z)) : Try (list (Z * Z)) :=
  match pre_token_balances with
  | [] => Done d
  | balance :: rest =>
      match TokenBalance.accountIndex balance with
      | Except e => Except e
      | Done k =>
          match TokenBalance.amount balance with
          | Except e => Except e
          | Done v => pre_balances rest ((k, v) :: d)
          end
      end
  end.

(** [d.get(k, default)] *)
Definition get_default (d : list (Z * Z)) (k default : Z) : Z :=
  match find (fun kv => fst kv =? k) d with
  | Some kv => snd kv
  | None => default
  end.

(** The loop of [verify_spl_token_transfer] over [postTokenBalances]. *)
Fixpoint check_post_balances (post_token_balances : list TokenBalance.t)
    (d : list (Z * Z)) (expected_token expected_receiver : string)
    (expected_amount : Z) : Try (bool * string) :=
  match post_token_balances with
  | [] => Done (false, "No matching token transfer found")
  | balance :: rest =>
      if negb (is_str (TokenBalance.mint balance) expected_token) then
        check_post_balances rest d expected_token expected_receiver
                            expected_amount
      else if negb (is_str (TokenBalance.owner balance) expected_receiver)
      then
        check_post_balances rest d expected_token expected_receiver
                            expected_amount
      else
        match TokenBalance.accountIndex balance with
        | Except e => Except e
        | Done account_index =>
            match TokenBalance.amount balance with
            | Except e => Except e
            | Done post_amount =>
                let pre_amount := get_default d account_index 0 in
                let amount_change := post_amount - pre_amount in
                if expected_amount <=? amount_change then
                  Done (true,
                        "Verified token transfer of " ++
                        int_str amount_change ++ " tokens")
                else
                  check_post_balances rest d expected_token
                                      expected_receiver expected_amount
            end
        end
  end.

Definition verify_spl_token_transfer (tx_data : TxData)
    (expected_token expected_receiver : string) (expected_amount : Z)
    : bool * string :=
  match meta tx_data with
  | None => (false, "Transaction metadata missing")
  | Some m =>
      match Meta.postTokenBalances m with
      | [] => (false, "No token balances found in transaction")
      | post_token_balances =>
          let attempt :=
            match pre_balances (Meta.preTokenBalances m) [] with
            | Except e => Except e
            | Done d =>
                check_post_balances post_token_balances d expected_token
                                    expected_receiver expected_amount
            end in
          match attempt with
          | Done r => r
          | Except e => (false, "Error verifying token transfer: " ++ e)
          end
      end
  end.

(** [int.from_bytes(data, byteorder="little")] *)
Definition int_from_bytes_little (data : list Byte.byte) : Z :=
  fold_right (fun b acc => Z.of_N (Byte.to_N b) + 256 * acc) 0 data.

(** [parse_token_amount(amount_data, decimals)] *)
Definition parse_token_amount (amount_data : list Byte.byte) (decimals : Z)
    : Z :=
  if (8 <=? List.length amount_data)%nat
  then int_from_bytes_little (firstn 8 amount_data)
  else 0.

(** The primary key of the next inserted row of a table with the given
    keys. *)
Definition next_key (ids : list Z) : Z := 1 + fold_right Z.max 0 ids.

Definition has_pubkey (public_key : string) (u : User.t) : bool :=
  String.eqb (User.pubkey u) public_key.

(** [user.premium_end = v; db.commit()] for the row loaded by
    [db.query(User).filter(User.pubkey == public_key).first()] *)
Fixpoint set_premium_end (public_key : string) (v : Z) (rows : list User.t)
    : list User.t :=
  match rows with
  | [] => []
  | u :: rest =>
      if has_pubkey public_key u
      then User.Build (User.id u) (User.pubkey u) (Some v) :: rest
      else u :: set_premium_end public_key v rest
  end.

(** [timedelta(days=premium_days)] with [premium_days = 30], in seconds *)
Definition premium_period : Z := 30 * 86400.

Section Users.

Variable W : World.

(** [get_transaction_details(signature)]: the [getTransaction] call to the
    RPC node, with its retries *)
Variable get_transaction_details : string -> Details.

(** [CONFIG] *)
Variable M : Membership.

Definition validate_transaction_rpc (signature expected_token
    expected_receiver : string) (expected_amount : Z) : bool * string :=
  match get_transaction_details signature with
  | NotRetrieved result => (false, result)
  | Retrieved result =>
      verify_spl_token_transfer result expected_token expected_receiver
                                expected_amount
  end.

(** [user = db.query(User).filter(User.pubkey == public_key).first()],
    followed by the insertion of [User(pubkey=public_key)] when there is no
    such row: the row, and the table afterwards. *)
Definition first_or_new_user (public_key : string) (rows : list User.t)
    : User.t * list User.t :=
  match find (has_pubkey public_key) rows with
  | Some user => (user, rows)
  | None =>
      let user :=
        User.Build (next_key (map User.id rows)) public_key None in
      (user, (rows ++ [user])%list)
  end.

Definition authenticate_with_signature (user_request : UserAuthRequest.t)
    (db : Accounts) : bool * Accounts :=
  let public_key := UserAuthRequest.public_key user_request in
  if negb (verify_signature W public_key
             (UserAuthRequest.signature user_request))
  then (false, db)
  else
    let '(user, rows) := first_or_new_user public_key (user_rows db) in
    let login_log :=
      LoginLogs.Build (next_key (map LoginLogs.id (login_logs db)))
                      public_key (func_now W) in
    (true,
     {| user_rows := rows;
        transactions := transactions db;
        login_logs := (login_logs db ++ [login_log])%list |}).

(** [check_user_pro_status({"public_key": public_key}, db)] *)
Definition user_pro_status (public_key : string) (rows : list User.t)
    : UserProStatusResponse.t :=
  if negb (Py.truthy public_key) then UserProStatusResponse.Build false None
  else
    match find (has_pubkey public_key) rows with
    | None => UserProStatusResponse.Build false None
    | Some user =>
        let now := datetime_now W in
        match User.premium_end user with
        | Some premium_end =>
            if now <? premium_end
            then UserProStatusResponse.Build
                   true (Some ((premium_end - now) / 86400))
            else UserProStatusResponse.Build false None
        | None => UserProStatusResponse.Build false None
        end
    end.

Definition process_pro_upgrade (upgrade_request : ProUpgradeRequest.t)
    (db : Accounts) : ProUpgradeResponse.t * Accounts :=
  let public_key := ProUpgradeRequest.public_key upgrade_request in
  let transaction_signature :=
    ProUpgradeRequest.transaction_signature upgrade_request in
  let '(user, rows) := first_or_new_user public_key (user_rows db) in
  let existing_tx :=
    find (fun t => String.eqb (Transaction.tx_hash t) transaction_signature)
         (transactions db) in
  if match existing_tx with
     | Some t => Transaction.success t
     | None => false
     end
  then
    (ProUpgradeResponse.Build true "Transaction was already processed"
                              (User.premium_end user),
     {| user_rows := rows;
        transactions := transactions db;
        login_logs := login_logs db |})
  else
    let '(is_valid, validation_message) :=
      validate_transaction_rpc transaction_signature
                               (PRO_MEMBERSHIP_TOKEN M)
                               (PRO_MEMBERSHIP_WALLET M)
                               (PRO_MEMBERSHIP_COST M) in
    let transaction :=
      Transaction.Build (next_key (map Transaction.id (transactions db)))
                        public_key transaction_signature is_valid
                        (func_now W) in
    let recorded := (transactions db ++ [transaction])%list in
    if negb is_valid then
      (ProUpgradeResponse.Build false validation_message None,
       {| user_rows := rows;
          transactions := recorded;
          login_logs := login_logs db |})
    else
      let now := datetime_now W in
      let premium_end :=
        match User.premium_end user with
        | Some current =>
            if now <? current then current + premium_period
            else now + premium_period
        | None => now + premium_period
        end in
      (ProUpgradeResponse.Build true "Pro membership activated successfully"
                                (Some premium_end),
       {| user_rows := set_premium_end public_key premium_end rows;
          transactions := recorded;
          login_logs := login_logs db |}).

End Users.

(* ------------------------------------------------------------------ *)
(** ** Vocabulary of the accounts *)

Definition has_index (k : Z) (b : TokenBalance.t) : bool :=
  match TokenBalance.accountIndex b with
  | Done i => i =? k
  | Except _ => false
  end.

Definition amount_or_zero (b : TokenBalance.t) : Z :=
  match TokenBalance.amount b with
  | Done v => v
  | Except _ => 0
  end.

(** The balance of the token account with index [k] before the
    transaction, as the pre-balances state it: the amount of the last
    entry with that index, 0 when there is none. *)
Definition balance_before (pre : list TokenBalance.t) (k : Z) : Z :=
  match find (has_index k) (rev pre) with
  | Some b => amount_or_zero b
  | None => 0
  end.

(** The entry is a balance of [token] owned by [receiver] that the
    transaction raised by at least [expected]. *)
Definition pays (pre : list TokenBalance.t) (token receiver : string)
    (expected : Z) (b : TokenBalance.t) : Prop :=
  TokenBalance.mint b = Some token /\
  TokenBalance.owner b = Some receiver /\
  exists k v,
    TokenBalance.accountIndex b = Done k /\
    TokenBalance.amount b = Done v /\
    expected <= v - balance_before pre k.

(** Every entry has an integer index and an integer amount. *)
Definition well_formed (bs : list TokenBalance.t) : Prop :=
  Forall (fun b => (exists k, TokenBalance.accountIndex b = Done k) /\
                   (exists v, TokenBalance.amount b = Done v)) bs.

(** The end of the membership stored for [public_key]: that of the first
    row with the key. *)
Definition premium_of (public_key : string) (rows : list User.t)
    : option Z :=
  match find (has_pubkey public_key) rows with
  | Some user => User.premium_end user
  | None => None
  end.

(** No two rows of the table have the same public key or the same id. *)
Definition one_row_per_key (rows : list User.t) : Prop :=
  NoDup (map User.pubkey rows) /\ NoDup (map User.id rows).

(** The first row of the table [transactions] with the signature. *)
Definition first_record (signature : string) (txs : list Transaction.t)
    : option Transaction.t :=
  find (fun t => String.eqb (Transaction.tx_hash t) signature) txs.

(** The end of the membership an accepted payment of [public_key] sets:
    30 days after the end of an active membership, 30 days from now
    otherwise. *)
Definition extended_end (W : World) (public_key : string)
    (rows : list User.t) : Z :=
  match premium_of public_key rows with
  | Some current =>
      if datetime_now W <? current then current + premium_period
      else datetime_now W + premium_period
  | None => datetime_now W + premium_period
  end.

(** The verdict of [validate_transaction_rpc] on the payment of a request,
    for the settings of the membership. *)
Definition payment_verdict (node : string -> Details) (M : Membership)
    (upgrade_request : ProUpgradeRequest.t) : bool * string :=
  validate_transaction_rpc
    node (ProUpgradeRequest.transaction_signature upgrade_request)
    (PRO_MEMBERSHIP_TOKEN M) (PRO_MEMBERSHIP_WALLET M)
    (PRO_MEMBERSHIP_COST M).

(** The first record of the signature of the request in the table
    [transactions], if any, is one of a failed validation. *)
Definition fresh_payment (upgrade_request : ProUpgradeRequest.t)
    (db : Accounts) : Prop :=
  match first_record
          (ProUpgradeRequest.transaction_signature upgrade_request)
          (transactions db) with
  | Some t => Transaction.success t = false
  | None => True
  end.

(** The days of membership [public_key] has left, 0 without an active
    membership. *)
Definition days_left (W : World) (public_key : string)
    (rows : list User.t) : Z :=
  match UserProStatusResponse.days_remaining
          (user_pro_status W public_key rows) with
  | Some n => n
  | None => 0
  end.

Module Ledger.

Definition membership : Membership :=
  {| PRO_MEMBERSHIP_WALLET := "CsTmcGZ5UMRzM2DmWLjayc2sTK2zumwfS4E8yyCFtK51";
     PRO_MEMBERSHIP_TOKEN := "4FkNq8RcCYg4ZGDWh14scJ7ej3m5vMjYTcWoJVkupump";
     PRO_MEMBERSHIP_COST := 22000 |}.

Definition entry (k : Z) (owner : string) (v : Z) : TokenBalance.t :=
  TokenBalance.Build (Done k) (Some (PRO_MEMBERSHIP_TOKEN membership))
                     (Some owner) (Done v).

(** A transfer of 22000 tokens from the account of U1 to the wallet of
    the membership. *)
Definition payment : TxData :=
  {| meta := Some (Meta.Build
       [entry 1 "U1" 30000; entry 2 (PRO_MEMBERSHIP_WALLET membership) 500]
       [entry 1 "U1" 8000;
        entry 2 (PRO_MEMBERSHIP_WALLET membership) 22500]) |}.

Definition node (signature : string) : Details :=
  if String.eqb signature "paid" then Retrieved payment
  else NotRetrieved "Failed to retrieve transaction after 5 attempts".

Definition nobody : Accounts :=
  {| user_rows := []; transactions := []; login_logs := [] |}.

Definition upgrade (public_key signature : string) : ProUpgradeRequest.t :=
  ProUpgradeRequest.Build public_key signature.

End Ledger.

(* ------------------------------------------------------------------ *)
(** ** Strings *)

Lemma append_nil_r (s : string) : s ++ "" = s.
Proof. induction s as [|c s IH]; simpl; [reflexivity | now rewrite IH]. Qed.

Lemma append_assoc (a b c : string) : (a ++ b) ++ c = a ++ (b ++ c).
Proof. induction a as [|x a IH]; simpl; [reflexivity | now rewrite IH]. Qed.

Lemma length_append (a b : string) :
  String.length (a ++ b) = (String.length a + String.length b)%nat.
Proof. induction a as [|x a IH]; simpl; [reflexivity | now rewrite IH]. Qed.

Lemma join_app (l1 l2 : list string) :
  join (l1 ++ l2) = join l1 ++ join l2.
Proof.
  induction l1 as [|x l1 IH]; simpl; [reflexivity|].
  now rewrite IH, append_assoc.
Qed.

(* ------------------------------------------------------------------ *)
(** ** Updating the row of a turn *)

Lemma update_first_length p f rows :
  List.length (update_first p f rows) = List.length rows.
Proof.
  induction rows as [|r rows IH]; simpl; [reflexivity|].
  destruct (p r); simpl; [reflexivity | now rewrite IH].
Qed.

Lemma update_first_last p f old r :
  (forall x, In x old -> p x = false) -> p r = true ->
  update_first p f (old ++ [r]) = (old ++ [f r])%list.
Proof.
  intros Hold Hr. induction old as [|x old IH]; simpl.
  - now rewrite Hr.
  - rewrite (Hold x (or_introl eq_refl)). f_equal. apply IH.
    intros y Hy. apply Hold. now right.
Qed.

Lemma next_id_above rows x :
  In x rows -> Requests.id x < next_id rows.
Proof.
  unfold next_id. induction rows as [|r rows IH]; cbn [fold_right In];
    [tauto|].
  intros [->|H]; [lia|]. specialize (IH H). lia.
Qed.

Lemma next_id_fresh rows x :
  In x rows -> has_id (next_id rows) x = false.
Proof.
  intros H. unfold has_id. apply Z.eqb_neq.
  pose proof (next_id_above rows x H). lia.
Qed.

Lemma same_turn_refl r : same_turn r r.
Proof. repeat split. Qed.

Lemma same_turn_trans r1 r2 r3 :
  same_turn r1 r2 -> same_turn r2 r3 -> same_turn r1 r3.
Proof. unfold same_turn. intuition congruence. Qed.

Lemma keeps_set_response v : keeps_turn (Requests.set_response v).
Proof. intros r. repeat split. Qed.
Lemma keeps_set_success v : keeps_turn (Requests.set_success v).
Proof. intros r. repeat split. Qed.
Lemma keeps_set_verbose v : keeps_turn (Requests.set_verbose v).
Proof. intros r. repeat split. Qed.
Lemma keeps_set_token_counts i o t :
  keeps_turn (Requests.set_token_counts i o t).
Proof. intros r. repeat split. Qed.
Lemma keeps_compose f g :
  keeps_turn f -> keeps_turn g -> keeps_turn (fun r => f (g r)).
Proof. intros Hf Hg r. eapply same_turn_trans; [apply Hg | apply Hf]. Qed.

Create HintDb turn.

#[local] Hint Resolve keeps_set_response keeps_set_success keeps_set_verbose
  keeps_set_token_counts keeps_compose same_turn_refl : turn.

Lemma update_request_store i f old us r :
  fresh i old -> Requests.id r = i ->
  update_request i f (store_with old us r) = store_with old us (f r).
Proof.
  intros Hold Hr. unfold update_request, store_with. cbn [requests users].
  rewrite update_first_last; [reflexivity | exact Hold |].
  unfold has_id. now apply Z.eqb_eq.
Qed.

Lemma get_request_store i old us r :
  fresh i old -> Requests.id r = i ->
  get_request i (store_with old us r) = Some r.
Proof.
  intros Hold Hr. unfold get_request, store_with. cbn [requests].
  induction old as [|x old IH]; cbn [app find].
  - unfold has_id. now rewrite Hr, Z.eqb_refl.
  - rewrite (Hold x (or_introl eq_refl)). apply IH.
    intros y Hy. apply Hold. now right.
Qed.

Lemma same_turn_id r r' i :
  same_turn r r' -> Requests.id r = i -> Requests.id r' = i.
Proof. intros (H & _) <-. exact H. Qed.

Section Running.

Variable W : World.
Variable i : Z.
Variable old : list Requests.t.
Variable us : list User.t.
Hypothesis Hfresh : fresh i old.

(** A callback of the handler rewrites the row of the turn only. *)
Lemma call_store c h r :
  request_id h = i -> Requests.id r = i ->
  exists h' r',
    call c h (store_with old us r) = (h', store_with old us r')
    /\ request_id h' = i /\ same_turn r r'.
Proof.
  intros Hh Hr. destruct c as [|token| |error]; cbn [call].
  - exists h, r. auto with turn.
  - unfold StreamingCallback_on_llm_new_token.
    destruct (50 <=? _)%nat.
    + rewrite Hh, (@get_request_store i old us r Hfresh Hr).
      rewrite (@update_request_store i _ old us r Hfresh Hr).
      eexists _, _. split; [reflexivity|]. split; [reflexivity|].
      apply keeps_set_response.
    + eexists _, r. split; [reflexivity|]. split; [exact Hh|].
      apply same_turn_refl.
  - unfold StreamingCallback_on_llm_end. rewrite Hh.
    rewrite (@update_request_store i _ old us r Hfresh Hr).
    eexists h, _. split; [reflexivity|]. split; [exact Hh|].
    apply (keeps_compose (keeps_set_success true)
                         (keeps_set_response (Some (generated_text h)))).
  - unfold StreamingCallback_on_llm_error. rewrite Hh.
    rewrite (@update_request_store i _ old us r Hfresh Hr).
    eexists h, _. split; [reflexivity|]. split; [exact Hh|].
    apply (keeps_compose (keeps_set_response (Some ("Error: " ++ error)))
                         (keeps_set_success false)).
Qed.

(** The streaming loop: it yields the token chunks of the items in order,
    accumulates their concatenation, and leaves the store with the row of
    the turn rewritten. *)
Lemma run_events_store (A : Type) (tokens_of : A -> list string) evs :
  forall l r,
    request_id (stream_handler l) = i -> Requests.id r = i ->
    db l = store_with old us r ->
    exists h' r',
      run_events tokens_of evs l =
        {| stream_handler := h'; db := store_with old us r';
           full_response_text :=
             full_response_text l ++ join (emitted tokens_of evs);
           yielded := (yielded l ++ emitted tokens_of evs)%list |}
      /\ request_id h' = i /\ same_turn r r'.
Proof.
  induction evs as [|e evs IH]; intros l r Hh Hr Hdb.
  - exists (stream_handler l), r. cbn [run_events fold_left emitted flat_map join fold_right].
    rewrite append_nil_r, app_nil_r. destruct l; cbn in *. subst.
    auto with turn.
  - change (run_events tokens_of (e :: evs) l)
      with (run_events tokens_of evs (step tokens_of l e)).
    destruct e as [c|a]; cbn [step].
    + rewrite Hdb.
      destruct (@call_store c (stream_handler l) r Hh Hr)
        as (h1 & r1 & -> & Hh1 & Hs1).
      edestruct (IH {| stream_handler := h1; db := store_with old us r1;
                       full_response_text := full_response_text l;
                       yielded := yielded l |} r1)
        as (h' & r' & -> & Hh' & Hs'); [exact Hh1 | | reflexivity |].
      { eapply same_turn_id; eauto. }
      exists h', r'. cbn [full_response_text yielded emitted flat_map app].
      split; [reflexivity|]. split; [exact Hh'|].
      eapply same_turn_trans; eauto.
    + edestruct (IH {| stream_handler := stream_handler l; db := db l;
                       full_response_text :=
                         full_response_text l ++ join (tokens_of a);
                       yielded := (yielded l ++ tokens_of a)%list |} r)
        as (h' & r' & -> & Hh' & Hs'); [exact Hh | exact Hr | exact Hdb |].
      exists h', r'. cbn [full_response_text yielded emitted flat_map].
      fold (emitted tokens_of evs).
      rewrite join_app, append_assoc, <- app_assoc.
      split; [reflexivity|]. split; assumption.
Qed.

End Running.

Section Ending.

Variable W : World.
Variable i : Z.
Variable old : list Requests.t.
Variable us : list User.t.
Hypothesis Hfresh : fresh i old.

(** A generation that raises: the handler of [stream_response] yields one
    error chunk after the token chunks and marks the row failed. *)
Lemma generate_raised (A : Type) (tokens_of : A -> list string)
    (g : Generation A) model_name input_token_count r e :
  Requests.id r = i -> outcome g = Raised e ->
  exists r',
    generate W tokens_of g i model_name input_token_count
             (store_with old us r)
    = ((emitted tokens_of (events g) ++ [error_chunk e])%list,
       store_with old us r')
    /\ same_turn r r'
    /\ Requests.success r' = false
    /\ Requests.response r' = Some ("Error: " ++ e)
    /\ Requests.input_token_count r' = Some 0
    /\ Requests.output_token_count r' = Some 0
    /\ Requests.total_token_count r' = Some 0
    /\ Requests.verbose r' = Some (stdout g).
Proof.
  intros Hr Hg. unfold generate. rewrite Hg.
  destruct (@run_events_store i old us Hfresh A tokens_of (events g)
              (start i (store_with old us r)) r eq_refl Hr eq_refl)
    as (h1 & r1 & -> & Hh1 & Hs1).
  unfold on_exception. cbn [db yielded start app].
  pose proof (same_turn_id Hs1 Hr) as Hr1.
  rewrite (@update_request_store i _ old us r1 Hfresh Hr1).
  unfold DebugCaptureCallbackHandler_exit.
  rewrite update_request_store; [| exact Hfresh | exact Hr1].
  eexists. split; [reflexivity|].
  split; [|cbn; repeat split].
  eapply same_turn_trans; [exact Hs1|]. repeat split.
Qed.

(** A generation that ends normally: the row is marked successful and
    holds the concatenation of the token chunks. *)
Lemma generate_returned (A : Type) (tokens_of : A -> list string)
    (g : Generation A) model_name input_token_count r :
  Requests.id r = i -> outcome g = Returned ->
  exists r',
    generate W tokens_of g i model_name input_token_count
             (store_with old us r)
    = (emitted tokens_of (events g), store_with old us r')
    /\ same_turn r r'
    /\ Requests.success r' = true
    /\ Requests.response r' = Some (join (emitted tokens_of (events g)))
    /\ Requests.input_token_count r' = Some input_token_count
    /\ Requests.verbose r' = Some (stdout g).
Proof.
  intros Hr Hg. unfold generate. rewrite Hg.
  destruct (@run_events_store i old us Hfresh A tokens_of (events g)
              (start i (store_with old us r)) r eq_refl Hr eq_refl)
    as (h1 & r1 & -> & Hh1 & Hs1).
  unfold on_completion.
  cbn [db yielded start app full_response_text stream_handler append].
  pose proof (same_turn_id Hs1 Hr) as Hr1.
  rewrite (@update_request_store i _ old us r1 Hfresh Hr1).
  set (r2 := Requests.set_token_counts _ _ _ r1).
  assert (Hr2 : Requests.id r2 = i) by exact Hr1.
  unfold DebugCaptureCallbackHandler_exit.
  destruct (Py.startswith model_name "lumo-").
  - unfold StreamingCallback_on_llm_end. rewrite Hh1.
    rewrite (@update_request_store i _ old us r2 Hfresh Hr2).
    rewrite update_request_store; [| exact Hfresh | exact Hr2].
    rewrite update_request_store; [| exact Hfresh | exact Hr2].
    eexists. split; [reflexivity|].
    split; [|cbn; repeat split].
    eapply same_turn_trans; [exact Hs1|]. repeat split.
  - rewrite (@update_request_store i _ old us r2 Hfresh Hr2).
    rewrite update_request_store; [| exact Hfresh | exact Hr2].
    eexists. split; [reflexivity|].
    split; [|cbn; repeat split].
    eapply same_turn_trans; [exact Hs1|]. repeat split.
Qed.

End Ending.

(* ------------------------------------------------------------------ *)
(** ** The gates of [process_chat_request] *)

Section Gates.

Variable W : World.
Variable chat_request : ChatRequest.t.
Variable d : Session.

Lemma turn_store_with :
  turn_store W chat_request d
  = store_with (requests d) (users d) (turn_row W chat_request d).
Proof. reflexivity. Qed.

Lemma turn_row_id :
  Requests.id (turn_row W chat_request d) = next_id (requests d).
Proof. reflexivity. Qed.

Lemma turn_id_fresh : fresh (next_id (requests d)) (requests d).
Proof. intros x Hx. now apply next_id_fresh. Qed.

Lemma rejected_unauthenticated :
  ~ authenticated W chat_request ->
  process_chat_request W chat_request d = (reject AUTH_FAILED, d).
Proof.
  unfold authenticated, process_chat_request. intros H.
  destruct (verify_signature W _ _); [congruence | reflexivity].
Qed.

Lemma rejected_model :
  authenticated W chat_request -> ~ model_allowed W chat_request d ->
  process_chat_request W chat_request d = (reject MODEL_NOT_ALLOWED, d).
Proof.
  unfold authenticated, model_allowed, tier, process_chat_request.
  intros -> H. cbn [negb].
  destruct (model_not_allowed _ _); [reflexivity | congruence].
Qed.

Lemma rejected_quota :
  authenticated W chat_request -> model_allowed W chat_request d ->
  allowance W (tier W chat_request d) <= used_today W chat_request d ->
  process_chat_request W chat_request d
  = (reject (quota_message (tier W chat_request d)), d).
Proof.
  unfold authenticated, model_allowed, used_today, tier,
    process_chat_request.
  intros -> -> H. cbn [negb].
  destruct (check_user_pro_status W _ d); cbn [allowance] in H;
    cbn [andb negb quota_message].
  - apply Z.leb_le in H. now rewrite H.
  - apply Z.leb_le in H. now rewrite H.
Qed.

Lemma admitted_streams :
  admitted W chat_request d ->
  process_chat_request W chat_request d
  = (let (chunks, d2) :=
       stream_response W chat_request (tier W chat_request d)
         (resolve_conversation_key W chat_request d)
         (resolve_model_name (ChatRequest.model_name chat_request))
         (resolve_temperature (ChatRequest.temperature chat_request))
         (next_id (requests d)) (turn_store W chat_request d) in
     ({| body := chunks; media_type := "text/plain" |}, d2)).
Proof.
  unfold admitted, authenticated, model_allowed, within_quota, used_today,
    tier, process_chat_request.
  intros (-> & -> & H). cbn [negb].
  destruct (check_user_pro_status W _ d); cbn [allowance] in H;
    cbn [andb negb]; apply Z.leb_gt in H; rewrite H; reflexivity.
Qed.

(** An admitted request whose [try] block ends with an exception. *)
Lemma turn_raised ts e out :
  admitted W chat_request d ->
  try_block W (turn_setup W chat_request d) = Some (ts, Raised e, out) ->
  exists r,
    process_chat_request W chat_request d
    = ({| body := key_chunk (resolve_conversation_key W chat_request d)
                  :: ts ++ [error_chunk e];
          media_type := "text/plain" |},
       store_with (requests d) (users d) r)
    /\ same_turn (turn_row W chat_request d) r
    /\ Requests.success r = false
    /\ Requests.response r = Some ("Error: " ++ e)
    /\ Requests.input_token_count r = Some 0
    /\ Requests.output_token_count r = Some 0
    /\ Requests.total_token_count r = Some 0
    /\ Requests.verbose r = Some out.
Proof.
  intros Hadm Htry. rewrite (admitted_streams Hadm).
  unfold stream_response.
  change (engine_setup W chat_request _ _ _ _)
    with (turn_setup W chat_request d).
  rewrite turn_store_with.
  destruct (turn_setup W chat_request d)
    as [|e0|chat messages itc|chat tools sm ch inp ap itc];
    cbn [try_block] in Htry.
  - discriminate.
  - injection Htry as <- <- <-.
    unfold on_exception, DebugCaptureCallbackHandler_exit.
    cbn [db yielded start app].
    rewrite update_request_store;
      [| apply turn_id_fresh | apply turn_row_id].
    rewrite update_request_store;
      [| apply turn_id_fresh | apply turn_row_id].
    eexists. split; [reflexivity|]. cbn. repeat split.
  - injection Htry as <- Ho <-.
    destruct (@generate_raised W _ _ (users d) turn_id_fresh _ chunk_tokens
                (chat_astream W chat messages)
                (resolve_model_name (ChatRequest.model_name chat_request))
                itc _ e turn_row_id Ho) as (r & -> & Hr).
    exists r. split; [reflexivity | exact Hr].
  - injection Htry as <- Ho <-.
    destruct (@generate_raised W _ _ (users d) turn_id_fresh _
                log_entry_tokens
                (agent_executor_astream_log W chat tools sm ch inp ap)
                (resolve_model_name (ChatRequest.model_name chat_request))
                itc _ e turn_row_id Ho) as (r & -> & Hr).
    exists r. split; [reflexivity | exact Hr].
Qed.

(** An admitted request whose [try] block runs to its end. *)
Lemma turn_returned ts out :
  admitted W chat_request d ->
  try_block W (turn_setup W chat_request d) = Some (ts, Returned, out) ->
  exists r,
    process_chat_request W chat_request d
    = ({| body := key_chunk (resolve_conversation_key W chat_request d)
                  :: ts;
          media_type := "text/plain" |},
       store_with (requests d) (users d) r)
    /\ same_turn (turn_row W chat_request d) r
    /\ Requests.success r = true
    /\ Requests.response r = Some (join ts)
    /\ Requests.verbose r = Some out.
Proof.
  intros Hadm Htry. rewrite (admitted_streams Hadm).
  unfold stream_response.
  change (engine_setup W chat_request _ _ _ _)
    with (turn_setup W chat_request d).
  rewrite turn_store_with.
  destruct (turn_setup W chat_request d)
    as [|e0|chat messages itc|chat tools sm ch inp ap itc];
    cbn [try_block] in Htry; try discriminate.
  - injection Htry as <- Ho <-.
    destruct (@generate_returned W _ _ (users d) turn_id_fresh _ chunk_tokens
                (chat_astream W chat messages)
                (resolve_model_name (ChatRequest.model_name chat_request))
                itc _ turn_row_id Ho) as (r & -> & H1 & H2 & H3 & _ & H5).
    exists r. repeat split; assumption || apply H1.
  - injection Htry as <- Ho <-.
    destruct (@generate_returned W _ _ (users d) turn_id_fresh _
                log_entry_tokens
                (agent_executor_astream_log W chat tools sm ch inp ap)
                (resolve_model_name (ChatRequest.model_name chat_request))
                itc _ turn_row_id Ho) as (r & -> & H1 & H2 & H3 & _ & H5).
    exists r. repeat split; assumption || apply H1.
Qed.

(** An admitted request stopped at the free-tier tool limit. *)
Lemma turn_limited :
  admitted W chat_request d ->
  turn_setup W chat_request d = ToolLimitExceeded ->
  exists r,
    process_chat_request W chat_request d
    = ({| body := [key_chunk (resolve_conversation_key W chat_request d);
                   error_chunk TOOL_LIMIT_REACHED];
          media_type := "text/plain" |},
       store_with (requests d) (users d) r)
    /\ same_turn (turn_row W chat_request d) r
    /\ Requests.success r = false
    /\ Requests.response r = Some (error_chunk TOOL_LIMIT_REACHED)
    /\ Requests.total_token_count r = None.
Proof.
  intros Hadm Hset. rewrite (admitted_streams Hadm).
  unfold stream_response.
  change (engine_setup W chat_request _ _ _ _)
    with (turn_setup W chat_request d).
  rewrite Hset, turn_store_with.
  unfold DebugCaptureCallbackHandler_exit.
  rewrite update_request_store;
    [| apply turn_id_fresh | apply turn_row_id].
  rewrite update_request_store;
    [| apply turn_id_fresh | apply turn_row_id].
  eexists. split; [reflexivity|]. cbn. repeat split.
Qed.

End Gates.

(* ------------------------------------------------------------------ *)
(** ** The tool gate *)

Lemma engine_setup_limited W chat_request is_pro_user model_name temperature
    history ts :
  ChatRequest.tools chat_request = Some ts ->
  engine_setup W chat_request is_pro_user model_name temperature history
    = ToolLimitExceeded
  <-> is_pro_user = false /\ (2 <= List.length (requested_tools ts))%nat.
Proof.
  intros Hts. unfold engine_setup. rewrite Hts.
  destruct is_pro_user; cbn [negb andb].
  - destruct (route W model_name temperature _) as [chat tools].
    destruct (Py.startswith model_name "lumo-");
      (split; [discriminate | intros [? _]; discriminate]).
  - destruct (1 <? List.length (requested_tools ts))%nat eqn:E.
    + apply Nat.ltb_lt in E. split; [intros _; split; [reflexivity | lia]
                                     | reflexivity].
    + apply Nat.ltb_ge in E.
      destruct (route W model_name temperature _) as [chat tools].
      destruct (Py.startswith model_name "lumo-");
        (split; [discriminate | intros [_ ?]; lia]).
Qed.

Lemma requested_tools_unknown ts :
  Forall (fun name => known_tool name = false) ts -> requested_tools ts = [].
Proof.
  unfold requested_tools. induction 1 as [|x l Hx _ IH]; cbn [filter].
  - reflexivity.
  - now rewrite Hx.
Qed.

Lemma requested_tools_repeat name n :
  known_tool name = true -> requested_tools (repeat name n) = repeat name n.
Proof.
  intros H. unfold requested_tools.
  induction n as [|n IH]; cbn [repeat filter]; [reflexivity|].
  now rewrite H, IH.
Qed.

(* ------------------------------------------------------------------ *)
(** ** Properties of submit chat turn *)

(** C1, as stated, fails: a free-tier caller who requests three known
    capabilities is answered with the tool-limit error, but the turn was
    stored before the limit is checked, so the attempt leaves one more row
    in the store, not zero. *)
Lemma C1_counterexample :
  authenticated Demo.silent Demo.greedy
  /\ tier Demo.silent Demo.greedy Demo.empty = false
  /\ List.length (requested_tools Demo.three_tools) = 3%nat
  /\ body (fst (process_chat_request Demo.silent Demo.greedy Demo.empty))
     = [key_chunk "abcdefghij"; error_chunk TOOL_LIMIT_REACHED]
  /\ List.length (requests Demo.empty) = 0%nat
  /\ List.length
       (requests (snd (process_chat_request Demo.silent Demo.greedy
                                            Demo.empty))) = 1%nat.
Proof. repeat split. Qed.

(** The row and the response of an admitted request stopped at the
    free-tier tool limit. *)
Lemma turn_limited_row W chat_request d :
  admitted W chat_request d ->
  turn_setup W chat_request d = ToolLimitExceeded ->
  process_chat_request W chat_request d
  = ({| body := [key_chunk (resolve_conversation_key W chat_request d);
                 error_chunk TOOL_LIMIT_REACHED];
        media_type := "text/plain" |},
     store_with (requests d) (users d)
       (Requests.set_verbose (Some "")
          (Requests.set_response (Some (error_chunk TOOL_LIMIT_REACHED))
             (Requests.set_success false (turn_row W chat_request d))))).
Proof.
  intros Hadm Hset. rewrite (admitted_streams Hadm).
  unfold stream_response.
  change (engine_setup W chat_request _ _ _ _)
    with (turn_setup W chat_request d).
  rewrite Hset, turn_store_with.
  unfold DebugCaptureCallbackHandler_exit.
  rewrite update_request_store;
    [| apply turn_id_fresh | apply turn_row_id].
  rewrite update_request_store;
    [| apply turn_id_fresh | apply turn_row_id].
  reflexivity.
Qed.

(** What a request does before the backends are reached does not depend
    on them. *)
Lemma same_but_backends_limited W W' chat_request d :
  same_but_backends W W' ->
  admitted W chat_request d ->
  turn_setup W chat_request d = ToolLimitExceeded ->
  admitted W' chat_request d
  /\ turn_setup W' chat_request d = ToolLimitExceeded
  /\ resolve_conversation_key W' chat_request d
     = resolve_conversation_key W chat_request d
  /\ turn_row W' chat_request d = turn_row W chat_request d.
Proof.
  destruct W as [vs n un fn rb el cfg ca ae].
  destruct W' as [vs' n' un' fn' rb' el' cfg' ca' ae'].
  unfold same_but_backends.
  cbn [verify_signature datetime_now datetime_utcnow func_now
       random_randbelow encode_len CONFIG].
  intros (-> & -> & -> & -> & -> & -> & ->) Hadm Hset.
  split; [exact Hadm|]. split; [exact Hset|]. split; reflexivity.
Qed.

(** C1, amended: a free-tier caller who passes the gates and requests
    three (or more) registry-known capabilities gets the conversation key
    followed by the tool-limit error message as the whole stream; the one
    row stored for the attempt is marked failed, holds the error payload as
    its response, has none of the three token counts and an empty debug
    capture.  The model is not invoked: the [try] block returns before an
    engine is built, and the response and the store are the same whatever
    the chat model and the agent executor would produce. *)
Theorem C1_free_tier_tool_limit W chat_request d ts :
  admitted W chat_request d ->
  tier W chat_request d = false ->
  ChatRequest.tools chat_request = Some ts ->
  (3 <= List.length (requested_tools ts))%nat ->
  exists r,
    fst (process_chat_request W chat_request d)
    = {| body := [key_chunk (resolve_conversation_key W chat_request d);
                  error_chunk TOOL_LIMIT_REACHED];
         media_type := "text/plain" |}
    /\ one_more_row d (snd (process_chat_request W chat_request d)) r
    /\ same_turn (turn_row W chat_request d) r
    /\ Requests.success r = false
    /\ Requests.response r = Some (error_chunk TOOL_LIMIT_REACHED)
    /\ Requests.input_token_count r = None
    /\ Requests.output_token_count r = None
    /\ Requests.total_token_count r = None
    /\ Requests.verbose r = Some ""
    /\ try_block W (turn_setup W chat_request d) = None
    /\ (forall W',
          same_but_backends W W' ->
          process_chat_request W' chat_request d
          = process_chat_request W chat_request d).
Proof.
  intros Hadm Hfree Hts Hn.
  assert (Hset : turn_setup W chat_request d = ToolLimitExceeded).
  { unfold turn_setup. apply (engine_setup_limited _ _ _ _ _ _ Hts).
    split; [exact Hfree | lia]. }
  rewrite (turn_limited_row Hadm Hset), Hset.
  eexists. cbn [fst snd try_block].
  split; [reflexivity|]. split; [split; reflexivity|].
  split; [repeat split|].
  split; [reflexivity|]. split; [reflexivity|]. split; [reflexivity|].
  split; [reflexivity|]. split; [reflexivity|]. split; [reflexivity|].
  split; [reflexivity|].
  intros W' Hsame.
  destruct (same_but_backends_limited Hsame Hadm Hset)
    as (Hadm' & Hset' & Hkey & Hrow).
  rewrite (turn_limited_row Hadm' Hset'), Hkey, Hrow. reflexivity.
Qed.

Lemma C1_witness :
  admitted Demo.silent Demo.greedy Demo.empty
  /\ tier Demo.silent Demo.greedy Demo.empty = false
  /\ ChatRequest.tools Demo.greedy = Some Demo.three_tools
  /\ (3 <= List.length (requested_tools Demo.three_tools))%nat
  /\ exists r,
       fst (process_chat_request Demo.silent Demo.greedy Demo.empty)
       = {| body := [key_chunk (resolve_conversation_key Demo.silent
                                  Demo.greedy Demo.empty);
                     error_chunk TOOL_LIMIT_REACHED];
            media_type := "text/plain" |}
       /\ one_more_row Demo.empty
            (snd (process_chat_request Demo.silent Demo.greedy Demo.empty)) r
       /\ same_turn (turn_row Demo.silent Demo.greedy Demo.empty) r
       /\ Requests.success r = false
       /\ Requests.response r = Some (error_chunk TOOL_LIMIT_REACHED)
       /\ Requests.input_token_count r = None
       /\ Requests.output_token_count r = None
       /\ Requests.total_token_count r = None
       /\ Requests.verbose r = Some ""
       /\ try_block Demo.silent
            (turn_setup Demo.silent Demo.greedy Demo.empty) = None
       /\ (forall W',
             same_but_backends Demo.silent W' ->
             process_chat_request W' Demo.greedy Demo.empty
             = process_chat_request Demo.silent Demo.greedy Demo.empty).
Proof.
  assert (Ha : admitted Demo.silent Demo.greedy Demo.empty)
    by (repeat split).
  assert (Hn : (3 <= List.length (requested_tools Demo.three_tools))%nat)
    by (vm_compute; lia).
  split; [exact Ha|]. split; [reflexivity|]. split; [reflexivity|].
  split; [exact Hn|].
  exact (@C1_free_tier_tool_limit Demo.silent Demo.greedy Demo.empty
           Demo.three_tools Ha eq_refl eq_refl Hn).
Defined.

Lemma add_selected_NoDup names :
  forall tools, NoDup tools -> NoDup (add_selected names tools).
Proof.
  induction names as [|name names IH]; intros tools Hnd;
    cbn [add_selected]; [exact Hnd|].
  destruct (dict_get available_tools name) as [t|]; [|now apply IH].
  unfold tool_in. destruct (in_dec Tool_eq_dec t tools) as [Hin|Hout].
  - now apply IH.
  - apply IH. apply NoDup_app; [exact Hnd | repeat constructor; intros [] |].
    intros x Hx [<-|[]]. contradiction.
Qed.

(** C10: for a free-tier request the tool limit is decided by the number of
    entries of the requested list that name a registry tool, counted with
    their repetitions: the [try] block stops at the limit exactly when there
    are two or more such entries.  Hence a list of unknown identifiers, of
    any length, never triggers it, and a list that repeats one known
    identifier twice or more does; the repetitions are only removed
    afterwards, when the tools are added to the defaults. *)
Theorem C10_limit_counts_known_entries W chat_request d ts :
  tier W chat_request d = false ->
  ChatRequest.tools chat_request = Some ts ->
  (turn_setup W chat_request d = ToolLimitExceeded
   <-> (2 <= List.length (filter known_tool ts))%nat)
  /\ (Forall (fun name => known_tool name = false) ts ->
      turn_setup W chat_request d <> ToolLimitExceeded)
  /\ (forall name n,
        known_tool name = true -> (2 <= n)%nat -> ts = repeat name n ->
        turn_setup W chat_request d = ToolLimitExceeded)
  /\ NoDup (add_selected (requested_tools ts)
              [WalletPortfolioTool; TokenIdentificationTool]).
Proof.
  intros Hfree Hts.
  assert (Hiff : turn_setup W chat_request d = ToolLimitExceeded
                 <-> (2 <= List.length (filter known_tool ts))%nat).
  { unfold turn_setup. rewrite (engine_setup_limited _ _ _ _ _ _ Hts).
    rewrite Hfree. unfold requested_tools. tauto. }
  split; [exact Hiff|]. split; [|split].
  - intros Hunknown Hlim. apply Hiff in Hlim.
    fold (requested_tools ts) in Hlim.
    rewrite (requested_tools_unknown Hunknown) in Hlim.
    cbn [List.length] in Hlim. lia.
  - intros name n Hknown Hn ->. apply Hiff.
    fold (requested_tools (repeat name n)).
    rewrite (@requested_tools_repeat name n Hknown), repeat_length. exact Hn.
  - apply add_selected_NoDup. repeat constructor; cbn [In]; intuition
      discriminate.
Qed.

Lemma C10_witness :
  tier Demo.silent
    (Demo.chat None None (Some ["jupiter_swap_tool"; "jupiter_swap_tool"]))
    Demo.empty = false
  /\ turn_setup Demo.silent
       (Demo.chat None None (Some ["jupiter_swap_tool"; "jupiter_swap_tool"]))
       Demo.empty = ToolLimitExceeded
  /\ turn_setup Demo.silent
       (Demo.chat None None (Some ["no_such_tool"; "nor_this"; "or_that"]))
       Demo.empty <> ToolLimitExceeded.
Proof.
  split; [reflexivity|]. split.
  - apply (@C10_limit_counts_known_entries Demo.silent
             (Demo.chat None None
                (Some ["jupiter_swap_tool"; "jupiter_swap_tool"]))
             Demo.empty ["jupiter_swap_tool"; "jupiter_swap_tool"]
             eq_refl eq_refl).
    vm_compute. lia.
  - apply (@C10_limit_counts_known_entries Demo.silent
             (Demo.chat None None
                (Some ["no_such_tool"; "nor_this"; "or_that"]))
             Demo.empty ["no_such_tool"; "nor_this"; "or_that"]
             eq_refl eq_refl).
    repeat constructor.
Defined.

Lemma try_block_none W s : try_block W s = None -> s = ToolLimitExceeded.
Proof. destruct s; cbn [try_block]; congruence. Qed.

Lemma admitted_response W chat_request d :
  admitted W chat_request d ->
  exists r,
    process_chat_request W chat_request d
    = ({| body := key_chunk (resolve_conversation_key W chat_request d)
                  :: after_key W (turn_setup W chat_request d);
          media_type := "text/plain" |},
       store_with (requests d) (users d) r)
    /\ same_turn (turn_row W chat_request d) r.
Proof.
  intros Hadm. unfold after_key.
  destruct (try_block W (turn_setup W chat_request d))
    as [[[ts [|e]] out]|] eqn:E.
  - destruct (turn_returned Hadm E) as (r & -> & Hr & _). now exists r.
  - destruct (turn_raised Hadm E) as (r & -> & Hr & _). now exists r.
  - destruct (turn_limited Hadm (try_block_none _ _ E))
      as (r & -> & Hr & _). now exists r.
Qed.

(** C4: a request that passes the authentication, model-tier and quota
    gates is answered with a text stream whose first chunk is the JSON
    object holding the resolved conversation key (followed by a newline);
    whatever the model produces -- its token chunks, or the error chunk of
    a failed generation -- comes after it, and the key is the one the turn
    is stored under. *)
Theorem C4_key_is_first_chunk W chat_request d :
  authenticated W chat_request ->
  model_allowed W chat_request d ->
  within_quota W chat_request d ->
  fst (process_chat_request W chat_request d)
  = {| body :=
         (Py.json_dumps "conversation_key"
            (resolve_conversation_key W chat_request d) ++ Py.nl)
         :: after_key W (turn_setup W chat_request d);
       media_type := "text/plain" |}
  /\ exists r,
       one_more_row d (snd (process_chat_request W chat_request d)) r
       /\ Requests.conversation_key r
          = resolve_conversation_key W chat_request d.
Proof.
  intros Ha Hm Hq.
  destruct (@admitted_response W chat_request d (conj Ha (conj Hm Hq)))
    as (r & -> & Hr).
  cbn [fst snd]. split; [reflexivity|].
  exists r. split; [split; reflexivity|].
  destruct Hr as (_ & _ & Hk & _). exact Hk.
Qed.

Lemma C4_witness :
  authenticated Demo.failing (Demo.chat None None (Some []))
  /\ model_allowed Demo.failing (Demo.chat None None (Some [])) Demo.empty
  /\ within_quota Demo.failing (Demo.chat None None (Some [])) Demo.empty
  /\ hd_error
       (body (fst (process_chat_request Demo.failing
                     (Demo.chat None None (Some [])) Demo.empty)))
     = Some (Py.json_dumps "conversation_key" "abcdefghij" ++ Py.nl).
Proof.
  split; [reflexivity|]. split; [reflexivity|]. split; [reflexivity|].
  rewrite (proj1 (@C4_key_is_first_chunk Demo.failing
                    (Demo.chat None None (Some [])) Demo.empty
                    eq_refl eq_refl eq_refl)).
  reflexivity.
Defined.

(* ------------------------------------------------------------------ *)
(** ** Conversation keys *)

Lemma chars_get n :
  (n < 62)%nat ->
  exists c, String.get n (Py.ascii_letters ++ Py.digits) = Some c
            /\ alphanumeric c = true.
Proof.
  intros Hn.
  do 62 (destruct n as [|n]; [eexists; split; reflexivity|]).
  lia.
Qed.

Lemma random_choice_alphanumeric W i :
  exists c, random_choice W i (Py.ascii_letters ++ Py.digits)
            = String c EmptyString
            /\ alphanumeric c = true.
Proof.
  unfold random_choice.
  change (String.length (Py.ascii_letters ++ Py.digits)) with 62%nat.
  destruct (@chars_get (random_randbelow W i 62 mod 62)) as (c & -> & Hc).
  - apply Nat.mod_upper_bound. discriminate.
  - now exists c.
Qed.

Lemma generated_key W (l : list nat) :
  let key := join (map (fun i => random_choice W i
                                   (Py.ascii_letters ++ Py.digits)) l) in
  String.length key = List.length l /\ all_alphanumeric key = true.
Proof.
  induction l as [|i l [IH1 IH2]]; cbn [map join fold_right List.length].
  - split; reflexivity.
  - destruct (random_choice_alphanumeric W i) as (c & -> & Hc).
    cbn [append String.length all_alphanumeric].
    fold (join (map (fun i => random_choice W i
                                (Py.ascii_letters ++ Py.digits)) l)).
    rewrite Hc. split; [now rewrite IH1 | exact IH2].
Qed.

Lemma generate_conversation_key_spec W n :
  String.length (generate_conversation_key W n) = n
  /\ all_alphanumeric (generate_conversation_key W n) = true.
Proof.
  destruct (generated_key W (seq 0 n)) as [Hlen Halnum].
  rewrite length_seq in Hlen. split; assumption.
Qed.




(** The verdict of the gates on an authenticated request: a rejection,
    which leaves the store as it is, or a text stream. *)
Lemma gate_verdict W chat_request d :
  authenticated W chat_request ->
  (~ admitted W chat_request d
   /\ exists msg, process_chat_request W chat_request d = (reject msg, d))
  \/ (admitted W chat_request d
      /\ media_type (fst (process_chat_request W chat_request d))
         = "text/plain").
Proof.
  intros Ha.
  destruct (model_not_allowed (tier W chat_request d)
              (ChatRequest.model_name chat_request)) eqn:Hm.
  - left. split.
    + intros (_ & Hm' & _). unfold model_allowed in Hm'. congruence.
    + exists MODEL_NOT_ALLOWED. apply (rejected_model Ha).
      unfold model_allowed. congruence.
  - destruct (Z.le_gt_cases (allowance W (tier W chat_request d))
                (used_today W chat_request d)) as [Hq|Hq].
    + left. split.
      * intros (_ & _ & Hq'). unfold within_quota in Hq'. lia.
      * eexists. apply (rejected_quota Ha Hm Hq).
    + right. assert (Hadm : admitted W chat_request d)
        by (split; [exact Ha | split; [exact Hm | exact Hq]]).
      split; [exact Hadm|].
      destruct (admitted_response Hadm) as (r & -> & _). reflexivity.
Qed.




(* ------------------------------------------------------------------ *)
(** ** The daily quota *)

(** C5, as stated, fails: an authenticated free-tier caller who asks for
    [gpt-4o] is stopped at the model-tier gate, which comes first.  At the
    allowance (10 turns today) the payload is the model-tier message, not
    the rate-limit one; one below the allowance (9 turns today) the request
    is refused as well, and nothing is stored. *)
Lemma C5_counterexample :
  authenticated Demo.silent (Demo.chat None (Some gpt_4o) (Some []))
  /\ allowance Demo.silent
       (tier Demo.silent (Demo.chat None (Some gpt_4o) (Some []))
             Demo.at_allowance) = 10
  /\ used_today Demo.silent (Demo.chat None (Some gpt_4o) (Some []))
       Demo.at_allowance = 10
  /\ fst (process_chat_request Demo.silent
            (Demo.chat None (Some gpt_4o) (Some [])) Demo.at_allowance)
     = reject MODEL_NOT_ALLOWED
  /\ reject MODEL_NOT_ALLOWED <> reject (quota_message false)
  /\ used_today Demo.silent (Demo.chat None (Some gpt_4o) (Some []))
       Demo.below_allowance = 9
  /\ process_chat_request Demo.silent
       (Demo.chat None (Some gpt_4o) (Some [])) Demo.below_allowance
     = (reject MODEL_NOT_ALLOWED, Demo.below_allowance).
Proof. repeat split. discriminate. Qed.

(** C5, amended: for an authenticated request that passes the model-tier
    gate, the quota gate compares the number of turns the identity has
    stored since UTC midnight with the allowance of its tier (10 for the
    free tier and 200 for the pro tier unless configured).  At or above
    the allowance the whole response is the rate-limit error payload of
    the tier and the store is unchanged; exactly one below, the request is
    admitted: its turn is stored and the stream starts with the
    conversation key. *)
Theorem C5_daily_quota W chat_request d :
  authenticated W chat_request ->
  model_allowed W chat_request d ->
  (allowance W (tier W chat_request d) <= used_today W chat_request d ->
   process_chat_request W chat_request d
   = ({| body := [Py.json_dumps "error"
                    (quota_message (tier W chat_request d))];
         media_type := "application/json" |}, d))
  /\ (used_today W chat_request d + 1
      = allowance W (tier W chat_request d) ->
      exists r rest,
        one_more_row d (snd (process_chat_request W chat_request d)) r
        /\ same_turn (turn_row W chat_request d) r
        /\ body (fst (process_chat_request W chat_request d))
           = key_chunk (resolve_conversation_key W chat_request d) :: rest)
  /\ (FREE_USER_DAILY_LIMIT (CONFIG W) = None -> allowance W false = 10)
  /\ (PRO_USER_DAILY_LIMIT (CONFIG W) = None -> allowance W true = 200).
Proof.
  intros Ha Hm. split; [|split; [|split]].
  - intros Hq. now rewrite (rejected_quota Ha Hm Hq).
  - intros Hq.
    assert (Hw : within_quota W chat_request d)
      by (unfold within_quota; lia).
    destruct (@admitted_response W chat_request d (conj Ha (conj Hm Hw)))
      as (r & -> & Hr).
    exists r. eexists. cbn [fst snd body].
    split; [split; reflexivity|]. split; [exact Hr | reflexivity].
  - unfold allowance, free_user_daily_limit. now intros ->.
  - unfold allowance, pro_user_daily_limit. now intros ->.
Qed.

Lemma C5_witness :
  authenticated Demo.silent (Demo.chat None None (Some []))
  /\ model_allowed Demo.silent (Demo.chat None None (Some []))
       Demo.at_allowance
  /\ used_today Demo.silent (Demo.chat None None (Some []))
       Demo.at_allowance = 10
  /\ process_chat_request Demo.silent (Demo.chat None None (Some []))
       Demo.at_allowance
     = (reject FREE_LIMIT_REACHED, Demo.at_allowance)
  /\ model_allowed Demo.silent (Demo.chat None None (Some []))
       Demo.below_allowance
  /\ used_today Demo.silent (Demo.chat None None (Some []))
       Demo.below_allowance = 9
  /\ exists r rest,
       one_more_row Demo.below_allowance
         (snd (process_chat_request Demo.silent
                 (Demo.chat None None (Some [])) Demo.below_allowance)) r
       /\ same_turn (turn_row Demo.silent (Demo.chat None None (Some []))
                       Demo.below_allowance) r
       /\ body (fst (process_chat_request Demo.silent
                       (Demo.chat None None (Some []))
                       Demo.below_allowance))
          = key_chunk (resolve_conversation_key Demo.silent
                         (Demo.chat None None (Some []))
                         Demo.below_allowance) :: rest.
Proof.
  split; [reflexivity|]. split; [reflexivity|]. split; [reflexivity|].
  split.
  - apply (proj1 (@C5_daily_quota Demo.silent
                    (Demo.chat None None (Some [])) Demo.at_allowance
                    eq_refl eq_refl)).
    vm_compute. discriminate.
  - split; [reflexivity|]. split; [reflexivity|].
    apply (proj1 (proj2 (@C5_daily_quota Demo.silent
                           (Demo.chat None None (Some []))
                           Demo.below_allowance eq_refl eq_refl))).
    reflexivity.
Defined.

(* ------------------------------------------------------------------ *)
(** ** Failures during generation *)

(** C2, as stated, fails: when the generation fails with ["boom"] after
    the chunk ["Hello, "] has been sent, the row of the turn ends with the
    response ["Error: boom"], not ["Hello, "]. *)
Lemma C2_counterexample :
  try_block Demo.failing
    (turn_setup Demo.failing (Demo.chat None (Some lumo_8b) (Some []))
                Demo.empty)
  = Some (["Hello, "], Raised "boom", "trace")
  /\ body (fst (process_chat_request Demo.failing
                  (Demo.chat None (Some lumo_8b) (Some [])) Demo.empty))
     = [key_chunk "abcdefghij"; "Hello, "; error_chunk "boom"]
  /\ map Requests.response
       (requests (snd (process_chat_request Demo.failing
                         (Demo.chat None (Some lumo_8b) (Some []))
                         Demo.empty)))
     = [Some "Error: boom"]
  /\ map Requests.response
       (requests (snd (process_chat_request Demo.failing
                         (Demo.chat None (Some lumo_8b) (Some []))
                         Demo.empty)))
     <> [Some "Hello, "].
Proof. repeat split. discriminate. Qed.

Lemma last_app_one (A : Type) (l : list A) (x dflt : A) :
  last (l ++ [x]) dflt = x.
Proof.
  induction l as [|y l IH]; [reflexivity|].
  cbn [app]. destruct (l ++ [x])%list eqn:E.
  - destruct l; discriminate.
  - cbn [last]. cbn [last] in IH. exact IH.
Qed.

(** C2, amended: when the generation of an admitted turn raises an
    exception [e] after the partial text ["Hello, "] has been sent to the
    caller, the stream ends with the error JSON chunk, and the row of the
    turn ends with success false, its three token counts 0, and the
    response ["Error: " + str(e)]: the partial text is overwritten. *)
Theorem C2_partial_text_is_overwritten W chat_request d ts e out :
  admitted W chat_request d ->
  try_block W (turn_setup W chat_request d) = Some (ts, Raised e, out) ->
  join ts = "Hello, " ->
  exists r,
    one_more_row d (snd (process_chat_request W chat_request d)) r
    /\ Requests.response r = Some ("Error: " ++ e)
    /\ Requests.response r <> Some "Hello, "
    /\ Requests.success r = false
    /\ Requests.input_token_count r = Some 0
    /\ Requests.output_token_count r = Some 0
    /\ Requests.total_token_count r = Some 0
    /\ body (fst (process_chat_request W chat_request d))
       = key_chunk (resolve_conversation_key W chat_request d)
         :: ts ++ [Py.json_dumps "error" e]
    /\ last (body (fst (process_chat_request W chat_request d))) ""
       = Py.json_dumps "error" e.
Proof.
  intros Hadm Htry _.
  destruct (turn_raised Hadm Htry)
    as (r & -> & _ & Hs & Hresp & Hi & Ho & Ht & _).
  exists r. cbn [fst snd body].
  split; [split; reflexivity|]. split; [exact Hresp|].
  split; [rewrite Hresp; discriminate|].
  repeat (split; [assumption|]). split; [reflexivity|].
  change (key_chunk (resolve_conversation_key W chat_request d)
          :: ts ++ [error_chunk e])%list
    with ((key_chunk (resolve_conversation_key W chat_request d) :: ts)
          ++ [error_chunk e])%list.
  apply last_app_one.
Qed.

Lemma C2_witness :
  admitted Demo.failing (Demo.chat None None (Some [])) Demo.empty
  /\ try_block Demo.failing
       (turn_setup Demo.failing (Demo.chat None None (Some [])) Demo.empty)
     = Some (["Hello, "], Raised "boom", "trace")
  /\ join ["Hello, "] = "Hello, "
  /\ exists r,
       one_more_row Demo.empty
         (snd (process_chat_request Demo.failing
                 (Demo.chat None None (Some [])) Demo.empty)) r
       /\ Requests.response r = Some "Error: boom"
       /\ Requests.success r = false.
Proof.
  assert (Ha : admitted Demo.failing (Demo.chat None None (Some []))
                 Demo.empty) by (repeat split).
  split; [exact Ha|]. split; [reflexivity|]. split; [reflexivity|].
  destruct (@C2_partial_text_is_overwritten Demo.failing
              (Demo.chat None None (Some [])) Demo.empty
              ["Hello, "] "boom" "trace" Ha eq_refl eq_refl)
    as (r & H1 & H2 & _ & H4 & _).
  exists r. repeat split; assumption || apply H1.
Defined.



(* ------------------------------------------------------------------ *)
(** ** Routing of the Lumo models *)

Lemma route_lumo W m temperature tools :
  Py.startswith (model_literal m) "lumo-" = true ->
  route W (model_literal m) temperature tools
  = ({| chat_model_name := model_literal m;
        chat_temperature := temperature; streaming := true;
        max_tokens := Some 4096;
        base_url := Some "https://api.infyr.ai/v1";
        api_key := Some (INFYR_API_KEY (CONFIG W)) |}, []).
Proof. destruct m; intros H; try discriminate H; reflexivity. Qed.

(** C6, as stated, fails: a free-tier request for [lumo-8b] with three
    known capabilities passes the gates but is stopped at the free-tier
    tool limit, which is checked before the backend is chosen; no engine
    runs, and the stream is the key followed by the tool-limit error. *)
Lemma C6_counterexample :
  ChatRequest.model_name Demo.greedy_lumo = Some lumo_8b
  /\ Py.startswith (model_literal lumo_8b) "lumo-" = true
  /\ admitted Demo.silent Demo.greedy_lumo Demo.empty
  /\ turn_setup Demo.silent Demo.greedy_lumo Demo.empty = ToolLimitExceeded
  /\ try_block Demo.silent
       (turn_setup Demo.silent Demo.greedy_lumo Demo.empty) = None
  /\ fst (process_chat_request Demo.silent Demo.greedy_lumo Demo.empty)
     = {| body := [key_chunk "abcdefghij"; error_chunk TOOL_LIMIT_REACHED];
          media_type := "text/plain" |}.
Proof. repeat split. Qed.

(** C6, amended: a request for a model with the [lumo-] prefix that
    reaches the engine -- its capability list is a list and, for a
    free-tier caller, names at most one registry tool -- runs in direct
    mode whatever that list holds: the handle points at the secondary
    endpoint with an output ceiling of 4096 tokens, the tool list is
    emptied, and the generation is [chat.astream] on the flat message
    sequence (system instructions, prior turns, current message), which
    takes no tools. *)
Theorem C6_lumo_runs_direct W chat_request d m ts :
  ChatRequest.model_name chat_request = Some m ->
  Py.startswith (model_literal m) "lumo-" = true ->
  ChatRequest.tools chat_request = Some ts ->
  tier W chat_request d = true
  \/ (List.length (requested_tools ts) <= 1)%nat ->
  exists chat messages input_token_count,
    turn_setup W chat_request d = DirectMode chat messages input_token_count
    /\ chat_model_name chat = model_literal m
    /\ max_tokens chat = Some 4096
    /\ base_url chat = Some "https://api.infyr.ai/v1"
    /\ api_key chat = Some (INFYR_API_KEY (CONFIG W))
    /\ messages
       = ([SystemMessage base_system_message]
          ++ build_chat_history (turn_history W chat_request d)
          ++ [HumanMessage (ChatRequest.message chat_request)])%list
    /\ try_block W (turn_setup W chat_request d)
       = Some (emitted chunk_tokens (events (chat_astream W chat messages)),
               outcome (chat_astream W chat messages),
               stdout (chat_astream W chat messages))
    /\ forall tools,
         snd (route W (model_literal m)
                (resolve_temperature (ChatRequest.temperature chat_request))
                tools) = [].
Proof.
  intros Hm Hlumo Hts Hgate.
  assert (Hcheck : negb (tier W chat_request d)
                   && (1 <? List.length (requested_tools ts))%nat = false).
  { destruct Hgate as [-> | Hle]; [reflexivity|].
    apply andb_false_iff. right. apply Nat.ltb_ge. exact Hle. }
  unfold turn_setup, engine_setup. rewrite Hts, Hcheck, Hm.
  cbn [resolve_model_name]. rewrite (route_lumo W m _ _ Hlumo), Hlumo.
  eexists _, _, _. split; [reflexivity|]. cbn [try_block].
  repeat split. intros tools. now rewrite (route_lumo W m _ _ Hlumo).
Qed.

Lemma C6_witness :
  ChatRequest.model_name (Demo.chat None (Some lumo_8b)
                            (Some Demo.three_tools)) = Some lumo_8b
  /\ Py.startswith (model_literal lumo_8b) "lumo-" = true
  /\ tier Demo.silent (Demo.chat None (Some lumo_8b) (Some Demo.three_tools))
       Demo.pro_store = true
  /\ exists chat messages input_token_count,
       turn_setup Demo.silent
         (Demo.chat None (Some lumo_8b) (Some Demo.three_tools))
         Demo.pro_store
       = DirectMode chat messages input_token_count
       /\ max_tokens chat = Some 4096
       /\ base_url chat = Some "https://api.infyr.ai/v1".
Proof.
  split; [reflexivity|]. split; [reflexivity|]. split; [reflexivity|].
  destruct (@C6_lumo_runs_direct Demo.silent
              (Demo.chat None (Some lumo_8b) (Some Demo.three_tools))
              Demo.pro_store lumo_8b Demo.three_tools
              eq_refl eq_refl eq_refl (or_introl eq_refl))
    as (chat & messages & itc & H1 & _ & H3 & H4 & _).
  exists chat, messages, itc. repeat split; assumption.
Defined.

(* ------------------------------------------------------------------ *)
(** ** Ordering by recency *)

Lemma insert_desc_perm r l : Permutation (insert_desc r l) (r :: l).
Proof.
  induction l as [|x l IH]; cbn [insert_desc]; [reflexivity|].
  destruct (Requests.time x <=? Requests.time r); [reflexivity|].
  rewrite IH. apply perm_swap.
Qed.

Lemma order_by_time_desc_perm l : Permutation (order_by_time_desc l) l.
Proof.
  unfold order_by_time_desc.
  induction l as [|x l IH]; cbn [fold_right]; [reflexivity|].
  rewrite insert_desc_perm. now constructor.
Qed.

Lemma order_by_time_desc_In l x : In x (order_by_time_desc l) <-> In x l.
Proof.
  split; apply Permutation_in;
    [| symmetry]; apply order_by_time_desc_perm.
Qed.

Lemma insert_desc_sorted r l :
  StronglySorted not_older l -> StronglySorted not_older (insert_desc r l).
Proof.
  induction 1 as [|x l Hl IH Hx]; cbn [insert_desc].
  - repeat constructor.
  - destruct (Z.leb_spec (Requests.time x) (Requests.time r)) as [Hle|Hgt].
    + constructor; [constructor; assumption|].
      constructor; [exact Hle|].
      eapply Forall_impl; [|exact Hx].
      unfold not_older. intros y Hy. lia.
    + constructor; [exact IH|].
      eapply Permutation_Forall; [symmetry; apply insert_desc_perm|].
      constructor; [unfold not_older; lia | exact Hx].
Qed.

Lemma order_by_time_desc_sorted l :
  StronglySorted not_older (order_by_time_desc l).
Proof.
  unfold order_by_time_desc.
  induction l as [|x l IH]; cbn [fold_right]; [constructor|].
  now apply insert_desc_sorted.
Qed.

(** A row strictly newer than all the others comes first. *)
Lemma order_by_time_desc_newest l x :
  (forall y, In y l -> Requests.time y < Requests.time x) ->
  order_by_time_desc (l ++ [x]) = x :: order_by_time_desc l.
Proof.
  unfold order_by_time_desc. rewrite fold_right_app.
  cbn [fold_right insert_desc].
  induction l as [|y l IH]; intros H; cbn [fold_right]; [reflexivity|].
  rewrite IH by (intros z Hz; apply H; now right).
  cbn [insert_desc].
  pose proof (H y (or_introl eq_refl)) as Hy.
  destruct (Z.leb_spec (Requests.time x) (Requests.time y)); [lia|].
  reflexivity.
Qed.

Lemma sorted_firstn (R : Requests.t -> Requests.t -> Prop) n l :
  StronglySorted R l -> StronglySorted R (firstn n l).
Proof.
  intros H. revert n.
  induction H as [|x l Hl IH Hx]; intros [|n]; cbn [firstn];
    try constructor.
  - apply IH.
  - apply Forall_forall. intros y Hy.
    rewrite Forall_forall in Hx. apply Hx.
    rewrite <- (firstn_skipn n l). apply in_or_app. now left.
Qed.

Lemma sorted_split (R : Requests.t -> Requests.t -> Prop) l1 l2 :
  StronglySorted R (l1 ++ l2) ->
  forall a b, In a l1 -> In b l2 -> R a b.
Proof.
  induction l1 as [|x l1 IH]; cbn [app]; intros H a b Ha Hb; [destruct Ha|].
  inversion H as [|? ? Hs Hf]; subst.
  destruct Ha as [<-|Ha].
  - rewrite Forall_forall in Hf. apply Hf. apply in_or_app. now right.
  - now apply IH.
Qed.

Lemma sorted_snoc l x :
  StronglySorted not_newer l -> Forall (fun y => not_newer y x) l ->
  StronglySorted not_newer (l ++ [x]).
Proof.
  induction 1 as [|y l Hl IH Hy]; cbn [app]; intros Hx.
  - repeat constructor.
  - inversion Hx as [|? ? Hyx Hlx]; subst.
    constructor; [now apply IH|].
    apply Forall_app. split; [exact Hy | now repeat constructor].
Qed.

Lemma sorted_rev l :
  StronglySorted not_older l -> StronglySorted not_newer (rev l).
Proof.
  induction 1 as [|x l Hl IH Hx]; cbn [rev]; [constructor|].
  apply sorted_snoc; [exact IH|].
  apply Forall_forall. intros y Hy. apply in_rev in Hy.
  rewrite Forall_forall in Hx. exact (Hx y Hy).
Qed.

(* ------------------------------------------------------------------ *)
(** ** Conversation history *)

Lemma resolve_continues W chat_request d key :
  continues chat_request d key ->
  resolve_conversation_key W chat_request d = key.
Proof.
  unfold continues, resolve_conversation_key.
  intros (-> & Hne & Hfind). cbn [Py.truthy_opt]. unfold Py.truthy.
  apply String.eqb_neq in Hne. rewrite Hne. cbn [negb].
  destruct (find _ _); [reflexivity | congruence].
Qed.

Lemma turn_history_continues W chat_request d key :
  continues chat_request d key ->
  (forall x, In x (requests d) ->
     in_conversation (ChatRequest.public_key chat_request) key x = true ->
     Requests.time x < func_now W) ->
  turn_history W chat_request d
  = (last_turns (ChatRequest.public_key chat_request) key d
     ++ [turn_row W chat_request d])%list.
Proof.
  intros Hc Hclock.
  unfold turn_history, conversation_history_of, last_turns, turn_store,
    add_request.
  rewrite (@resolve_continues W chat_request d key Hc).
  cbn [requests]. rewrite filter_app. cbn [filter].
  assert (Hin : in_conversation (ChatRequest.public_key chat_request) key
                  (turn_row W chat_request d) = true).
  { unfold in_conversation, turn_row, new_request.
    cbn [Requests.pubkey Requests.conversation_key].
    rewrite (@resolve_continues W chat_request d key Hc).
    now rewrite !String.eqb_refl. }
  rewrite Hin. rewrite order_by_time_desc_newest.
  - reflexivity.
  - intros y Hy. apply filter_In in Hy. destruct Hy as [Hy1 Hy2].
    exact (Hclock y Hy1 Hy2).
Qed.

Lemma engine_setup_history W chat_request is_pro_user model_name temperature
    history :
  (forall chat messages itc,
     engine_setup W chat_request is_pro_user model_name temperature history
       = DirectMode chat messages itc ->
     messages = ([SystemMessage base_system_message]
                 ++ build_chat_history history
                 ++ [HumanMessage (ChatRequest.message chat_request)])%list)
  /\ (forall chat tools sm ch inp ap itc,
        engine_setup W chat_request is_pro_user model_name temperature
                     history
          = AgentMode chat tools sm ch inp ap itc ->
        ch = build_chat_history history).
Proof.
  unfold engine_setup.
  destruct (ChatRequest.tools chat_request) as [ts|];
    [|split; intros; discriminate].
  destruct (negb is_pro_user && _); [split; intros; discriminate|].
  destruct (route W model_name temperature _) as [chat0 tools0].
  destruct (Py.startswith model_name "lumo-"); split; intros;
    try discriminate.
  - match goal with H : DirectMode _ _ _ = _ |- _ => now injection H end.
  - match goal with H : AgentMode _ _ _ _ _ _ _ = _ |- _ =>
      now injection H end.
Qed.

Lemma build_chat_history_snoc l x :
  build_chat_history (l ++ [x]) = flat_map turn_messages l.
Proof. unfold build_chat_history. now rewrite removelast_last. Qed.

(** C7, as stated, fails: the prior turns are not restricted to the
    completed exchanges.  In a conversation whose only earlier turn
    failed, the model is given that turn -- its message and its error
    text -- while the conversation has no completed exchange at all. *)
Lemma C7_counterexample :
  continues (Demo.chat (Some "k") None (Some [])) Demo.failed_before "k"
  /\ (exists chat tools sm inp ap itc,
        turn_setup Demo.silent (Demo.chat (Some "k") None (Some []))
                   Demo.failed_before
        = AgentMode chat tools sm
            [HumanMessage "hi"; AIMessage "Error: boom"] inp ap itc)
  /\ flat_map turn_messages
       (last_completed_exchanges "U1" "k"
          (next_id (requests Demo.failed_before))
          (turn_store Demo.silent (Demo.chat (Some "k") None (Some []))
                      Demo.failed_before))
     = []
  /\ [HumanMessage "hi"; AIMessage "Error: boom"] <> [].
Proof.
  split; [repeat split; discriminate|]. split.
  - do 6 eexists. vm_compute. reflexivity.
  - split; [reflexivity | discriminate].
Qed.

(** C7, amended: when a request continues a conversation whose stored
    turns are all older than the new row, the history fetched is the 5
    most recent rows of {identity, conversation key} reversed, its last
    element is the current turn, and what the model is given -- in direct
    mode between the system message and the current message, in agent mode
    as [chat_history] -- is made from the rows before it: the (up to) 4
    most recent earlier turns of the conversation, oldest first, whatever
    their success flag. *)
Theorem C7_prior_turns W chat_request d key :
  continues chat_request d key ->
  (forall x, In x (requests d) ->
     in_conversation (ChatRequest.public_key chat_request) key x = true ->
     Requests.time x < func_now W) ->
  resolve_conversation_key W chat_request d = key
  /\ turn_history W chat_request d
     = (last_turns (ChatRequest.public_key chat_request) key d
        ++ [turn_row W chat_request d])%list
  /\ (forall chat messages itc,
        turn_setup W chat_request d = DirectMode chat messages itc ->
        messages
        = ([SystemMessage base_system_message]
           ++ flat_map turn_messages
                (last_turns (ChatRequest.public_key chat_request) key d)
           ++ [HumanMessage (ChatRequest.message chat_request)])%list)
  /\ (forall chat tools sm ch inp ap itc,
        turn_setup W chat_request d
        = AgentMode chat tools sm ch inp ap itc ->
        ch = flat_map turn_messages
               (last_turns (ChatRequest.public_key chat_request) key d))
  /\ (List.length (last_turns (ChatRequest.public_key chat_request) key d)
      <= 4)%nat
  /\ StronglySorted not_newer
       (last_turns (ChatRequest.public_key chat_request) key d)
  /\ (forall x,
        In x (last_turns (ChatRequest.public_key chat_request) key d) ->
        In x (requests d)
        /\ in_conversation (ChatRequest.public_key chat_request) key x
           = true)
  /\ (forall x y,
        In x (requests d) ->
        in_conversation (ChatRequest.public_key chat_request) key x = true ->
        ~ In x (last_turns (ChatRequest.public_key chat_request) key d) ->
        In y (last_turns (ChatRequest.public_key chat_request) key d) ->
        Requests.time x <= Requests.time y).
Proof.
  intros Hc Hclock.
  pose proof (@turn_history_continues W chat_request d key Hc Hclock)
    as Hhist.
  destruct (engine_setup_history W chat_request (tier W chat_request d)
              (resolve_model_name (ChatRequest.model_name chat_request))
              (resolve_temperature (ChatRequest.temperature chat_request))
              (turn_history W chat_request d)) as [Hdirect Hagent].
  assert (Hb : build_chat_history (turn_history W chat_request d)
               = flat_map turn_messages
                   (last_turns (ChatRequest.public_key chat_request) key d))
    by (rewrite Hhist; apply build_chat_history_snoc).
  rewrite Hb in Hdirect, Hagent.
  set (conv := filter (in_conversation
                         (ChatRequest.public_key chat_request) key)
                      (requests d)).
  assert (Hsorted : StronglySorted not_older (order_by_time_desc conv))
    by apply order_by_time_desc_sorted.
  split; [now apply resolve_continues|]. split; [exact Hhist|].
  split; [exact Hdirect|]. split; [exact Hagent|].
  unfold last_turns. fold conv.
  split; [rewrite length_rev; apply firstn_le_length|].
  split; [apply sorted_rev, sorted_firstn, Hsorted|]. split.
  - intros x Hx. apply in_rev in Hx.
    assert (Hx' : In x (order_by_time_desc conv)).
    { rewrite <- (firstn_skipn 4 (order_by_time_desc conv)).
      apply in_or_app. now left. }
    apply -> order_by_time_desc_In in Hx'. unfold conv in Hx'.
    now apply filter_In in Hx'.
  - intros x y Hx Hconv Hnot Hy. apply in_rev in Hy.
    assert (Hx' : In x (order_by_time_desc conv)).
    { apply order_by_time_desc_In. unfold conv. now apply filter_In. }
    rewrite <- (firstn_skipn 4 (order_by_time_desc conv)) in Hx', Hsorted.
    apply in_app_or in Hx'. destruct Hx' as [Hx'|Hx'].
    + exfalso. apply Hnot. now apply in_rev in Hx'.
    + exact (sorted_split _ _ Hsorted y x Hy Hx').
Qed.

Lemma C7_witness :
  continues (Demo.chat (Some "c") None (Some [])) Demo.below_allowance "c"
  /\ (forall x, In x (requests Demo.below_allowance) ->
        in_conversation "U1" "c" x = true ->
        Requests.time x < func_now Demo.silent)
  /\ map Requests.id
       (removelast (turn_history Demo.silent
                      (Demo.chat (Some "c") None (Some []))
                      Demo.below_allowance))
     = [6; 7; 8; 9]
  /\ map Requests.id
       (turn_history Demo.silent (Demo.chat (Some "c") None (Some []))
                     Demo.below_allowance)
     = [6; 7; 8; 9; 10].
Proof.
  assert (Hc : continues (Demo.chat (Some "c") None (Some []))
                 Demo.below_allowance "c")
    by (repeat split; discriminate).
  assert (Hclock : forall x, In x (requests Demo.below_allowance) ->
            in_conversation "U1" "c" x = true ->
            Requests.time x < func_now Demo.silent).
  { intros x Hx _. cbn in Hx.
    repeat (destruct Hx as [<-|Hx]; [reflexivity|]). destruct Hx. }
  split; [exact Hc|]. split; [exact Hclock|].
  destruct (@C7_prior_turns Demo.silent
              (Demo.chat (Some "c") None (Some [])) Demo.below_allowance
              "c" Hc Hclock) as (_ & -> & _).
  rewrite removelast_last. split; reflexivity.
Defined.

(* ------------------------------------------------------------------ *)
(** ** Listing the recent conversations *)

Lemma group_row_new key t groups :
  exists t', In (key, t') (group_row key t groups) /\ t <= t'.
Proof.
  induction groups as [|[k m] groups IH]; cbn [group_row].
  - exists t. split; [now left | lia].
  - destruct (String.eqb_spec k key) as [->|Hne].
    + exists (Z.max m t). split; [now left | lia].
    + destruct IH as (t' & Hin & Hle). exists t'. split; [now right | exact Hle].
Qed.

Lemma group_row_keeps key t groups k m :
  In (k, m) groups ->
  exists t', In (k, t') (group_row key t groups) /\ m <= t'.
Proof.
  induction groups as [|[k0 m0] groups IH]; cbn [group_row];
    intros Hin; [destruct Hin|].
  destruct (String.eqb_spec k0 key) as [->|Hne].
  - destruct Hin as [Heq|Hin].
    + injection Heq as <- <-. exists (Z.max m0 t). split; [now left | lia].
    + exists m. split; [now right | lia].
  - destruct Hin as [Heq|Hin].
    + injection Heq as <- <-. exists m0. split; [now left | lia].
    + destruct (IH Hin) as (t' & Hin' & Hle).
      exists t'. split; [now right | exact Hle].
Qed.

Lemma group_row_keys key t groups k :
  In k (map fst (group_row key t groups)) ->
  k = key \/ In k (map fst groups).
Proof.
  induction groups as [|[k0 m0] groups IH]; cbn [group_row map fst In].
  - intros [<-|[]]. now left.
  - destruct (String.eqb_spec k0 key) as [->|Hne]; cbn [map fst In].
    + intros [<-|H]; [now left | right; now right].
    + intros [<-|H]; [right; now left|].
      destruct (IH H) as [->|H']; [now left | right; now right].
Qed.

Lemma group_row_NoDup key t groups :
  NoDup (map fst groups) -> NoDup (map fst (group_row key t groups)).
Proof.
  induction groups as [|[k0 m0] groups IH]; cbn [group_row map fst];
    intros Hnd.
  - repeat constructor. intros [].
  - inversion Hnd as [|? ? Hout Hrest]; subst.
    destruct (String.eqb_spec k0 key) as [->|Hne]; cbn [map fst].
    + now constructor.
    + constructor; [|now apply IH].
      intros Hin. apply group_row_keys in Hin.
      destruct Hin as [->|Hin]; [now apply Hne | now apply Hout].
Qed.


(** The grouping keeps one entry per conversation key, and that entry is
    at least as late as every row it was built from. *)
Lemma grouping_covers rows :
  forall groups seen,
    NoDup (map fst groups) ->
    (forall r, In r seen ->
       exists t, In (Requests.conversation_key r, t) groups
                 /\ Requests.time r <= t) ->
    let groups' :=
      fold_left
        (fun g r =>
           group_row (Requests.conversation_key r) (Requests.time r) g)
        rows groups in
    NoDup (map fst groups')
    /\ forall r, In r (seen ++ rows) ->
         exists t, In (Requests.conversation_key r, t) groups'
                   /\ Requests.time r <= t.
Proof.
  induction rows as [|x rows IH]; intros groups seen Hnd Hcov;
    cbn [fold_left].
  - rewrite app_nil_r. split; assumption.
  - replace (seen ++ x :: rows)%list with ((seen ++ [x]) ++ rows)%list
      by (now rewrite <- app_assoc).
    apply IH.
    + now apply group_row_NoDup.
    + intros r Hr. apply in_app_or in Hr. destruct Hr as [Hr|[<-|[]]].
      * destruct (Hcov r Hr) as (t & Hin & Hle).
        destruct (group_row_keeps (Requests.conversation_key x)
                    (Requests.time x) groups _ _ Hin) as (t' & Hin' & Hle').
        exists t'. split; [exact Hin' | lia].
      * apply group_row_new.
Qed.










(* ------------------------------------------------------------------ *)
(** ** What a request does to the store *)

Lemma not_admitted_rejected W chat_request d :
  ~ admitted W chat_request d ->
  exists msg, process_chat_request W chat_request d = (reject msg, d).
Proof.
  intros Hno.
  destruct (verify_signature W (ChatRequest.public_key chat_request)
              (ChatRequest.signature chat_request)) eqn:Hv.
  - destruct (@gate_verdict W chat_request d Hv) as [[_ H]|[H _]];
      [exact H | contradiction].
  - exists AUTH_FAILED. apply rejected_unauthenticated.
    unfold authenticated. congruence.
Qed.

Lemma admitted_dec W chat_request d :
  admitted W chat_request d \/ ~ admitted W chat_request d.
Proof.
  destruct (verify_signature W (ChatRequest.public_key chat_request)
              (ChatRequest.signature chat_request)) eqn:Hv.
  - destruct (@gate_verdict W chat_request d Hv) as [[H _]|[H _]];
      [now right | now left].
  - right. intros (Ha & _). unfold authenticated in Ha. congruence.
Qed.

(** X1: whatever the request, [process_chat_request] leaves the users and
    the rows already stored as they are.  A request that fails a gate is
    answered with one JSON error payload and changes nothing; an admitted
    request adds exactly one row, that of its turn, whose primary key is
    larger than every key in the store. *)
Theorem X1_store_grows_by_one_turn W chat_request d :
  users (snd (process_chat_request W chat_request d)) = users d
  /\ ((~ admitted W chat_request d
       /\ snd (process_chat_request W chat_request d) = d
       /\ exists msg,
            fst (process_chat_request W chat_request d)
            = {| body := [Py.json_dumps "error" msg];
                 media_type := "application/json" |})
      \/ (admitted W chat_request d
          /\ media_type (fst (process_chat_request W chat_request d))
             = "text/plain"
          /\ exists r,
               requests (snd (process_chat_request W chat_request d))
               = (requests d ++ [r])%list
               /\ same_turn (turn_row W chat_request d) r
               /\ forall x, In x (requests d) ->
                    Requests.id x < Requests.id r)).
Proof.
  destruct (admitted_dec W chat_request d) as [Hadm|Hno].
  - destruct (admitted_response Hadm) as (r & -> & Hr).
    cbn [fst snd users store_with]. split; [reflexivity|]. right.
    split; [exact Hadm|]. split; [reflexivity|].
    exists r. split; [reflexivity|]. split; [exact Hr|].
    intros x Hx. destruct Hr as (-> & _). rewrite turn_row_id.
    now apply next_id_above.
  - destruct (not_admitted_rejected Hno) as (msg & ->).
    cbn [fst snd]. split; [reflexivity|]. left.
    split; [exact Hno|]. split; [reflexivity|]. now exists msg.
Qed.




(* ------------------------------------------------------------------ *)
(** ** A generation that completes *)

Lemma generate_returned_counts W i old us (Hfresh : fresh i old) (A : Type)
    (tokens_of : A -> list string) (g : Generation A) model_name
    input_token_count r :
  Requests.id r = i -> outcome g = Returned ->
  exists r',
    generate W tokens_of g i model_name input_token_count
             (store_with old us r)
    = (emitted tokens_of (events g), store_with old us r')
    /\ Requests.input_token_count r' = Some input_token_count
    /\ Requests.output_token_count r'
       = Some (count_tokens W (join (emitted tokens_of (events g))))
    /\ Requests.total_token_count r'
       = Some (input_token_count
               + count_tokens W (join (emitted tokens_of (events g)))).
Proof.
  intros Hr Hg. unfold generate. rewrite Hg.
  destruct (@run_events_store i old us Hfresh A tokens_of (events g)
              (start i (store_with old us r)) r eq_refl Hr eq_refl)
    as (h1 & r1 & -> & Hh1 & Hs1).
  unfold on_completion.
  cbn [db yielded start app full_response_text stream_handler append].
  pose proof (same_turn_id Hs1 Hr) as Hr1.
  rewrite (@update_request_store i _ old us r1 Hfresh Hr1).
  set (r2 := Requests.set_token_counts _ _ _ r1).
  assert (Hr2 : Requests.id r2 = i) by exact Hr1.
  unfold DebugCaptureCallbackHandler_exit.
  destruct (Py.startswith model_name "lumo-").
  - unfold StreamingCallback_on_llm_end. rewrite Hh1.
    rewrite (@update_request_store i _ old us r2 Hfresh Hr2).
    rewrite update_request_store; [| exact Hfresh | exact Hr2].
    rewrite update_request_store; [| exact Hfresh | exact Hr2].
    eexists. split; [reflexivity|]. cbn. repeat split.
  - rewrite (@update_request_store i _ old us r2 Hfresh Hr2).
    rewrite update_request_store; [| exact Hfresh | exact Hr2].
    eexists. split; [reflexivity|]. cbn. repeat split.
Qed.

Lemma count_tokens_loop_from W texts : forall n,
  count_tokens_loop W texts n
  = option_map (Z.add n) (count_tokens_loop W texts 0).
Proof.
  induction texts as [|x texts IH]; intros n; cbn [count_tokens_loop].
  - cbn. f_equal. lia.
  - destruct (encode_len W x) as [k|]; [|reflexivity].
    rewrite (IH (n + k)), (IH (0 + k)).
    destruct (count_tokens_loop W texts 0) as [t|]; cbn; [|reflexivity].
    f_equal. lia.
Qed.

(** The count of a list is 0 as soon as the encoder raises on one of its
    elements. *)
Lemma count_tokens_list_raises W texts m :
  In m texts -> encode_len W m = None -> count_tokens_list W texts = 0.
Proof.
  intros Hin Hm. unfold count_tokens_list.
  assert (H : forall n, count_tokens_loop W texts n = None).
  { induction texts as [|x texts IH]; [destruct Hin|].
    intros n. cbn [count_tokens_loop].
    destruct Hin as [->|Hin]; [rewrite Hm; reflexivity|].
    destruct (encode_len W x); [apply IH; exact Hin | reflexivity]. }
  rewrite H. reflexivity.
Qed.

Lemma count_tokens_loop_sum W texts :
  Forall (fun m => encode_len W m <> None) texts ->
  count_tokens_loop W texts 0
  = Some (fold_right (fun m total => count_tokens W m + total) 0 texts).
Proof.
  induction 1 as [|x texts Hx _ IH]; [reflexivity|].
  cbn [count_tokens_loop fold_right]. unfold count_tokens at 1.
  destruct (encode_len W x) as [k|]; [|destruct (Hx eq_refl)].
  rewrite count_tokens_loop_from, IH. cbn [option_map]. f_equal; lia.
Qed.

(** Otherwise it is the sum of the counts of the elements. *)
Lemma count_tokens_list_sum W texts :
  Forall (fun m => encode_len W m <> None) texts ->
  count_tokens_list W texts
  = fold_right (fun m total => count_tokens W m + total) 0 texts.
Proof.
  intros H. unfold count_tokens_list.
  rewrite (@count_tokens_loop_sum W texts H). reflexivity.
Qed.

Lemma engine_setup_tokens W chat_request is_pro_user model_name temperature
    history :
  (forall chat messages itc,
     engine_setup W chat_request is_pro_user model_name temperature history
       = DirectMode chat messages itc ->
     messages
     = ([SystemMessage base_system_message] ++ build_chat_history history
        ++ [HumanMessage (ChatRequest.message chat_request)])%list
     /\ itc = count_tokens W base_system_message
              + count_tokens_list W (map content (build_chat_history history))
              + count_tokens W (ChatRequest.message chat_request))
  /\ (forall chat tools sm ch inp ap itc,
        engine_setup W chat_request is_pro_user model_name temperature
                     history
          = AgentMode chat tools sm ch inp ap itc ->
        itc = count_tokens W sm + count_tokens_list W (map content ch)
              + count_tokens W inp).
Proof.
  unfold engine_setup.
  destruct (ChatRequest.tools chat_request) as [ts|];
    [|split; intros; discriminate].
  destruct (negb is_pro_user && _); [split; intros; discriminate|].
  destruct (route W model_name temperature _) as [chat0 tools0].
  destruct (Py.startswith model_name "lumo-"); split; intros;
    try discriminate.
  - match goal with H : DirectMode _ _ _ = _ |- _ =>
      injection H as _ <- <- end.
    split; reflexivity.
  - match goal with H : AgentMode _ _ _ _ _ _ _ = _ |- _ =>
      injection H as _ _ <- <- <- _ <- end.
    reflexivity.
Qed.

(** X3: when the generation of an admitted turn completes, the caller has
    received the conversation key followed by the content chunks, and the
    row of the turn is marked successful with exactly the concatenation of
    those chunks as its response.  The stored counts are the input count
    computed before streaming, the tokens of the response, and their sum.
    The input count is the sum of three calls of [count_tokens]: on the
    system message (the base one in direct mode), on the list of the
    contents of the prior messages, and on the input; a call on a string
    the encoder raises on gives 0, and the call on the list gives 0 as
    soon as the encoder raises on one of the prior messages. *)
Theorem X3_completed_turn_is_stored_as_streamed W chat_request d ts out :
  admitted W chat_request d ->
  try_block W (turn_setup W chat_request d) = Some (ts, Returned, out) ->
  exists r itc,
    fst (process_chat_request W chat_request d)
    = {| body := key_chunk (resolve_conversation_key W chat_request d) :: ts;
         media_type := "text/plain" |}
    /\ one_more_row d (snd (process_chat_request W chat_request d)) r
    /\ Requests.success r = true
    /\ Requests.response r = Some (join ts)
    /\ setup_input_tokens (turn_setup W chat_request d) = Some itc
    /\ Requests.input_token_count r = Some itc
    /\ Requests.output_token_count r = Some (count_tokens W (join ts))
    /\ Requests.total_token_count r
       = Some (itc + count_tokens W (join ts))
    /\ (forall chat messages i0,
          turn_setup W chat_request d = DirectMode chat messages i0 ->
          messages
          = ([SystemMessage base_system_message]
             ++ build_chat_history (turn_history W chat_request d)
             ++ [HumanMessage (ChatRequest.message chat_request)])%list
          /\ itc = count_tokens W base_system_message
                   + count_tokens_list W
                       (map content
                          (build_chat_history
                             (turn_history W chat_request d)))
                   + count_tokens W (ChatRequest.message chat_request))
    /\ (forall chat tools sm ch inp ap i0,
          turn_setup W chat_request d
          = AgentMode chat tools sm ch inp ap i0 ->
          itc = count_tokens W sm + count_tokens_list W (map content ch)
                + count_tokens W inp)
    /\ (forall text, encode_len W text = None -> count_tokens W text = 0)
    /\ (forall texts text,
          In text texts -> encode_len W text = None ->
          count_tokens_list W texts = 0)
    /\ (forall texts,
          Forall (fun text => encode_len W text <> None) texts ->
          count_tokens_list W texts
          = fold_right (fun text total => count_tokens W text + total) 0
                       texts).
Proof.
  intros Hadm Htry.
  assert (Hcount :
    (forall text, encode_len W text = None -> count_tokens W text = 0)
    /\ (forall texts text,
          In text texts -> encode_len W text = None ->
          count_tokens_list W texts = 0)
    /\ (forall texts,
          Forall (fun text => encode_len W text <> None) texts ->
          count_tokens_list W texts
          = fold_right (fun text total => count_tokens W text + total) 0
                       texts)).
  { split; [intros text H; unfold count_tokens; rewrite H; reflexivity|].
    split; [intros texts text; apply count_tokens_list_raises
           | apply count_tokens_list_sum]. }
  destruct (turn_returned Hadm Htry) as (r & Heq & _ & Hs & Hresp & _).
  destruct (engine_setup_tokens W chat_request (tier W chat_request d)
              (resolve_model_name (ChatRequest.model_name chat_request))
              (resolve_temperature (ChatRequest.temperature chat_request))
              (turn_history W chat_request d)) as [Hdirect Hagent].
  fold (turn_setup W chat_request d) in Hdirect, Hagent.
  revert Heq. rewrite (admitted_streams Hadm).
  unfold stream_response.
  change (engine_setup W chat_request _ _ _ _)
    with (turn_setup W chat_request d).
  rewrite turn_store_with.
  destruct (turn_setup W chat_request d)
    as [|e0|chat messages itc|chat tools sm ch inp ap itc] eqn:Hset;
    cbn [try_block] in Htry; try discriminate.
  - injection Htry as <- Ho <-.
    destruct (@generate_returned_counts W _ _ (users d)
                (@turn_id_fresh d) _ chunk_tokens
                (chat_astream W chat messages)
                (resolve_model_name (ChatRequest.model_name chat_request))
                itc _ (@turn_row_id W chat_request d) Ho)
      as (r' & -> & Hi & Hout & Htot).
    intros Heq. injection Heq as Heq. apply app_inj_tail in Heq.
    destruct Heq as [_ ->].
    exists r, itc. cbn [fst snd setup_input_tokens].
    split; [reflexivity|]. split; [split; reflexivity|].
    repeat (split; [assumption || reflexivity|]).
    split; [|split; [|exact Hcount]].
    + intros chat1 messages1 i0 H. injection H as _ <- <-.
      exact (Hdirect chat messages itc eq_refl).
    + intros; discriminate.
  - injection Htry as <- Ho <-.
    destruct (@generate_returned_counts W _ _ (users d)
                (@turn_id_fresh d) _ log_entry_tokens
                (agent_executor_astream_log W chat tools sm ch inp ap)
                (resolve_model_name (ChatRequest.model_name chat_request))
                itc _ (@turn_row_id W chat_request d) Ho)
      as (r' & -> & Hi & Hout & Htot).
    intros Heq. injection Heq as Heq. apply app_inj_tail in Heq.
    destruct Heq as [_ ->].
    exists r, itc. cbn [fst snd setup_input_tokens].
    split; [reflexivity|]. split; [split; reflexivity|].
    repeat (split; [assumption || reflexivity|]).
    split; [|split; [|exact Hcount]].
    + intros; discriminate.
    + intros chat1 tools1 sm1 ch1 inp1 ap1 i0 H.
      injection H as _ _ <- <- <- _ <-.
      exact (Hagent chat tools sm ch inp ap itc eq_refl).
Qed.

Lemma X3_witness :
  admitted Samples.answering (Demo.chat None (Some lumo_8b) (Some []))
           Demo.empty
  /\ try_block Samples.answering
       (turn_setup Samples.answering
          (Demo.chat None (Some lumo_8b) (Some [])) Demo.empty)
     = Some (["Hi"; " there"], Returned, "dbg")
  /\ exists r,
       one_more_row Demo.empty
         (snd (process_chat_request Samples.answering
                 (Demo.chat None (Some lumo_8b) (Some [])) Demo.empty)) r
       /\ Requests.response r = Some "Hi there"
       /\ Requests.total_token_count r = Some 92.
Proof.
  assert (Ha : admitted Samples.answering
                 (Demo.chat None (Some lumo_8b) (Some [])) Demo.empty)
    by (repeat split).
  split; [exact Ha|]. split; [reflexivity|].
  destruct (@X3_completed_turn_is_stored_as_streamed Samples.answering
              (Demo.chat None (Some lumo_8b) (Some [])) Demo.empty
              ["Hi"; " there"] "dbg" Ha eq_refl)
    as (r & itc & _ & H2 & _ & H4 & H5 & _ & _ & H8 & _).
  exists r. split; [exact H2|]. split; [exact H4|].
  rewrite H8. injection H5 as <-. reflexivity.
Defined.

(* ------------------------------------------------------------------ *)
(** ** Quota and conversation keys across requests *)

(** X4: an admitted turn costs one unit of the daily quota, whether its
    generation completes, fails or is stopped at the tool limit: provided
    the database clock is not before the UTC midnight the application
    computes, the caller's count for today is one higher in the store the
    request leaves, and the count of every other identity is the same. *)
Theorem X4_admitted_turn_uses_quota W chat_request d :
  admitted W chat_request d ->
  today_start W <= func_now W ->
  used_today W chat_request (snd (process_chat_request W chat_request d))
  = used_today W chat_request d + 1
  /\ forall public_key,
       public_key <> ChatRequest.public_key chat_request ->
       today_request_count W public_key
         (snd (process_chat_request W chat_request d))
       = today_request_count W public_key d.
Proof.
  intros Hadm Hclock.
  destruct (admitted_response Hadm)
    as (r & -> & _ & Hpk & _ & _ & _ & _ & Htime).
  cbn [snd]. unfold used_today, today_request_count, store_with.
  cbn [requests]. split.
  - rewrite filter_app. cbn [filter]. rewrite Hpk, Htime.
    cbn [turn_row new_request Requests.pubkey Requests.time].
    rewrite String.eqb_refl.
    apply Z.leb_le in Hclock. rewrite Hclock. cbn [andb].
    rewrite length_app. cbn [List.length]. lia.
  - intros public_key Hne. rewrite filter_app. cbn [filter]. rewrite Hpk.
    cbn [turn_row new_request Requests.pubkey].
    apply not_eq_sym in Hne.
    apply String.eqb_neq in Hne. rewrite Hne. cbn [andb].
    now rewrite app_nil_r.
Qed.

Lemma X4_witness :
  admitted Demo.failing (Demo.chat None None (Some [])) Demo.below_allowance
  /\ today_start Demo.failing <= func_now Demo.failing
  /\ used_today Demo.failing (Demo.chat None None (Some []))
       Demo.below_allowance = 9
  /\ used_today Demo.failing (Demo.chat None None (Some []))
       (snd (process_chat_request Demo.failing
               (Demo.chat None None (Some [])) Demo.below_allowance))
     = 9 + 1.
Proof.
  assert (Ha : admitted Demo.failing (Demo.chat None None (Some []))
                 Demo.below_allowance) by (repeat split).
  assert (Hc : today_start Demo.failing <= func_now Demo.failing)
    by (vm_compute; discriminate).
  split; [exact Ha|]. split; [exact Hc|]. split; [reflexivity|].
  apply (proj1 (@X4_admitted_turn_uses_quota Demo.failing
                  (Demo.chat None None (Some [])) Demo.below_allowance
                  Ha Hc)).
Defined.

Lemma resolve_nonempty W chat_request d :
  resolve_conversation_key W chat_request d <> "".
Proof.
  assert (Hgen : generate_conversation_key W 10 <> "").
  { intros H. pose proof (proj1 (generate_conversation_key_spec W 10)) as L.
    rewrite H in L. discriminate L. }
  unfold resolve_conversation_key.
  destruct (ChatRequest.conversation_key chat_request) as [key|];
    cbn [Py.truthy_opt negb]; [|exact Hgen].
  unfold Py.truthy. destruct (String.eqb_spec key "") as [->|Hne];
    cbn [negb]; [exact Hgen|].
  destruct (find _ _); [exact Hne | exact Hgen].
Qed.

Lemma find_present (p : Requests.t -> bool) l x :
  In x l -> p x = true -> find p l <> None.
Proof.
  intros Hin Hp Hnone. pose proof (find_none p l Hnone x Hin). congruence.
Qed.

(** X5: the key sent in the first chunk can be used to continue.  After
    an admitted turn -- completed or not -- any later request of the same
    identity that names the resolved key finds the conversation: the key
    is kept, not replaced by a new one. *)
Theorem X5_returned_key_continues W chat_request d W' chat_request' :
  admitted W chat_request d ->
  ChatRequest.public_key chat_request'
  = ChatRequest.public_key chat_request ->
  ChatRequest.conversation_key chat_request'
  = Some (resolve_conversation_key W chat_request d) ->
  continues chat_request' (snd (process_chat_request W chat_request d))
            (resolve_conversation_key W chat_request d)
  /\ resolve_conversation_key W' chat_request'
       (snd (process_chat_request W chat_request d))
     = resolve_conversation_key W chat_request d.
Proof.
  intros Hadm Hpk Hkey.
  assert (Hc : continues chat_request'
                 (snd (process_chat_request W chat_request d))
                 (resolve_conversation_key W chat_request d)).
  { destruct (admitted_response Hadm)
      as (r & -> & _ & Hrpk & Hrkey & _).
    cbn [snd]. split; [exact Hkey|]. split; [apply resolve_nonempty|].
    apply (@find_present _ _ r).
    - unfold store_with. cbn [requests]. apply in_or_app. right. now left.
    - unfold in_conversation. rewrite Hrpk, Hrkey, Hpk.
      cbn [turn_row new_request Requests.pubkey Requests.conversation_key].
      now rewrite !String.eqb_refl. }
  split; [exact Hc | now apply resolve_continues].
Qed.

Lemma X5_witness :
  admitted Demo.failing (Demo.chat None None (Some [])) Demo.empty
  /\ resolve_conversation_key Demo.failing (Demo.chat None None (Some []))
       Demo.empty = "abcdefghij"
  /\ resolve_conversation_key Demo.silent
       (Demo.chat (Some "abcdefghij") (Some lumo_8b) (Some []))
       (snd (process_chat_request Demo.failing
               (Demo.chat None None (Some [])) Demo.empty))
     = "abcdefghij".
Proof.
  assert (Ha : admitted Demo.failing (Demo.chat None None (Some []))
                 Demo.empty) by (repeat split).
  split; [exact Ha|]. split; [reflexivity|].
  apply (proj2 (@X5_returned_key_continues Demo.failing
                  (Demo.chat None None (Some [])) Demo.empty Demo.silent
                  (Demo.chat (Some "abcdefghij") (Some lumo_8b) (Some []))
                  Ha eq_refl eq_refl)).
Defined.

(* ------------------------------------------------------------------ *)
(** ** The chunks of a response *)

Lemma chunk_tokens_nonempty c :
  Forall (fun t => t <> "") (chunk_tokens c).
Proof.
  unfold chunk_tokens, Py.truthy.
  destruct (String.eqb_spec c ""); cbn [negb]; repeat constructor.
  assumption.
Qed.

Lemma log_entry_tokens_nonempty ops :
  Forall (fun t => t <> "") (log_entry_tokens ops).
Proof.
  unfold log_entry_tokens. apply Forall_flat_map, Forall_forall.
  intros o _. unfold op_tokens.
  destruct (_ && _); [|constructor].
  destruct (value o) as [v|]; [|constructor].
  unfold Py.truthy. destruct (String.eqb_spec v ""); cbn [negb];
    repeat constructor. assumption.
Qed.

Lemma emitted_nonempty (A : Type) (tokens_of : A -> list string) evs :
  (forall a, Forall (fun t => t <> "") (tokens_of a)) ->
  Forall (fun t => t <> "") (emitted tokens_of evs).
Proof.
  intros H. unfold emitted. apply Forall_flat_map, Forall_forall.
  intros [c|a] _; [constructor | apply H].
Qed.

Lemma json_dumps_nonempty k v : Py.json_dumps k v <> "".
Proof. unfold Py.json_dumps. cbn [append]. discriminate. Qed.

Lemma try_block_nonempty W s ts o out :
  try_block W s = Some (ts, o, out) -> Forall (fun t => t <> "") ts.
Proof.
  destruct s; cbn [try_block]; intros H; try discriminate;
    injection H as <- _ _.
  - constructor.
  - apply emitted_nonempty, chunk_tokens_nonempty.
  - apply emitted_nonempty, log_entry_tokens_nonempty.
Qed.

(** X6: no response of [process_chat_request] carries an empty chunk.
    Model chunks with empty content and log operations without a token are
    skipped, so every chunk the caller reads is an error payload, the
    conversation key or a non-empty piece of the answer. *)
Theorem X6_no_empty_chunk W chat_request d :
  Forall (fun chunk => chunk <> "")
         (body (fst (process_chat_request W chat_request d))).
Proof.
  destruct (admitted_dec W chat_request d) as [Hadm|Hno].
  - destruct (admitted_response Hadm) as (r & -> & _). cbn [fst body].
    constructor.
    + unfold key_chunk. intros H.
      apply (f_equal String.length) in H. rewrite length_append in H.
      cbn in H. lia.
    + unfold after_key.
      destruct (try_block W (turn_setup W chat_request d))
        as [[[ts [|e]] out]|] eqn:E.
      * exact (try_block_nonempty _ _ E).
      * apply Forall_app. split; [exact (try_block_nonempty _ _ E)|].
        repeat constructor. apply json_dumps_nonempty.
      * repeat constructor. apply json_dumps_nonempty.
  - destruct (not_admitted_rejected Hno) as (msg & ->). cbn [fst body reject].
    repeat constructor. apply json_dumps_nonempty.
Qed.

(* ------------------------------------------------------------------ *)
(** ** Progressive persistence *)

Section Progress.

Variable i : Z.
Variable old : list Requests.t.
Variable us : list User.t.
Hypothesis Hfresh : fresh i old.

Lemma new_token_in_step token h r :
  in_step i h r ->
  exists h' r',
    StreamingCallback_on_llm_new_token token h (store_with old us r)
    = (h', store_with old us r')
    /\ in_step i h' r'
    /\ same_turn r r'
    /\ Requests.success r' = Requests.success r
    /\ generated_text h' = generated_text h ++ token
    /\ token_buffer h' = (token_buffer h ++ [token])%list.
Proof.
  intros (Hh & Hr & Hlast & (rest & Hgen & Hrest) & Hnone).
  unfold StreamingCallback_on_llm_new_token.
  destruct (Nat.leb_spec 50
              (String.length (generated_text h ++ token) - last_db_update h))
    as [Hbig|Hsmall].
  - rewrite Hh, (@get_request_store i old us r Hfresh Hr).
    rewrite (@update_request_store i _ old us r Hfresh Hr).
    eexists _, _. split; [reflexivity|].
    split; [|split; [apply keeps_set_response | repeat split]].
    unfold in_step, stored_text. cbn.
    split; [reflexivity|]. split; [exact Hr|]. split; [reflexivity|].
    split; [exists ""; split; [now rewrite append_nil_r | cbn; lia]|].
    right. lia.
  - eexists _, r. split; [reflexivity|].
    split; [|split; [apply same_turn_refl | repeat split]].
    unfold in_step. cbn [request_id last_db_update generated_text].
    split; [exact Hh|]. split; [exact Hr|]. split; [exact Hlast|].
    split; [|exact Hnone].
    exists (rest ++ token). split; [now rewrite Hgen, append_assoc|].
    rewrite Hgen, Hlast, !length_append in Hsmall.
    rewrite length_append. lia.
Qed.

Lemma streaming_in_step (A : Type) (tokens_of : A -> list string) evs :
  forallb (@still_streaming A) evs = true ->
  forall l r,
    in_step i (stream_handler l) r -> db l = store_with old us r ->
    exists r',
      db (run_events tokens_of evs l) = store_with old us r'
      /\ in_step i (stream_handler (run_events tokens_of evs l)) r'
      /\ same_turn r r'
      /\ Requests.success r' = Requests.success r
      /\ generated_text (stream_handler (run_events tokens_of evs l))
         = generated_text (stream_handler l) ++ join (handler_tokens evs)
      /\ token_buffer (stream_handler (run_events tokens_of evs l))
         = (token_buffer (stream_handler l) ++ handler_tokens evs)%list.
Proof.
  induction evs as [|e evs IH]; intros Hall l r Hin Hdb.
  - exists r. unfold run_events.
    cbn [fold_left handler_tokens flat_map join fold_right].
    rewrite append_nil_r, app_nil_r.
    split; [exact Hdb|]. split; [exact Hin|].
    split; [apply same_turn_refl|]. repeat split.
  - cbn [forallb] in Hall. apply andb_true_iff in Hall.
    destruct Hall as [He Hall].
    change (run_events tokens_of (e :: evs) l)
      with (run_events tokens_of evs (step tokens_of l e)).
    destruct e as [[|token| |error]|a]; try discriminate He; cbn [step call].
    + destruct (IH Hall {| stream_handler := stream_handler l; db := db l;
                          full_response_text := full_response_text l;
                          yielded := yielded l |} r Hin Hdb)
        as (r' & H1 & H2 & H3 & H4 & H5 & H6).
      exists r'. cbn [stream_handler] in H5, H6.
      cbn [handler_tokens flat_map app].
      split; [exact H1|]. split; [exact H2|]. split; [exact H3|].
      split; [exact H4|]. split; [exact H5 | exact H6].
    + rewrite Hdb.
      destruct (@new_token_in_step token (stream_handler l) r Hin)
        as (h1 & r1 & -> & Hin1 & Hs1 & Hsucc1 & Hgen1 & Hbuf1).
      destruct (IH Hall {| stream_handler := h1;
                          db := store_with old us r1;
                          full_response_text := full_response_text l;
                          yielded := yielded l |} r1 Hin1 eq_refl)
        as (r' & H1 & H2 & H3 & H4 & H5 & H6).
      exists r'. cbn [stream_handler] in H5, H6.
      split; [exact H1|]. split; [exact H2|].
      split; [eapply same_turn_trans; eauto|].
      split; [congruence|].
      cbn [handler_tokens flat_map app join fold_right].
      fold (handler_tokens evs). fold (join (handler_tokens evs)).
      rewrite H5, H6, Hgen1, Hbuf1, append_assoc, <- app_assoc.
      split; reflexivity.
    + destruct (IH Hall {| stream_handler := stream_handler l; db := db l;
                          full_response_text :=
                            full_response_text l ++ join (tokens_of a);
                          yielded := (yielded l ++ tokens_of a)%list |}
                  r Hin Hdb)
        as (r' & H1 & H2 & H3 & H4 & H5 & H6).
      exists r'. cbn [stream_handler] in H5, H6.
      cbn [handler_tokens flat_map app].
      split; [exact H1|]. split; [exact H2|]. split; [exact H3|].
      split; [exact H4|]. split; [exact H5 | exact H6].
Qed.

End Progress.

(** X7: while a generation streams (the handler gets tokens, the loop gets
    items, nothing has ended yet), the row of the turn lags behind the
    handler by fewer than 50 characters: its response is a prefix of the
    text generated so far, the missing rest is shorter than 50 characters,
    and it is still null as long as fewer than 50 characters were
    generated.  The handler's text is the concatenation of its token
    buffer, and the success flag is not touched. *)
Theorem X7_partial_response_lags_by_less_than_50 (A : Type)
    (tokens_of : A -> list string) evs i old us r :
  fresh i old ->
  Requests.id r = i ->
  Requests.response r = None ->
  forallb (@still_streaming A) evs = true ->
  exists r' rest,
    db (run_events tokens_of evs (start i (store_with old us r)))
    = store_with old us r'
    /\ same_turn r r'
    /\ Requests.success r' = Requests.success r
    /\ generated_text
         (stream_handler
            (run_events tokens_of evs (start i (store_with old us r))))
       = join (handler_tokens evs)
    /\ token_buffer
         (stream_handler
            (run_events tokens_of evs (start i (store_with old us r))))
       = handler_tokens evs
    /\ join (handler_tokens evs) = stored_text r' ++ rest
    /\ (String.length rest < 50)%nat
    /\ ((String.length (join (handler_tokens evs)) < 50)%nat ->
        Requests.response r' = None).
Proof.
  intros Hfresh Hr Hnone Hall.
  assert (Hin : in_step i (stream_handler (start i (store_with old us r))) r).
  { unfold in_step, stored_text. rewrite Hnone. cbn.
    split; [reflexivity|]. split; [exact Hr|]. split; [reflexivity|].
    split; [exists ""; split; [reflexivity | cbn; lia]|]. now left. }
  destruct (@streaming_in_step i old us Hfresh A tokens_of evs Hall
              (start i (store_with old us r)) r Hin eq_refl)
    as (r' & Hdb & Hin' & Hsame & Hsucc & Hgen & Hbuf).
  cbn [start stream_handler StreamingCallback_init generated_text
       token_buffer append app] in Hgen, Hbuf.
  destruct Hin' as (_ & _ & _ & (rest & Hrest & Hlen) & Hwritten).
  exists r', rest. rewrite Hgen in Hrest.
  repeat (split; [assumption|]).
  intros Hshort. destruct Hwritten as [H|H]; [exact H|].
  rewrite Hrest, length_append in Hshort. lia.
Qed.

Lemma X7_witness :
  fresh 1 []
  /\ forallb (@still_streaming string)
       [Handler (on_llm_new_token
                   "0123456789012345678901234567890123456789012345678901");
        Item "x"; Handler (on_llm_new_token "tail")] = true
  /\ exists r',
       db (run_events chunk_tokens
             [Handler (on_llm_new_token
                "0123456789012345678901234567890123456789012345678901");
              Item "x"; Handler (on_llm_new_token "tail")]
             (start 1 (store_with [] []
                         (Demo.turn 1 "U1" "k" "hi" false None 5))))
       = store_with [] [] r'
       /\ Requests.response r'
          = Some "0123456789012345678901234567890123456789012345678901".
Proof.
  split; [intros x []|]. split; [reflexivity|].
  destruct (@X7_partial_response_lags_by_less_than_50 string chunk_tokens
              [Handler (on_llm_new_token
                 "0123456789012345678901234567890123456789012345678901");
               Item "x"; Handler (on_llm_new_token "tail")]
              1 [] [] (Demo.turn 1 "U1" "k" "hi" false None 5)
              (fun x (H : In x []) => match H with end)
              eq_refl eq_refl eq_refl)
    as (r' & rest & Hdb & _).
  exists r'. split; [exact Hdb|].
  vm_compute in Hdb. injection Hdb as <-. reflexivity.
Defined.

(* ------------------------------------------------------------------ *)
(** ** Reading a conversation back *)

Lemma insert_asc_perm r l : Permutation (insert_asc r l) (r :: l).
Proof.
  induction l as [|x l IH]; cbn [insert_asc]; [reflexivity|].
  destruct (Requests.time r <=? Requests.time x); [reflexivity|].
  rewrite IH. apply perm_swap.
Qed.

Lemma order_by_time_asc_perm l : Permutation (order_by_time_asc l) l.
Proof.
  unfold order_by_time_asc.
  induction l as [|x l IH]; cbn [fold_right]; [reflexivity|].
  rewrite insert_asc_perm. now constructor.
Qed.

Lemma order_by_time_asc_In l x : In x (order_by_time_asc l) <-> In x l.
Proof.
  split; apply Permutation_in;
    [| symmetry]; apply order_by_time_asc_perm.
Qed.

Lemma insert_asc_sorted r l :
  StronglySorted not_newer l -> StronglySorted not_newer (insert_asc r l).
Proof.
  induction 1 as [|x l Hl IH Hx]; cbn [insert_asc].
  - repeat constructor.
  - destruct (Z.leb_spec (Requests.time r) (Requests.time x)) as [Hle|Hgt].
    + constructor; [constructor; assumption|].
      constructor; [exact Hle|].
      eapply Forall_impl; [|exact Hx].
      unfold not_newer. intros y Hy. lia.
    + constructor; [exact IH|].
      eapply Permutation_Forall; [symmetry; apply insert_asc_perm|].
      constructor; [unfold not_newer; lia | exact Hx].
Qed.

Lemma order_by_time_asc_sorted l :
  StronglySorted not_newer (order_by_time_asc l).
Proof.
  unfold order_by_time_asc.
  induction l as [|x l IH]; cbn [fold_right]; [constructor|].
  now apply insert_asc_sorted.
Qed.

Lemma sorted_filter (R : Requests.t -> Requests.t -> Prop) p l :
  StronglySorted R l -> StronglySorted R (filter p l).
Proof.
  induction 1 as [|x l Hl IH Hx]; cbn [filter]; [constructor|].
  destruct (p x); [|exact IH].
  constructor; [exact IH|].
  apply Forall_forall. intros y Hy. apply filter_In in Hy.
  rewrite Forall_forall in Hx. now apply Hx.
Qed.

Lemma messages_sorted l :
  StronglySorted not_newer l ->
  StronglySorted
    (fun a b => MessageResponse.timestamp a <= MessageResponse.timestamp b)
    (map message_response l).
Proof.
  induction 1 as [|x l Hl IH Hx]; cbn [map]; constructor; [exact IH|].
  apply Forall_map. eapply Forall_impl; [|exact Hx].
  intros y Hy. exact Hy.
Qed.

Lemma history_messages_In W request d m :
  In m (gc_messages (get_conversation_history W request d)) ->
  verify_signature W (GetConversationRequest.public_key request)
                   (GetConversationRequest.signature request) = true
  /\ exists r,
       In r (requests d)
       /\ Requests.pubkey r = GetConversationRequest.public_key request
       /\ Requests.conversation_key r
          = GetConversationRequest.conversation_key request
       /\ Requests.success r = true
       /\ m = message_response r.
Proof.
  unfold get_conversation_history.
  destruct (verify_signature W _ _); cbn [negb gc_messages];
    [|intros []].
  destruct (find _ _); cbn [gc_messages]; [|intros []].
  intros Hin. split; [reflexivity|].
  apply in_map_iff in Hin. destruct Hin as (r & <- & Hr).
  apply filter_In in Hr. destruct Hr as [Hr Hs].
  apply -> order_by_time_asc_In in Hr.
  apply filter_In in Hr. destruct Hr as [Hr Hc].
  unfold in_conversation in Hc. apply andb_true_iff in Hc.
  destruct Hc as [Hpk Hkey].
  apply String.eqb_eq in Hpk, Hkey.
  exists r. repeat split; assumption.
Qed.

(** X8: [get_conversation_history] never shows anything but the caller's
    own successful turns of the requested conversation.  Every message it
    returns, in whatever case, is made from a stored row of the requesting
    identity under the requested key whose success flag is set, and
    nothing is returned unless the signature verifies. *)
Theorem X8_history_shows_only_own_successful_turns W request d :
  Forall
    (fun m =>
       verify_signature W (GetConversationRequest.public_key request)
                        (GetConversationRequest.signature request) = true
       /\ exists r,
            In r (requests d)
            /\ Requests.pubkey r = GetConversationRequest.public_key request
            /\ Requests.conversation_key r
               = GetConversationRequest.conversation_key request
            /\ Requests.success r = true
            /\ m = message_response r)
    (gc_messages (get_conversation_history W request d))
  /\ (gc_success (get_conversation_history W request d) = false ->
      gc_messages (get_conversation_history W request d) = []
      /\ gc_error (get_conversation_history W request d) <> None).
Proof.
  split.
  - apply Forall_forall. intros m Hm. now apply history_messages_In.
  - unfold get_conversation_history.
    destruct (verify_signature W _ _);
      cbn [negb gc_messages gc_success gc_error].
    + destruct (find _ _); cbn [gc_messages gc_success gc_error];
        [discriminate|]. intros _. split; [reflexivity | discriminate].
    + intros _. split; [reflexivity | discriminate].
Qed.

(** X9: for an authenticated caller who has at least one turn under the
    key, the history succeeds and lists exactly the successful turns of
    that conversation, each once, oldest first; failed turns are left out.
    A caller without any turn under the key -- even when another identity
    uses the same key -- gets "Conversation not found" and no message. *)
Theorem X9_history_is_the_successful_turns_in_order W request d :
  verify_signature W (GetConversationRequest.public_key request)
                   (GetConversationRequest.signature request) = true ->
  (find (in_conversation (GetConversationRequest.public_key request)
           (GetConversationRequest.conversation_key request))
        (requests d) <> None ->
   gc_success (get_conversation_history W request d) = true
   /\ gc_error (get_conversation_history W request d) = None
   /\ StronglySorted
        (fun a b => MessageResponse.timestamp a
                    <= MessageResponse.timestamp b)
        (gc_messages (get_conversation_history W request d))
   /\ Permutation
        (gc_messages (get_conversation_history W request d))
        (map message_response
           (filter (fun r =>
                      in_conversation
                        (GetConversationRequest.public_key request)
                        (GetConversationRequest.conversation_key request) r
                      && Requests.success r)
                   (requests d))))
  /\ ((forall r, In r (requests d) ->
         Requests.pubkey r = GetConversationRequest.public_key request ->
         Requests.conversation_key r
         <> GetConversationRequest.conversation_key request) ->
      get_conversation_history W request d
      = {| gc_success := false;
           gc_conversation_key :=
             GetConversationRequest.conversation_key request;
           gc_messages := [];
           gc_error := Some CONVERSATION_NOT_FOUND |}).
Proof.
  intros Hv. unfold get_conversation_history. rewrite Hv. cbn [negb].
  split.
  - intros Hfound. destruct (find _ _); [|congruence].
    cbn [gc_success gc_error gc_messages].
    split; [reflexivity|]. split; [reflexivity|]. split.
    + apply messages_sorted, sorted_filter, order_by_time_asc_sorted.
    + apply Permutation_map.
      transitivity
        (filter Requests.success
           (filter (in_conversation
                      (GetConversationRequest.public_key request)
                      (GetConversationRequest.conversation_key request))
                   (requests d))).
      * set (conv := filter _ (requests d)).
        pose proof (order_by_time_asc_perm conv) as Hp.
        clearbody conv. revert Hp.
        generalize (order_by_time_asc conv). intros l Hp.
        induction Hp as [|x l l' Hp IH|x y l|l l' l'' H1 IH1 H2 IH2];
          cbn [filter].
        -- reflexivity.
        -- destruct (Requests.success x); [now constructor | exact IH].
        -- destruct (Requests.success x), (Requests.success y);
             try reflexivity. apply perm_swap.
        -- now transitivity (filter Requests.success l').
      * induction (requests d) as [|x l IH]; cbn [filter]; [reflexivity|].
        destruct (in_conversation _ _ x); cbn [filter andb]; [|exact IH].
        destruct (Requests.success x); [now rewrite IH | exact IH].
  - intros Hnone.
    destruct (find _ _) as [r|] eqn:E; [|reflexivity].
    exfalso. apply find_some in E. destruct E as [Hin Hc].
    unfold in_conversation in Hc. apply andb_true_iff in Hc.
    destruct Hc as [Hpk Hkey]. apply String.eqb_eq in Hpk, Hkey.
    exact (Hnone r Hin Hpk Hkey).
Qed.

Lemma X9_witness :
  verify_signature Demo.silent
    (GetConversationRequest.public_key (Samples.history_of "a"))
    (GetConversationRequest.signature (Samples.history_of "a")) = true
  /\ map MessageResponse.id
       (gc_messages (get_conversation_history Demo.silent
                       (Samples.history_of "a") Samples.busy))
     = [1; 5]
  /\ gc_success (get_conversation_history Demo.silent
                   (Samples.history_of "a") Samples.busy) = true
  /\ gc_error (get_conversation_history Demo.silent
                 (Samples.history_of "zz") Samples.busy)
     = Some CONVERSATION_NOT_FOUND.
Proof.
  split; [reflexivity|]. split; [reflexivity|]. split.
  - apply (proj1 (@X9_history_is_the_successful_turns_in_order Demo.silent
                    (Samples.history_of "a") Samples.busy eq_refl)).
    vm_compute. discriminate.
  - rewrite (proj2 (@X9_history_is_the_successful_turns_in_order
                      Demo.silent (Samples.history_of "zz") Samples.busy
                      eq_refl)); [reflexivity|].
    intros r Hr _. cbn in Hr.
    repeat (destruct Hr as [<-|Hr]; [discriminate|]). destruct Hr.
Defined.

Lemma insert_asc_last y s x :
  Requests.time y <= Requests.time x ->
  insert_asc y (s ++ [x]) = (insert_asc y s ++ [x])%list.
Proof.
  intros Hle. induction s as [|z s IH]; cbn [app insert_asc].
  - apply Z.leb_le in Hle. now rewrite Hle.
  - destruct (Requests.time y <=? Requests.time z); [reflexivity|].
    now rewrite IH.
Qed.

Lemma order_by_time_asc_last l x :
  (forall y, In y l -> Requests.time y <= Requests.time x) ->
  order_by_time_asc (l ++ [x]) = (order_by_time_asc l ++ [x])%list.
Proof.
  unfold order_by_time_asc. rewrite fold_right_app.
  cbn [fold_right insert_asc].
  induction l as [|y l IH]; intros H; cbn [fold_right app]; [reflexivity|].
  rewrite IH by (intros z Hz; apply H; now right).
  apply insert_asc_last. apply H. now left.
Qed.

Lemma filter_none (p : Requests.t -> bool) l :
  find p l = None -> filter p l = [].
Proof.
  induction l as [|x l IH]; cbn [find filter]; [reflexivity|].
  destruct (p x); [discriminate | exact IH].
Qed.

Lemma history_after_turn W' request old us r :
  verify_signature W' (GetConversationRequest.public_key request)
                   (GetConversationRequest.signature request) = true ->
  in_conversation (GetConversationRequest.public_key request)
                  (GetConversationRequest.conversation_key request) r
  = true ->
  (forall y, In y old ->
     in_conversation (GetConversationRequest.public_key request)
                     (GetConversationRequest.conversation_key request) y
     = true ->
     Requests.time y <= Requests.time r) ->
  gc_success (get_conversation_history W' request (store_with old us r))
  = true
  /\ gc_messages (get_conversation_history W' request (store_with old us r))
     = (gc_messages (get_conversation_history W' request
                       {| requests := old; users := us |})
        ++ if Requests.success r then [message_response r] else [])%list.
Proof.
  intros Hv Hr Hclock. unfold get_conversation_history, store_with.
  rewrite Hv. cbn [negb requests].
  set (conv := in_conversation _ _) in *.
  destruct (find conv (old ++ [r])) eqn:Eafter.
  2:{ exfalso. apply (@find_present conv (old ++ [r])%list r);
        [apply in_or_app; right; now left | exact Hr | exact Eafter]. }
  cbn [gc_success gc_messages]. split; [reflexivity|].
  rewrite filter_app. cbn [filter]. rewrite Hr.
  rewrite order_by_time_asc_last
    by (intros y Hy; apply filter_In in Hy; now apply Hclock).
  rewrite filter_app, map_app. cbn [filter].
  destruct (find conv old) eqn:Ebefore; cbn [gc_messages].
  - destruct (Requests.success r); reflexivity.
  - rewrite (filter_none _ _ Ebefore).
    destruct (Requests.success r); reflexivity.
Qed.

(** X10: a turn shows up in the history of its conversation exactly when
    it completed.  After an admitted request (with the stored turns of the
    conversation not newer than the new row), the history of the resolved
    key succeeds for the caller; it is the history from before the request
    followed by the new turn -- its id, message, the streamed text and
    timestamp -- when the generation completed, and the unchanged history
    from before when it failed or stopped at the tool limit. *)
Theorem X10_completed_turn_joins_the_history W chat_request d W' request :
  admitted W chat_request d ->
  (forall x, In x (requests d) ->
     in_conversation (ChatRequest.public_key chat_request)
       (resolve_conversation_key W chat_request d) x = true ->
     Requests.time x <= func_now W) ->
  verify_signature W' (GetConversationRequest.public_key request)
                   (GetConversationRequest.signature request) = true ->
  GetConversationRequest.public_key request
  = ChatRequest.public_key chat_request ->
  GetConversationRequest.conversation_key request
  = resolve_conversation_key W chat_request d ->
  gc_success
    (get_conversation_history W' request
       (snd (process_chat_request W chat_request d))) = true
  /\ (forall ts out,
        try_block W (turn_setup W chat_request d)
        = Some (ts, Returned, out) ->
        gc_messages
          (get_conversation_history W' request
             (snd (process_chat_request W chat_request d)))
        = (gc_messages (get_conversation_history W' request d)
           ++ [MessageResponse.Build (next_id (requests d))
                 (ChatRequest.message chat_request) (Some (join ts))
                 (func_now W)])%list)
  /\ ((forall ts out,
         try_block W (turn_setup W chat_request d)
         <> Some (ts, Returned, out)) ->
      gc_messages
        (get_conversation_history W' request
           (snd (process_chat_request W chat_request d)))
      = gc_messages (get_conversation_history W' request d)).
Proof.
  intros Hadm Hclock Hv Hpk Hkey.
  assert (Hafter : forall r,
            same_turn (turn_row W chat_request d) r ->
            gc_success (get_conversation_history W' request
                          (store_with (requests d) (users d) r)) = true
            /\ gc_messages (get_conversation_history W' request
                              (store_with (requests d) (users d) r))
               = (gc_messages (get_conversation_history W' request d)
                  ++ if Requests.success r then [message_response r]
                     else [])%list).
  { intros r (_ & Hrpk & Hrkey & _ & _ & _ & Hrtime).
    replace d with {| requests := requests d; users := users d |} at 3
      by (now destruct d).
    apply history_after_turn; [exact Hv | |].
    - unfold in_conversation. rewrite Hrpk, Hrkey, Hpk, Hkey.
      cbn [turn_row new_request Requests.pubkey Requests.conversation_key].
      now rewrite !String.eqb_refl.
    - intros y Hy Hc. rewrite Hrtime.
      cbn [turn_row new_request Requests.time].
      apply Hclock; [exact Hy|]. now rewrite <- Hpk, <- Hkey. }
  destruct (try_block W (turn_setup W chat_request d))
    as [[[ts [|e]] out]|] eqn:E.
  - destruct (turn_returned Hadm E)
      as (r & -> & Hsame & Hs & Hresp & _).
    cbn [snd]. destruct (Hafter r Hsame) as [H1 H2].
    split; [exact H1|]. split.
    + intros ts' out' H. injection H as <- <-. rewrite H2, Hs.
      unfold message_response. rewrite Hresp.
      destruct Hsame as (-> & _ & _ & _ & -> & _ & ->). reflexivity.
    + intros H. exfalso. exact (H ts out eq_refl).
  - destruct (turn_raised Hadm E) as (r & -> & Hsame & Hs & _).
    cbn [snd]. destruct (Hafter r Hsame) as [H1 H2].
    split; [exact H1|]. split; [intros; discriminate|].
    intros _. rewrite H2, Hs. apply app_nil_r.
  - destruct (turn_limited Hadm (try_block_none _ _ E))
      as (r & -> & Hsame & Hs & _).
    cbn [snd]. destruct (Hafter r Hsame) as [H1 H2].
    split; [exact H1|]. split; [intros; discriminate|].
    intros _. rewrite H2, Hs. apply app_nil_r.
Qed.

Lemma X10_witness :
  admitted Samples.answering (Demo.chat (Some "a") (Some lumo_8b) (Some []))
           Samples.busy
  /\ map MessageResponse.id
       (gc_messages
          (get_conversation_history Demo.silent (Samples.history_of "a")
             (snd (process_chat_request Samples.answering
                     (Demo.chat (Some "a") (Some lumo_8b) (Some []))
                     Samples.busy))))
     = [1; 5; 6]
  /\ map MessageResponse.response
       (gc_messages
          (get_conversation_history Demo.silent (Samples.history_of "a")
             (snd (process_chat_request Samples.answering
                     (Demo.chat (Some "a") (Some lumo_8b) (Some []))
                     Samples.busy))))
     = [Some "r1"; Some "r5"; Some "Hi there"].
Proof.
  assert (Ha : admitted Samples.answering
                 (Demo.chat (Some "a") (Some lumo_8b) (Some []))
                 Samples.busy) by (repeat split).
  split; [exact Ha|].
  assert (Hclock : forall x, In x (requests Samples.busy) ->
            in_conversation "U1"
              (resolve_conversation_key Samples.answering
                 (Demo.chat (Some "a") (Some lumo_8b) (Some []))
                 Samples.busy) x = true ->
            Requests.time x <= func_now Samples.answering).
  { intros x Hx _. cbn in Hx.
    repeat (destruct Hx as [<-|Hx]; [vm_compute; discriminate|]).
    destruct Hx. }
  pose proof (proj1 (proj2
    (@X10_completed_turn_joins_the_history Samples.answering
       (Demo.chat (Some "a") (Some lumo_8b) (Some [])) Samples.busy
       Demo.silent (Samples.history_of "a") Ha Hclock eq_refl eq_refl
       eq_refl)) ["Hi"; " there"] "dbg" eq_refl) as ->.
  split; reflexivity.
Defined.

(* ------------------------------------------------------------------ *)
(** ** Which conversations are listed *)

Lemma group_row_In key t groups k' t' :
  In (k', t') (group_row key t groups) ->
  In (k', t') groups \/ (k' = key /\ t' = t).
Proof.
  induction groups as [|[k0 m0] groups IH]; cbn [group_row In].
  - intros [H|[]]. injection H as <- <-. now right.
  - destruct (String.eqb_spec k0 key) as [->|Hne]; cbn [In].
    + intros [H|H]; [|left; now right].
      injection H as <- <-.
      destruct (Z.max_spec m0 t) as [[_ ->]|[_ ->]];
        [now right | left; now left].
    + intros [H|H]; [left; now left|].
      destruct (IH H) as [H'|H']; [left; now right | now right].
Qed.

(** Every entry of the grouping is the time of one of the grouped rows. *)
Lemma grouping_attained rows :
  forall groups seen,
    (forall k t, In (k, t) groups ->
       exists r, In r seen /\ Requests.conversation_key r = k
                 /\ Requests.time r = t) ->
    forall k t,
      In (k, t)
         (fold_left
            (fun g r =>
               group_row (Requests.conversation_key r) (Requests.time r) g)
            rows groups) ->
      exists r, In r (seen ++ rows) /\ Requests.conversation_key r = k
                /\ Requests.time r = t.
Proof.
  induction rows as [|x rows IH]; intros groups seen Hatt k t;
    cbn [fold_left].
  - rewrite app_nil_r. apply Hatt.
  - replace (seen ++ x :: rows)%list with ((seen ++ [x]) ++ rows)%list
      by (now rewrite <- app_assoc).
    apply IH. intros k' t' Hin. apply group_row_In in Hin.
    destruct Hin as [Hin|[-> ->]].
    + destruct (Hatt k' t' Hin) as (r & Hr & Hk & Ht).
      exists r. split; [apply in_or_app; now left | now split].
    + exists x. split; [apply in_or_app; right; now left | now split].
Qed.

(** The latest turn of each conversation of the identity takes part in
    the join. *)
Lemma latest_turn_joins public_key d x :
  In x (requests d) -> Requests.pubkey x = public_key ->
  (forall r, In r (requests d) -> Requests.pubkey r = public_key ->
     Requests.conversation_key r = Requests.conversation_key x ->
     Requests.time r <= Requests.time x) ->
  In x (order_by_time_desc
          (filter (fun r => String.eqb (Requests.pubkey r) public_key)
             (flat_map
                (fun r => map (fun _ => r)
                   (filter (joins r)
                      (latest_conversations_subq public_key d)))
                (requests d)))).
Proof.
  intros Hx Hpk Hlatest.
  set (mine := filter (fun r => String.eqb (Requests.pubkey r) public_key)
                      (requests d)).
  assert (Hmine : In x mine)
    by (apply filter_In; split; [exact Hx | now apply String.eqb_eq]).
  destruct (@grouping_covers mine [] [] (NoDup_nil _))
    as [_ Hcov]; [intros ? []|].
  destruct (Hcov x Hmine) as (t & Hin & Hle).
  destruct (@grouping_attained mine [] [] (fun _ _ H => match H with end)
              _ _ Hin) as (r & Hr & Hrk & Hrt).
  cbn [app] in Hr. apply filter_In in Hr. destruct Hr as [Hr Hrpk].
  apply String.eqb_eq in Hrpk.
  assert (Ht : t = Requests.time x).
  { pose proof (Hlatest r Hr Hrpk Hrk). lia. }
  apply order_by_time_desc_In. apply filter_In.
  split; [|now apply String.eqb_eq].
  apply in_flat_map. exists x. split; [exact Hx|].
  apply in_map_iff. exists (Requests.conversation_key x, t).
  split; [reflexivity|]. apply filter_In. split; [exact Hin|].
  unfold joins. cbn [fst snd].
  rewrite String.eqb_refl, Ht, Z.eqb_refl. reflexivity.
Qed.

(** X11: the listing leaves a conversation out only when it is full.  For
    an authenticated identity, the latest turn of each of its
    conversations is either listed, or the listing has 5 entries and none
    of them is older than that turn. *)
Theorem X11_listing_keeps_the_most_recent W request d x :
  verify_signature W (LastConversationsRequest.public_key request)
                   (LastConversationsRequest.signature request) = true ->
  In x (requests d) ->
  Requests.pubkey x = LastConversationsRequest.public_key request ->
  (forall r, In r (requests d) ->
     Requests.pubkey r = LastConversationsRequest.public_key request ->
     Requests.conversation_key r = Requests.conversation_key x ->
     Requests.time r <= Requests.time x) ->
  In (summary x) (conversations (get_last_conversations W request d))
  \/ (List.length (conversations (get_last_conversations W request d))
      = 5%nat
      /\ Forall (fun c => Requests.time x <= ConversationSummary.timestamp c)
                (conversations (get_last_conversations W request d))).
Proof.
  intros Hv Hx Hpk Hlatest.
  unfold get_last_conversations. rewrite Hv. cbn [negb conversations].
  pose proof (@latest_turn_joins _ d x Hx Hpk Hlatest) as Hin.
  unfold latest_conversations.
  set (joined := order_by_time_desc _) in *.
  assert (Hsorted : StronglySorted not_older joined)
    by apply order_by_time_desc_sorted.
  rewrite <- (firstn_skipn 5 joined) in Hin, Hsorted.
  apply in_app_or in Hin. destruct Hin as [Hin|Hin].
  - left. now apply in_map.
  - right. split.
    + rewrite length_map, length_firstn.
      assert (0 < List.length (skipn 5 joined))%nat
        by (destruct (skipn 5 joined); [destruct Hin | cbn; lia]).
      rewrite length_skipn in H. lia.
    + apply Forall_map, Forall_forall. intros y Hy.
      exact (sorted_split _ _ Hsorted y x Hy Hin).
Qed.

Lemma X11_witness :
  verify_signature Demo.silent
    (LastConversationsRequest.public_key Demo.listing)
    (LastConversationsRequest.signature Demo.listing) = true
  /\ In (Demo.turn 2 "U1" "b" "m2" true (Some "r2") 960020)
        (requests Samples.busy)
  /\ In (summary (Demo.turn 2 "U1" "b" "m2" true (Some "r2") 960020))
        (conversations
           (get_last_conversations Demo.silent Demo.listing Samples.busy)).
Proof.
  assert (Hin : In (Demo.turn 2 "U1" "b" "m2" true (Some "r2") 960020)
                   (requests Samples.busy)) by (right; left; reflexivity).
  assert (Hlatest : forall r, In r (requests Samples.busy) ->
            Requests.pubkey r
            = LastConversationsRequest.public_key Demo.listing ->
            Requests.conversation_key r
            = Requests.conversation_key
                (Demo.turn 2 "U1" "b" "m2" true (Some "r2") 960020) ->
            Requests.time r
            <= Requests.time
                 (Demo.turn 2 "U1" "b" "m2" true (Some "r2") 960020)).
  { intros r Hr _ Hk. cbn in Hr.
    repeat (destruct Hr as [<-|Hr];
            [first [discriminate Hk | vm_compute; discriminate]|]).
    destruct Hr. }
  split; [reflexivity|]. split; [exact Hin|].
  destruct (@X11_listing_keeps_the_most_recent Demo.silent Demo.listing
              Samples.busy
              (Demo.turn 2 "U1" "b" "m2" true (Some "r2") 960020)
              eq_refl Hin eq_refl Hlatest) as [H|[H _]];
    [exact H | discriminate H].
Defined.


(* ------------------------------------------------------------------ *)
(** ** The tools of the agent *)

Lemma dict_get_In d name t :
  dict_get d name = Some t -> In (name, t) d.
Proof.
  induction d as [|[k v] d IH]; cbn [dict_get]; [discriminate|].
  destruct (String.eqb_spec k name) as [->|Hne].
  - intros H. injection H as <-. now left.
  - intros H. right. now apply IH.
Qed.

Lemma registry_not_default name t :
  dict_get available_tools name = Some t ->
  t <> WalletPortfolioTool /\ t <> TokenIdentificationTool.
Proof.
  intros H. apply dict_get_In in H.
  assert (Hall : forallb
                   (fun kv =>
                      negb (tool_in (snd kv)
                              [WalletPortfolioTool; TokenIdentificationTool]))
                   available_tools = true) by reflexivity.
  rewrite forallb_forall in Hall. specialize (Hall _ H).
  cbn [snd] in Hall. unfold tool_in in Hall.
  destruct (in_dec Tool_eq_dec t
              [WalletPortfolioTool; TokenIdentificationTool])
    as [Hin|Hout]; [discriminate Hall|].
  split; intros ->; apply Hout; cbn [In]; tauto.
Qed.

Lemma add_selected_spec names :
  forall base,
  exists extra,
    add_selected names base = (base ++ extra)%list
    /\ (forall t, In t extra ->
          exists name, In name names
                       /\ dict_get available_tools name = Some t)
    /\ (forall name t, In name names ->
          dict_get available_tools name = Some t ->
          In t (base ++ extra))
    /\ (List.length extra <= List.length (requested_tools names))%nat.
Proof.
  induction names as [|name names IH]; intros base; cbn [add_selected].
  - exists []. rewrite app_nil_r. split; [reflexivity|].
    split; [intros t []|]. split; [intros ? ? []|]. cbn. lia.
  - unfold requested_tools. cbn [filter]. unfold known_tool at 1.
    destruct (dict_get available_tools name) as [t0|] eqn:E.
    + unfold tool_in. destruct (in_dec Tool_eq_dec t0 base) as [Hin|Hout].
      * destruct (IH base) as (extra & -> & H1 & H2 & H3).
        exists extra. split; [reflexivity|]. split; [|split].
        -- intros t Ht. destruct (H1 t Ht) as (n & Hn & Hd).
           exists n. split; [now right | exact Hd].
        -- intros n t [<-|Hn] Hd.
           ++ rewrite E in Hd. injection Hd as <-.
              apply in_or_app. now left.
           ++ exact (H2 n t Hn Hd).
        -- cbn [List.length]. unfold requested_tools in H3. lia.
      * destruct (IH (base ++ [t0])%list) as (extra & -> & H1 & H2 & H3).
        exists (t0 :: extra). rewrite <- app_assoc.
        split; [reflexivity|]. split; [|split].
        -- intros t [<-|Ht].
           ++ exists name. split; [now left | exact E].
           ++ destruct (H1 t Ht) as (n & Hn & Hd).
              exists n. split; [now right | exact Hd].
        -- intros n t [<-|Hn] Hd.
           ++ rewrite E in Hd. injection Hd as <-.
              apply in_or_app. right. now left.
           ++ pose proof (H2 n t Hn Hd) as H.
              rewrite <- app_assoc in H. exact H.
        -- cbn [List.length]. unfold requested_tools in H3. lia.
    + destruct (IH base) as (extra & -> & H1 & H2 & H3).
      exists extra. split; [reflexivity|]. split; [|split].
      * intros t Ht. destruct (H1 t Ht) as (n & Hn & Hd).
        exists n. split; [now right | exact Hd].
      * intros n t [<-|Hn] Hd; [congruence | exact (H2 n t Hn Hd)].
      * unfold requested_tools in H3. exact H3.
Qed.

Lemma engine_setup_agent_tools W chat_request is_pro_user model_name
    temperature history names chat tools sm ch inp ap itc :
  ChatRequest.tools chat_request = Some names ->
  engine_setup W chat_request is_pro_user model_name temperature history
  = AgentMode chat tools sm ch inp ap itc ->
  tools = add_selected (requested_tools names)
            [WalletPortfolioTool; TokenIdentificationTool]
  /\ (is_pro_user = false ->
      (List.length (requested_tools names) <= 1)%nat).
Proof.
  intros Hts. unfold engine_setup. rewrite Hts.
  destruct (negb is_pro_user && _) eqn:Hcheck; [discriminate|].
  unfold route.
  destruct (Py.contains "gpt" (Py.lower model_name)).
  - destruct (Py.startswith model_name "lumo-"); [discriminate|].
    intros H. injection H as _ <- _ _ _ _ _. split; [reflexivity|].
    intros ->. cbn [negb andb] in Hcheck. now apply Nat.ltb_ge in Hcheck.
  - destruct (Py.startswith model_name "lumo-"); [discriminate|].
    intros H. injection H as _ <- _ _ _ _ _. split; [reflexivity|].
    intros ->. cbn [negb andb] in Hcheck. now apply Nat.ltb_ge in Hcheck.
Qed.

Lemma requested_tools_idem names :
  requested_tools (requested_tools names) = requested_tools names.
Proof.
  unfold requested_tools. induction names as [|n names IH]; cbn [filter];
    [reflexivity|].
  destruct (known_tool n) eqn:E; [|exact IH].
  cbn [filter]. now rewrite E, IH.
Qed.

(** X12: the tools an agent is given.  Whenever a turn runs in agent
    mode, its tool list is the two default tools followed by the registry
    tools the request names: each such tool once, and nothing else;
    identifiers the registry does not know add nothing and raise
    nothing.  For a free-tier caller at most one tool
    follows the defaults. *)
Theorem X12_agent_tools_are_defaults_plus_requested W chat_request d names
    chat tools sm ch inp ap itc :
  ChatRequest.tools chat_request = Some names ->
  turn_setup W chat_request d = AgentMode chat tools sm ch inp ap itc ->
  exists extra,
    tools = ([WalletPortfolioTool; TokenIdentificationTool] ++ extra)%list
    /\ NoDup tools
    /\ (forall t,
          In t extra
          <-> exists name, In name names
                           /\ dict_get available_tools name = Some t)
    /\ (tier W chat_request d = false -> (List.length extra <= 1)%nat).
Proof.
  intros Hts Hset. unfold turn_setup in Hset.
  destruct (engine_setup_agent_tools _ _ _ _ _ _ Hts Hset) as [-> Hfree].
  destruct (add_selected_spec (requested_tools names)
              [WalletPortfolioTool; TokenIdentificationTool])
    as (extra & Heq & H1 & H2 & H3).
  exists extra. split; [exact Heq|].
  assert (Hnd : NoDup (add_selected (requested_tools names)
                         [WalletPortfolioTool; TokenIdentificationTool])).
  { apply add_selected_NoDup.
    repeat constructor; cbn [In]; intuition discriminate. }
  split; [exact Hnd|]. split; [split|].
  - intros Ht. destruct (H1 t Ht) as (n & Hn & Hd).
    exists n. split; [|exact Hd].
    unfold requested_tools in Hn. now apply filter_In in Hn.
  - intros (n & Hn & Hd).
    assert (Hn' : In n (requested_tools names)).
    { apply filter_In. split; [exact Hn|]. unfold known_tool.
      now rewrite Hd. }
    pose proof (H2 n t Hn' Hd) as Hin.
    destruct (registry_not_default _ Hd) as [Hw Hi].
    cbn [app In] in Hin.
    destruct Hin as [Hin|[Hin|Hin]]; [congruence | congruence | exact Hin].
  - intros Hfree'. specialize (Hfree Hfree').
    rewrite requested_tools_idem in H3. lia.
Qed.

Lemma X12_witness :
  ChatRequest.tools
    (Demo.chat None (Some gpt_4o)
       (Some ["jupiter_swap_tool"; "nope"; "jupiter_swap_tool";
              "cmc_crypto_news_tool"]))
  = Some ["jupiter_swap_tool"; "nope"; "jupiter_swap_tool";
          "cmc_crypto_news_tool"]
  /\ agent_tools
       (turn_setup Demo.silent
          (Demo.chat None (Some gpt_4o)
             (Some ["jupiter_swap_tool"; "nope"; "jupiter_swap_tool";
                    "cmc_crypto_news_tool"]))
          Demo.pro_store)
     = Some [WalletPortfolioTool; TokenIdentificationTool; JupiterSwapTool;
             CMCCryptoNewsTool]
  /\ NoDup [WalletPortfolioTool; TokenIdentificationTool; JupiterSwapTool;
            CMCCryptoNewsTool].
Proof.
  split; [reflexivity|]. split; [reflexivity|].
  assert (Hset : exists chat sm ch inp ap itc,
            turn_setup Demo.silent
              (Demo.chat None (Some gpt_4o)
                 (Some ["jupiter_swap_tool"; "nope"; "jupiter_swap_tool";
                        "cmc_crypto_news_tool"]))
              Demo.pro_store
            = AgentMode chat
                [WalletPortfolioTool; TokenIdentificationTool;
                 JupiterSwapTool; CMCCryptoNewsTool] sm ch inp ap itc)
    by (do 6 eexists; vm_compute; reflexivity).
  destruct Hset as (chat & sm & ch & inp & ap & itc & Hset).
  destruct (@X12_agent_tools_are_defaults_plus_requested Demo.silent
              (Demo.chat None (Some gpt_4o)
                 (Some ["jupiter_swap_tool"; "nope"; "jupiter_swap_tool";
                        "cmc_crypto_news_tool"]))
              Demo.pro_store
              ["jupiter_swap_tool"; "nope"; "jupiter_swap_tool";
               "cmc_crypto_news_tool"]
              chat _ sm ch inp ap itc eq_refl Hset)
    as (extra & _ & Hnd & _).
  exact Hnd.
Defined.


(* ------------------------------------------------------------------ *)
(** ** Models: who may use them, and where they run *)

Lemma model_not_allowed_table is_pro_user m :
  model_not_allowed is_pro_user (Some m)
  = negb is_pro_user && negb (free_model m).
Proof. destruct is_pro_user, m; reflexivity. Qed.

(** X13: the model-tier gate.  An authenticated request is answered with
    the model-tier error (and nothing is stored) exactly when the caller
    is on the free tier and names one of gpt-4.1, gpt-4o,
    anthropic/claude-3.7-sonnet, google/gemini-2.5-pro-preview or
    meta-llama/llama-4-maverick.  A pro caller, a request without a model,
    and the free models gpt-4.1-mini and lumo-* never get it. *)
Theorem X13_model_tier_gate W chat_request d :
  authenticated W chat_request ->
  (fst (process_chat_request W chat_request d) = reject MODEL_NOT_ALLOWED
   <-> tier W chat_request d = false
       /\ exists m, ChatRequest.model_name chat_request = Some m
                    /\ free_model m = false)
  /\ (fst (process_chat_request W chat_request d) = reject MODEL_NOT_ALLOWED
      -> snd (process_chat_request W chat_request d) = d).
Proof.
  intros Ha.
  assert (Htable : model_not_allowed (tier W chat_request d)
                     (ChatRequest.model_name chat_request) = true
                   <-> tier W chat_request d = false
                       /\ exists m,
                            ChatRequest.model_name chat_request = Some m
                            /\ free_model m = false).
  { destruct (ChatRequest.model_name chat_request) as [m|].
    - rewrite model_not_allowed_table.
      destruct (tier W chat_request d), (free_model m) eqn:E;
        cbn [negb andb]; split; try discriminate; try reflexivity;
        try (intros (H0 & _); discriminate H0).
      + intros (_ & m' & Hm & Hf). injection Hm as <-. congruence.
      + intros _. split; [reflexivity|]. now exists m.
    - cbn [model_not_allowed]. split; [discriminate|].
      intros (_ & m & Hm & _). discriminate. }
  destruct (model_not_allowed (tier W chat_request d)
              (ChatRequest.model_name chat_request)) eqn:Hm.
  - assert (Hno : ~ model_allowed W chat_request d)
      by (unfold model_allowed; congruence).
    rewrite (@rejected_model W chat_request d Ha Hno). cbn [fst snd].
    split; [|reflexivity]. split; [intros _; now apply Htable | reflexivity].
  - assert (Hnot : fst (process_chat_request W chat_request d)
                   <> reject MODEL_NOT_ALLOWED).
    { destruct (Z.le_gt_cases (allowance W (tier W chat_request d))
                  (used_today W chat_request d)) as [Hq|Hq].
      - rewrite (@rejected_quota W chat_request d Ha Hm Hq). cbn [fst].
        destruct (tier W chat_request d); intros H; vm_compute in H;
          discriminate H.
      - destruct (@admitted_response W chat_request d
                    (conj Ha (conj Hm Hq))) as (r & -> & _).
        cbn [fst]. unfold reject. intros H. discriminate H. }
    split; [|intros H; contradiction].
    split; [intros H; contradiction|].
    intros H. apply Htable in H. discriminate H.
Qed.

Lemma X13_witness :
  authenticated Demo.silent (Demo.chat None (Some gpt_4o) (Some []))
  /\ fst (process_chat_request Demo.silent
            (Demo.chat None (Some gpt_4o) (Some [])) Demo.empty)
     = reject MODEL_NOT_ALLOWED
  /\ fst (process_chat_request Demo.silent
            (Demo.chat None (Some gpt_4o) (Some [])) Demo.pro_store)
     <> reject MODEL_NOT_ALLOWED.
Proof.
  split; [reflexivity|]. split.
  - apply (proj1 (@X13_model_tier_gate Demo.silent
                    (Demo.chat None (Some gpt_4o) (Some [])) Demo.empty
                    eq_refl)).
    split; [reflexivity|]. exists gpt_4o. split; reflexivity.
  - intros H.
    apply (proj1 (@X13_model_tier_gate Demo.silent
                    (Demo.chat None (Some gpt_4o) (Some []))
                    Demo.pro_store eq_refl)) in H.
    destruct H as [H _]. discriminate H.
Defined.

Lemma route_table W m temperature tools :
  route W (model_literal m) temperature tools
  = if gpt_model m then
      ({| chat_model_name := model_literal m;
          chat_temperature := temperature; streaming := true;
          max_tokens := None; base_url := None; api_key := None |}, tools)
    else if lumo_model m then
      ({| chat_model_name := model_literal m;
          chat_temperature := temperature; streaming := true;
          max_tokens := Some 4096;
          base_url := Some "https://api.infyr.ai/v1";
          api_key := Some (INFYR_API_KEY (CONFIG W)) |}, [])
    else
      ({| chat_model_name := model_literal m;
          chat_temperature := temperature; streaming := true;
          max_tokens := None;
          base_url := Some "https://openrouter.ai/api/v1";
          api_key := Some (OPENROUTER_API_KEY (CONFIG W)) |}, tools).
Proof. destruct m; reflexivity. Qed.

Lemma lumo_prefix m :
  Py.startswith (model_literal m) "lumo-" = lumo_model m.
Proof. destruct m; reflexivity. Qed.

(** X14: the routing table.  Whenever an engine runs, the handle is built
    for the requested model (gpt-4.1-mini when none is named) with the
    resolved temperature and streaming on; the first-party models use the
    default endpoint and credentials, the Lumo models the Infyr endpoint
    with its key and a ceiling of 4096 output tokens, every other model
    the OpenRouter endpoint with its key, and no ceiling is set outside
    the Lumo family.  The turn runs in agent mode exactly when the model
    is not a Lumo model. *)
Theorem X14_backend_by_model_family W chat_request d chat :
  setup_chat (turn_setup W chat_request d) = Some chat ->
  chat_model_name chat = model_literal (requested_model chat_request)
  /\ chat_temperature chat
     = resolve_temperature (ChatRequest.temperature chat_request)
  /\ streaming chat = true
  /\ (gpt_model (requested_model chat_request) = true ->
      base_url chat = None /\ api_key chat = None
      /\ max_tokens chat = None)
  /\ (lumo_model (requested_model chat_request) = true ->
      base_url chat = Some "https://api.infyr.ai/v1"
      /\ api_key chat = Some (INFYR_API_KEY (CONFIG W))
      /\ max_tokens chat = Some 4096)
  /\ (gpt_model (requested_model chat_request) = false ->
      lumo_model (requested_model chat_request) = false ->
      base_url chat = Some "https://openrouter.ai/api/v1"
      /\ api_key chat = Some (OPENROUTER_API_KEY (CONFIG W))
      /\ max_tokens chat = None)
  /\ (agent_tools (turn_setup W chat_request d) = None
      <-> lumo_model (requested_model chat_request) = true).
Proof.
  unfold turn_setup, engine_setup.
  assert (Hname : resolve_model_name (ChatRequest.model_name chat_request)
                  = model_literal (requested_model chat_request)).
  { unfold requested_model, resolve_model_name.
    now destruct (ChatRequest.model_name chat_request). }
  rewrite Hname.
  destruct (ChatRequest.tools chat_request) as [names|];
    [|discriminate].
  destruct (negb _ && _); [discriminate|].
  rewrite route_table, lumo_prefix.
  destruct (requested_model chat_request); cbn [gpt_model lumo_model];
    cbn [setup_chat agent_tools]; intros H; injection H as <-;
    cbn [chat_model_name chat_temperature streaming base_url api_key
         max_tokens];
    repeat split; try discriminate; try reflexivity.
Qed.

Lemma X14_witness :
  setup_chat
    (turn_setup Demo.silent
       (Demo.chat None (Some anthropic_claude_3_7_sonnet) (Some []))
       Demo.pro_store)
  = Some {| chat_model_name := "anthropic/claude-3.7-sonnet";
            chat_temperature := 7 # 10; streaming := true;
            max_tokens := None;
            base_url := Some "https://openrouter.ai/api/v1";
            api_key := Some "openrouter" |}
  /\ base_url {| chat_model_name := "anthropic/claude-3.7-sonnet";
                 chat_temperature := 7 # 10; streaming := true;
                 max_tokens := None;
                 base_url := Some "https://openrouter.ai/api/v1";
                 api_key := Some "openrouter" |}
     = Some "https://openrouter.ai/api/v1".
Proof.
  assert (H : setup_chat
                (turn_setup Demo.silent
                   (Demo.chat None (Some anthropic_claude_3_7_sonnet)
                      (Some [])) Demo.pro_store)
              = Some {| chat_model_name := "anthropic/claude-3.7-sonnet";
                        chat_temperature := 7 # 10; streaming := true;
                        max_tokens := None;
                        base_url := Some "https://openrouter.ai/api/v1";
                        api_key := Some "openrouter" |}) by reflexivity.
  split; [exact H|].
  apply (@X14_backend_by_model_family Demo.silent _ Demo.pro_store _ H);
    reflexivity.
Defined.

(* ------------------------------------------------------------------ *)
(** ** The check of a token transfer *)

Lemma find_app_first (A : Type) (p : A -> bool) (l1 l2 : list A) :
  find p (l1 ++ l2)%list =
  match find p l1 with
  | Some a => Some a
  | None => find p l2
  end.
Proof.
  induction l1 as [|a l1 IH]; cbn [find app]; [reflexivity|].
  destruct (p a); [reflexivity | exact IH].
Qed.

Lemma balance_before_unfold pre k :
  balance_before pre k =
  match find (has_index k) (rev pre) with
  | Some b => amount_or_zero b
  | None => 0
  end.
Proof. reflexivity. Qed.

(** The dict of the comprehension answers as the last entry with the index
    does, and as the dict it started from when there is none. *)
Lemma pre_balances_get pre : forall d d' k,
  pre_balances pre d = Done d' ->
  get_default d' k 0 =
  match find (has_index k) (rev pre) with
  | Some b => amount_or_zero b
  | None => get_default d k 0
  end.
Proof.
  induction pre as [|b pre IH]; intros d d' k H; cbn [pre_balances] in H.
  - injection H as <-. reflexivity.
  - destruct (TokenBalance.accountIndex b) as [i|e] eqn:Hi; [|discriminate H].
    destruct (TokenBalance.amount b) as [v|e] eqn:Hv; [|discriminate H].
    rewrite (IH _ _ k H). cbn [rev]. rewrite find_app_first.
    destruct (find (has_index k) (rev pre)); [reflexivity|].
    cbn [find]. unfold has_index at 1. rewrite Hi.
    unfold get_default at 1. cbn [find fst snd].
    destruct (i =? k); [|reflexivity].
    unfold amount_or_zero. rewrite Hv. reflexivity.
Qed.

Lemma pre_balances_before pre d k :
  pre_balances pre [] = Done d ->
  get_default d k 0 = balance_before pre k.
Proof.
  intros H. rewrite (pre_balances_get _ _ k H), balance_before_unfold.
  destruct (find (has_index k) (rev pre)); reflexivity.
Qed.

Lemma pre_balances_well_formed pre : forall d,
  well_formed pre -> exists d', pre_balances pre d = Done d'.
Proof.
  induction pre as [|b pre IH]; intros d H; cbn [pre_balances].
  - exists d. reflexivity.
  - inversion H as [|? ? [[k Hk] [v Hv]] Hrest]; subst.
    rewrite Hk, Hv. apply IH. exact Hrest.
Qed.

Lemma is_str_true x s : is_str x s = true <-> x = Some s.
Proof.
  destruct x as [t|]; cbn [is_str].
  - rewrite String.eqb_eq. split; [intros ->; reflexivity|].
    intros H. injection H as ->. reflexivity.
  - split; discriminate.
Qed.

Lemma check_post_balances_accepts post d token receiver expected msg :
  check_post_balances post d token receiver expected = Done (true, msg) ->
  exists b k v,
    In b post /\
    TokenBalance.mint b = Some token /\
    TokenBalance.owner b = Some receiver /\
    TokenBalance.accountIndex b = Done k /\
    TokenBalance.amount b = Done v /\
    expected <= v - get_default d k 0 /\
    msg = "Verified token transfer of " ++
          int_str (v - get_default d k 0) ++ " tokens".
Proof.
  induction post as [|b post IH]; cbn [check_post_balances]; intros H.
  - discriminate H.
  - assert (Hrest :
      check_post_balances post d token receiver expected = Done (true, msg) ->
      exists b0 k v,
        In b0 (b :: post) /\
        TokenBalance.mint b0 = Some token /\
        TokenBalance.owner b0 = Some receiver /\
        TokenBalance.accountIndex b0 = Done k /\
        TokenBalance.amount b0 = Done v /\
        expected <= v - get_default d k 0 /\
        msg = "Verified token transfer of " ++
              int_str (v - get_default d k 0) ++ " tokens").
    { intros H0. destruct (IH H0) as (b0 & k & v & Hin & Hq).
      exists b0, k, v. split; [right; exact Hin | exact Hq]. }
    destruct (is_str (TokenBalance.mint b) token) eqn:Hm;
      cbn [negb] in H; [|exact (Hrest H)].
    destruct (is_str (TokenBalance.owner b) receiver) eqn:Ho;
      cbn [negb] in H; [|exact (Hrest H)].
    destruct (TokenBalance.accountIndex b) as [k|e] eqn:Hk; [|discriminate H].
    destruct (TokenBalance.amount b) as [v|e] eqn:Hv; [|discriminate H].
    cbv zeta in H.
    destruct (expected <=? v - get_default d k 0) eqn:Hle; [|exact (Hrest H)].
    injection H as <-. exists b, k, v.
    split; [left; reflexivity|].
    split; [apply is_str_true; exact Hm|].
    split; [apply is_str_true; exact Ho|].
    split; [exact Hk|]. split; [exact Hv|].
    split; [apply Z.leb_le; exact Hle | reflexivity].
Qed.

Lemma check_post_balances_finds post d token receiver expected b k v :
  well_formed post ->
  In b post ->
  TokenBalance.mint b = Some token ->
  TokenBalance.owner b = Some receiver ->
  TokenBalance.accountIndex b = Done k ->
  TokenBalance.amount b = Done v ->
  expected <= v - get_default d k 0 ->
  exists msg,
    check_post_balances post d token receiver expected = Done (true, msg).
Proof.
  intros Hwf Hin Hm Ho Hk Hv Hle.
  induction post as [|b0 post IH]; [destruct Hin|].
  inversion Hwf as [|? ? [[k0 Hk0] [v0 Hv0]] Hrest]; subst.
  cbn [check_post_balances].
  destruct (is_str (TokenBalance.mint b0) token) eqn:Hm0; cbn [negb].
  2:{ destruct Hin as [->|Hin]; [|exact (IH Hrest Hin)].
      apply is_str_true in Hm. congruence. }
  destruct (is_str (TokenBalance.owner b0) receiver) eqn:Ho0; cbn [negb].
  2:{ destruct Hin as [->|Hin]; [|exact (IH Hrest Hin)].
      apply is_str_true in Ho. congruence. }
  rewrite Hk0, Hv0. cbv zeta.
  destruct (expected <=? v0 - get_default d k0 0) eqn:Hle0.
  - eexists. reflexivity.
  - destruct Hin as [->|Hin]; [|exact (IH Hrest Hin)].
    rewrite Hk in Hk0. injection Hk0 as <-.
    rewrite Hv in Hv0. injection Hv0 as <-.
    apply Z.leb_gt in Hle0. lia.
Qed.

Lemma verify_spl_token_transfer_pays (tx_data : TxData)
    (expected_token expected_receiver : string) (expected_amount : Z) :
  fst (verify_spl_token_transfer tx_data expected_token expected_receiver
                                 expected_amount) = true ->
  exists m b,
    meta tx_data = Some m /\
    In b (Meta.postTokenBalances m) /\
    pays (Meta.preTokenBalances m) expected_token expected_receiver
         expected_amount b.
Proof.
  unfold verify_spl_token_transfer.
  destruct (meta tx_data) as [m|]; [|discriminate].
  destruct (Meta.postTokenBalances m) as [|b0 post] eqn:Hpost; [discriminate|].
  cbv zeta.
  destruct (pre_balances (Meta.preTokenBalances m) []) as [d|e] eqn:Hpre;
    [|discriminate].
  destruct (check_post_balances (b0 :: post) d expected_token
              expected_receiver expected_amount) as [[ok msg]|e] eqn:Hc;
    [|discriminate].
  cbn [fst]. intros ->.
  destruct (check_post_balances_accepts _ _ _ _ _ Hc)
    as (b & k & v & Hin & Hm & Ho & Hk & Hv & Hle & _).
  exists m, b. split; [reflexivity|].
  split; [rewrite Hpost; exact Hin|].
  split; [exact Hm|]. split; [exact Ho|].
  exists k, v. split; [exact Hk|]. split; [exact Hv|].
  rewrite <- (pre_balances_before _ k Hpre). exact Hle.
Qed.

(** X15.  [verify_spl_token_transfer] accepts a transaction only if its
    metadata lists, among the balances after the transaction, one of the
    expected token owned by the expected receiver that is at least the
    expected amount above the balance the same account index had before
    (0 when the account is not among the balances before). *)
Theorem X15_accepted_transfer_pays (tx_data : TxData)
    (expected_token expected_receiver : string) (expected_amount : Z) :
  fst (verify_spl_token_transfer tx_data expected_token expected_receiver
                                 expected_amount) = true ->
  exists m b,
    meta tx_data = Some m /\
    In b (Meta.postTokenBalances m) /\
    pays (Meta.preTokenBalances m) expected_token expected_receiver
         expected_amount b.
Proof.
  apply verify_spl_token_transfer_pays.
Qed.

Lemma X15_witness :
  fst (verify_spl_token_transfer Ledger.payment
         (PRO_MEMBERSHIP_TOKEN Ledger.membership)
         (PRO_MEMBERSHIP_WALLET Ledger.membership)
         (PRO_MEMBERSHIP_COST Ledger.membership)) = true /\
  exists m b,
    meta Ledger.payment = Some m /\
    In b (Meta.postTokenBalances m) /\
    pays (Meta.preTokenBalances m) (PRO_MEMBERSHIP_TOKEN Ledger.membership)
         (PRO_MEMBERSHIP_WALLET Ledger.membership)
         (PRO_MEMBERSHIP_COST Ledger.membership) b.
Proof.
  split; [reflexivity|].
  apply (@X15_accepted_transfer_pays Ledger.payment
           (PRO_MEMBERSHIP_TOKEN Ledger.membership)
           (PRO_MEMBERSHIP_WALLET Ledger.membership)
           (PRO_MEMBERSHIP_COST Ledger.membership)).
  reflexivity.
Defined.

(** X16.  When every balance entry of the metadata has an integer account
    index and an integer amount, [verify_spl_token_transfer] accepts every
    transaction that lists, among the balances after it, one of the
    expected token owned by the expected receiver that is at least the
    expected amount above the balance of the same account index before,
    and answers with the text [Verified token transfer of N tokens] for
    the increase [N] of such an entry. *)
Theorem X16_paying_transfer_is_accepted (tx_data : TxData) (m : Meta.t)
    (expected_token expected_receiver : string) (expected_amount : Z)
    (b : TokenBalance.t) :
  meta tx_data = Some m ->
  well_formed (Meta.preTokenBalances m) ->
  well_formed (Meta.postTokenBalances m) ->
  In b (Meta.postTokenBalances m) ->
  pays (Meta.preTokenBalances m) expected_token expected_receiver
       expected_amount b ->
  exists b' k v,
    In b' (Meta.postTokenBalances m) /\
    pays (Meta.preTokenBalances m) expected_token expected_receiver
         expected_amount b' /\
    TokenBalance.accountIndex b' = Done k /\
    TokenBalance.amount b' = Done v /\
    verify_spl_token_transfer tx_data expected_token expected_receiver
                              expected_amount =
    (true,
     "Verified token transfer of " ++
     int_str (v - balance_before (Meta.preTokenBalances m) k) ++ " tokens").
Proof.
  intros Hmeta Hpre Hpost Hin (Hm & Ho & k & v & Hk & Hv & Hle).
  unfold verify_spl_token_transfer. rewrite Hmeta.
  destruct (pre_balances_well_formed [] Hpre) as [d Hd].
  assert (Hle' : expected_amount <= v - get_default d k 0)
    by (rewrite (pre_balances_before _ k Hd); exact Hle).
  destruct (@check_post_balances_finds _ d _ _ _ _ _ _ Hpost Hin Hm Ho Hk Hv
              Hle')
    as [msg Hc].
  destruct (check_post_balances_accepts _ _ _ _ _ Hc)
    as (b' & k' & v' & Hin' & Hm' & Ho' & Hk' & Hv' & Hle'' & Hmsg).
  rewrite (pre_balances_before _ k' Hd) in Hle'', Hmsg.
  exists b', k', v'.
  split; [exact Hin'|].
  split.
  { split; [exact Hm'|]. split; [exact Ho'|].
    exists k', v'. split; [exact Hk'|]. split; [exact Hv' | exact Hle'']. }
  split; [exact Hk'|]. split; [exact Hv'|].
  destruct (Meta.postTokenBalances m) as [|b0 post] eqn:Hp; [destruct Hin|].
  cbv zeta. rewrite Hd, Hc, Hmsg. reflexivity.
Qed.

Lemma X16_witness :
  exists b' k v,
    In b' (Meta.postTokenBalances
             (Meta.Build
                [Ledger.entry 2 "W" 500]
                [Ledger.entry 1 "U1" 8000; Ledger.entry 2 "W" 22500])) /\
    pays [Ledger.entry 2 "W" 500]
         (PRO_MEMBERSHIP_TOKEN Ledger.membership) "W" 22000 b' /\
    TokenBalance.accountIndex b' = Done k /\
    TokenBalance.amount b' = Done v /\
    verify_spl_token_transfer
      {| meta := Some (Meta.Build
                   [Ledger.entry 2 "W" 500]
                   [Ledger.entry 1 "U1" 8000; Ledger.entry 2 "W" 22500]) |}
      (PRO_MEMBERSHIP_TOKEN Ledger.membership) "W" 22000 =
    (true,
     "Verified token transfer of " ++
     int_str (v - balance_before [Ledger.entry 2 "W" 500] k) ++ " tokens").
Proof.
  apply (@X16_paying_transfer_is_accepted
           {| meta := Some (Meta.Build
                [Ledger.entry 2 "W" 500]
                [Ledger.entry 1 "U1" 8000; Ledger.entry 2 "W" 22500]) |}
           (Meta.Build
                [Ledger.entry 2 "W" 500]
                [Ledger.entry 1 "U1" 8000; Ledger.entry 2 "W" 22500])
           (PRO_MEMBERSHIP_TOKEN Ledger.membership) "W" 22000
           (Ledger.entry 2 "W" 22500)).
  - reflexivity.
  - repeat constructor; eexists; reflexivity.
  - repeat constructor; eexists; reflexivity.
  - right; left; reflexivity.
  - split; [reflexivity|]. split; [reflexivity|].
    exists 2, 22500. split; [reflexivity|]. split; [reflexivity|].
    vm_compute. discriminate.
Defined.

(* ------------------------------------------------------------------ *)
(** ** Memberships *)

Lemma truthy_nonempty s : s <> "" -> Py.truthy s = true.
Proof.
  intros H. unfold Py.truthy. destruct (String.eqb s "") eqn:E.
  - apply String.eqb_eq in E. contradiction.
  - reflexivity.
Qed.

(** The status depends on the table through the stored end of the
    membership only. *)
Lemma user_pro_status_premium W pk rows :
  user_pro_status W pk rows =
  if negb (Py.truthy pk) then UserProStatusResponse.Build false None
  else
    match premium_of pk rows with
    | Some e =>
        if datetime_now W <? e
        then UserProStatusResponse.Build
               true (Some ((e - datetime_now W) / 86400))
        else UserProStatusResponse.Build false None
    | None => UserProStatusResponse.Build false None
    end.
Proof.
  unfold user_pro_status, premium_of.
  destruct (negb (Py.truthy pk)); [reflexivity|].
  destruct (find (has_pubkey pk) rows); reflexivity.
Qed.

Lemma check_user_pro_status_is_pro W pk rs rows :
  check_user_pro_status W pk {| requests := rs; users := rows |} =
  UserProStatusResponse.is_pro (user_pro_status W pk rows).
Proof.
  unfold check_user_pro_status, user_pro_status. cbn [users].
  destruct (negb (Py.truthy pk)); [reflexivity|].
  change (fun u : User.t => String.eqb (User.pubkey u) pk)
    with (has_pubkey pk).
  destruct (find (has_pubkey pk) rows) as [u|]; [|reflexivity].
  destruct (User.premium_end u) as [e|]; [|reflexivity].
  destruct (datetime_now W <? e); reflexivity.
Qed.

Lemma premium_of_first_or_new pk pk' rows :
  premium_of pk' (snd (first_or_new_user pk rows)) = premium_of pk' rows.
Proof.
  unfold first_or_new_user, premium_of.
  destruct (find (has_pubkey pk) rows); cbn [snd]; [reflexivity|].
  rewrite find_app_first.
  destruct (find (has_pubkey pk') rows); [reflexivity|].
  cbn [find]. unfold has_pubkey at 1. cbn [User.pubkey].
  destruct (String.eqb pk pk'); reflexivity.
Qed.

Lemma premium_end_first_or_new pk rows :
  User.premium_end (fst (first_or_new_user pk rows)) = premium_of pk rows.
Proof.
  unfold first_or_new_user, premium_of.
  destruct (find (has_pubkey pk) rows); reflexivity.
Qed.

Lemma first_or_new_found pk rows :
  find (has_pubkey pk) (snd (first_or_new_user pk rows)) <> None.
Proof.
  unfold first_or_new_user.
  destruct (find (has_pubkey pk) rows) as [u|] eqn:E; cbn [snd].
  - rewrite E. discriminate.
  - rewrite find_app_first, E. cbn [find]. unfold has_pubkey at 1.
    cbn [User.pubkey]. rewrite String.eqb_refl. discriminate.
Qed.

Lemma first_or_new_again pk rows :
  first_or_new_user pk (snd (first_or_new_user pk rows)) =
  (fst (first_or_new_user pk rows), snd (first_or_new_user pk rows)).
Proof.
  unfold first_or_new_user at 1.
  destruct (find (has_pubkey pk) (snd (first_or_new_user pk rows)))
    as [u|] eqn:E.
  - f_equal. revert E. unfold first_or_new_user.
    destruct (find (has_pubkey pk) rows) as [u0|] eqn:E0; cbn [fst snd].
    + rewrite E0. intros H. injection H as <-. reflexivity.
    + rewrite find_app_first, E0. cbn [find]. unfold has_pubkey at 1.
      cbn [User.pubkey]. rewrite String.eqb_refl.
      intros H. injection H as <-. reflexivity.
  - destruct (first_or_new_found _ _ E).
Qed.

Lemma premium_of_set_same pk v rows :
  find (has_pubkey pk) rows <> None ->
  premium_of pk (set_premium_end pk v rows) = Some v.
Proof.
  unfold premium_of.
  induction rows as [|u rows IH]; cbn [find set_premium_end]; intros H.
  - destruct (H eq_refl).
  - destruct (has_pubkey pk u) eqn:E.
    + cbn [find]. unfold has_pubkey at 1. cbn [User.pubkey].
      unfold has_pubkey in E. rewrite E. reflexivity.
    + cbn [find]. rewrite E. apply IH. exact H.
Qed.

Lemma premium_of_set_other pk pk' v rows :
  pk' <> pk ->
  premium_of pk' (set_premium_end pk v rows) = premium_of pk' rows.
Proof.
  intros Hne. unfold premium_of.
  induction rows as [|u rows IH]; cbn [find set_premium_end]; [reflexivity|].
  destruct (has_pubkey pk u) eqn:E.
  - cbn [find]. unfold has_pubkey at 1 3. cbn [User.pubkey].
    unfold has_pubkey in E. apply String.eqb_eq in E.
    destruct (String.eqb (User.pubkey u) pk') eqn:E'; [|reflexivity].
    apply String.eqb_eq in E'. congruence.
  - cbn [find]. destruct (has_pubkey pk' u); [reflexivity | exact IH].
Qed.

Lemma set_premium_end_pubkeys pk v rows :
  map User.pubkey (set_premium_end pk v rows) = map User.pubkey rows.
Proof.
  induction rows as [|u rows IH]; cbn [set_premium_end map]; [reflexivity|].
  destruct (has_pubkey pk u); cbn [map User.pubkey]; [reflexivity|].
  rewrite IH. reflexivity.
Qed.

Lemma set_premium_end_ids pk v rows :
  map User.id (set_premium_end pk v rows) = map User.id rows.
Proof.
  induction rows as [|u rows IH]; cbn [set_premium_end map]; [reflexivity|].
  destruct (has_pubkey pk u); cbn [map User.id]; [reflexivity|].
  rewrite IH. reflexivity.
Qed.

Lemma next_key_above ids i : In i ids -> i < next_key ids.
Proof.
  unfold next_key. induction ids as [|j ids IH]; [intros []|].
  cbn [fold_right In]. intros [->|H]; [lia|]. specialize (IH H). lia.
Qed.

Lemma find_none_pubkeys pk rows :
  find (has_pubkey pk) rows = None -> ~ In pk (map User.pubkey rows).
Proof.
  induction rows as [|u rows IH]; cbn [find map In]; [intros _ []|].
  destruct (has_pubkey pk u) eqn:E; [discriminate|].
  intros H [Hu|Hin]; [|exact (IH H Hin)].
  unfold has_pubkey in E. rewrite Hu, String.eqb_refl in E. discriminate E.
Qed.

Lemma NoDup_snoc (A : Type) (l : list A) (a : A) :
  NoDup l -> ~ In a l -> NoDup (l ++ [a])%list.
Proof.
  intros Hl Ha. induction Hl as [|b l Hb Hl IH]; cbn [app].
  - constructor; [intros [] | constructor].
  - constructor.
    + intros Hin. apply in_app_or in Hin. destruct Hin as [Hin|[->|[]]].
      * exact (Hb Hin).
      * apply Ha. left. reflexivity.
    + apply IH. intros Hin. apply Ha. right. exact Hin.
Qed.

Lemma first_or_new_keyed pk rows :
  one_row_per_key rows -> one_row_per_key (snd (first_or_new_user pk rows)).
Proof.
  intros [Hk Hi]. unfold first_or_new_user.
  destruct (find (has_pubkey pk) rows) eqn:E; cbn [snd]; [split; assumption|].
  unfold one_row_per_key. rewrite !map_app. cbn [map User.pubkey User.id].
  split; apply NoDup_snoc; try assumption.
  - apply find_none_pubkeys. exact E.
  - intros Hin. apply next_key_above in Hin. lia.
Qed.

Section Upgrade.

Variable W : World.
Variable node : string -> Details.
Variable M : Membership.
Variable upgrade_request : ProUpgradeRequest.t.
Variable db : Accounts.

(** What an accepted payment does. *)
Lemma process_pro_upgrade_accepted :
  fresh_payment upgrade_request db ->
  fst (payment_verdict node M upgrade_request) = true ->
  fst (process_pro_upgrade W node M upgrade_request db) =
    ProUpgradeResponse.Build
      true "Pro membership activated successfully"
      (Some (extended_end W (ProUpgradeRequest.public_key upgrade_request)
                          (user_rows db))) /\
  transactions (snd (process_pro_upgrade W node M upgrade_request db)) =
    (transactions db ++
     [Transaction.Build
        (next_key (map Transaction.id (transactions db)))
        (ProUpgradeRequest.public_key upgrade_request)
        (ProUpgradeRequest.transaction_signature upgrade_request)
        true (func_now W)])%list /\
  login_logs (snd (process_pro_upgrade W node M upgrade_request db)) =
    login_logs db /\
  premium_of (ProUpgradeRequest.public_key upgrade_request)
             (user_rows (snd (process_pro_upgrade W node M upgrade_request
                                                  db))) =
    Some (extended_end W (ProUpgradeRequest.public_key upgrade_request)
                       (user_rows db)) /\
  (forall pk', pk' <> ProUpgradeRequest.public_key upgrade_request ->
     premium_of pk'
       (user_rows (snd (process_pro_upgrade W node M upgrade_request db))) =
     premium_of pk' (user_rows db)).
Proof.
  intros Hnot Hok. unfold process_pro_upgrade.
  set (pk := ProUpgradeRequest.public_key upgrade_request).
  set (sig := ProUpgradeRequest.transaction_signature upgrade_request).
  pose proof (premium_end_first_or_new pk (user_rows db)) as Hend.
  pose proof (@first_or_new_found pk (user_rows db)) as Hfound.
  assert (Hother : forall pk',
            premium_of pk' (snd (first_or_new_user pk (user_rows db))) =
            premium_of pk' (user_rows db))
    by (intros pk'; apply premium_of_first_or_new).
  destruct (first_or_new_user pk (user_rows db)) as [user rows].
  cbn [fst snd] in Hend, Hfound, Hother.
  unfold fresh_payment, first_record in Hnot. fold sig in Hnot.
  assert (Hno :
    match find (fun t => String.eqb (Transaction.tx_hash t) sig)
               (transactions db) with
    | Some t => Transaction.success t
    | None => false
    end = false).
  { destruct (find (fun t => String.eqb (Transaction.tx_hash t) sig)
                (transactions db)); [exact Hnot | reflexivity]. }
  rewrite Hno. unfold payment_verdict in Hok. fold sig in Hok.
  destruct (validate_transaction_rpc node sig (PRO_MEMBERSHIP_TOKEN M)
              (PRO_MEMBERSHIP_WALLET M) (PRO_MEMBERSHIP_COST M))
    as [is_valid validation_message].
  cbn [fst] in Hok.
  subst is_valid. cbn [negb fst snd user_rows transactions login_logs].
  rewrite Hend. fold (extended_end W pk (user_rows db)).
  split; [reflexivity|]. split; [reflexivity|]. split; [reflexivity|].
  split.
  - apply premium_of_set_same. exact Hfound.
  - intros pk' Hne. rewrite premium_of_set_other by exact Hne. apply Hother.
Qed.

(** What a call does that does not accept a payment. *)
Lemma process_pro_upgrade_not_accepted :
  ~ fresh_payment upgrade_request db \/
  fst (payment_verdict node M upgrade_request) = false ->
  forall pk',
    premium_of pk'
      (user_rows (snd (process_pro_upgrade W node M upgrade_request db))) =
    premium_of pk' (user_rows db).
Proof.
  intros Hcase pk'. unfold process_pro_upgrade.
  set (pk := ProUpgradeRequest.public_key upgrade_request).
  set (sig := ProUpgradeRequest.transaction_signature upgrade_request).
  pose proof (premium_of_first_or_new pk pk' (user_rows db)) as Hother.
  destruct (first_or_new_user pk (user_rows db)) as [user rows].
  cbn [snd] in Hother.
  unfold fresh_payment, first_record, payment_verdict in Hcase.
  fold sig in Hcase.
  destruct (find (fun t => String.eqb (Transaction.tx_hash t) sig)
              (transactions db)) as [t|].
  - destruct (Transaction.success t) eqn:Hs.
    + cbn [snd user_rows]. exact Hother.
    + destruct Hcase as [Hc|Hc]; [destruct (Hc eq_refl)|].
      destruct (validate_transaction_rpc node sig (PRO_MEMBERSHIP_TOKEN M)
                  (PRO_MEMBERSHIP_WALLET M) (PRO_MEMBERSHIP_COST M))
        as [is_valid msg].
      cbn [fst] in Hc.
      subst is_valid. cbn [negb snd user_rows]. exact Hother.
  - destruct Hcase as [Hc|Hc]; [destruct (Hc I)|].
    destruct (validate_transaction_rpc node sig (PRO_MEMBERSHIP_TOKEN M)
                (PRO_MEMBERSHIP_WALLET M) (PRO_MEMBERSHIP_COST M))
      as [is_valid msg].
    cbn [fst] in Hc.
    subst is_valid. cbn [negb snd user_rows]. exact Hother.
Qed.

Lemma extended_end_days pk :
  pk <> "" ->
  (datetime_now W <? extended_end W pk (user_rows db)) = true /\
  (extended_end W pk (user_rows db) - datetime_now W) / 86400 =
  days_left W pk (user_rows db) + 30.
Proof.
  intros Hpk. unfold days_left. rewrite user_pro_status_premium.
  rewrite (truthy_nonempty Hpk). cbn [negb]. unfold extended_end.
  unfold premium_period.
  destruct (premium_of pk (user_rows db)) as [c|].
  - destruct (datetime_now W <? c) eqn:E.
    + cbn [UserProStatusResponse.days_remaining]. apply Z.ltb_lt in E. split.
      * apply Z.ltb_lt. lia.
      * replace (c + 30 * 86400 - datetime_now W)
          with (c - datetime_now W + 30 * 86400) by lia.
        apply Z.div_add. lia.
    + cbn [UserProStatusResponse.days_remaining]. split.
      * apply Z.ltb_lt. lia.
      * replace (datetime_now W + 30 * 86400 - datetime_now W)
          with (30 * 86400) by lia.
        rewrite Z.div_mul by lia. reflexivity.
  - cbn [UserProStatusResponse.days_remaining]. split.
    + apply Z.ltb_lt. lia.
    + replace (datetime_now W + 30 * 86400 - datetime_now W)
        with (30 * 86400) by lia.
      rewrite Z.div_mul by lia. reflexivity.
Qed.

Lemma extended_end_lasts pk :
  datetime_now W + premium_period <= extended_end W pk (user_rows db).
Proof.
  unfold extended_end, premium_period.
  destruct (premium_of pk (user_rows db)) as [c|]; [|lia].
  destruct (datetime_now W <? c) eqn:E; [|lia].
  apply Z.ltb_lt in E. lia.
Qed.

Lemma accepted_days :
  ProUpgradeRequest.public_key upgrade_request <> "" ->
  fresh_payment upgrade_request db ->
  fst (payment_verdict node M upgrade_request) = true ->
  user_pro_status W (ProUpgradeRequest.public_key upgrade_request)
    (user_rows (snd (process_pro_upgrade W node M upgrade_request db))) =
  UserProStatusResponse.Build
    true (Some (days_left W (ProUpgradeRequest.public_key upgrade_request)
                          (user_rows db) + 30)).
Proof.
  intros Hpk Hnot Hok.
  destruct (process_pro_upgrade_accepted Hnot Hok)
    as (_ & _ & _ & Hprem & _).
  destruct (extended_end_days Hpk) as [Hlt Hdays].
  rewrite user_pro_status_premium, (truthy_nonempty Hpk), Hprem.
  cbn [negb]. rewrite Hlt, Hdays. reflexivity.
Qed.

End Upgrade.

Lemma fresh_payment_dec upgrade_request db :
  fresh_payment upgrade_request db \/ ~ fresh_payment upgrade_request db.
Proof.
  unfold fresh_payment.
  destruct (first_record _ _) as [t|]; [|left; exact I].
  destruct (Transaction.success t); [right; discriminate | left; reflexivity].
Qed.

(** What a call does for a signature whose first record is one of an
    accepted payment. *)
Lemma process_pro_upgrade_replayed W node M upgrade_request db t :
  first_record (ProUpgradeRequest.transaction_signature upgrade_request)
               (transactions db) = Some t ->
  Transaction.success t = true ->
  fst (process_pro_upgrade W node M upgrade_request db) =
    ProUpgradeResponse.Build
      true "Transaction was already processed"
      (premium_of (ProUpgradeRequest.public_key upgrade_request)
                  (user_rows db)) /\
  transactions (snd (process_pro_upgrade W node M upgrade_request db)) =
    transactions db /\
  login_logs (snd (process_pro_upgrade W node M upgrade_request db)) =
    login_logs db.
Proof.
  intros Hrec Hs. unfold process_pro_upgrade.
  pose proof (premium_end_first_or_new
                (ProUpgradeRequest.public_key upgrade_request)
                (user_rows db)) as Hend.
  destruct (first_or_new_user _ (user_rows db)) as [user rows].
  cbn [fst] in Hend. unfold first_record in Hrec. rewrite Hrec, Hs.
  cbn [fst snd transactions login_logs]. rewrite Hend.
  split; [reflexivity|]. split; reflexivity.
Qed.

Lemma process_pro_upgrade_rows W node M upgrade_request db :
  let rows :=
    snd (first_or_new_user (ProUpgradeRequest.public_key upgrade_request)
                           (user_rows db)) in
  user_rows (snd (process_pro_upgrade W node M upgrade_request db)) = rows \/
  exists v,
    user_rows (snd (process_pro_upgrade W node M upgrade_request db)) =
    set_premium_end (ProUpgradeRequest.public_key upgrade_request) v rows.
Proof.
  unfold process_pro_upgrade.
  destruct (first_or_new_user _ (user_rows db)) as [user rows].
  cbn [snd].
  destruct (match find _ (transactions db) with
            | Some t => Transaction.success t
            | None => false
            end); [left; reflexivity|].
  destruct (validate_transaction_rpc _ _ _ _ _) as [is_valid msg].
  destruct is_valid; cbn [negb snd user_rows];
    [right; eexists; reflexivity | left; reflexivity].
Qed.

Lemma days_left_of_status W pk rows n :
  user_pro_status W pk rows = UserProStatusResponse.Build true (Some n) ->
  days_left W pk rows = n.
Proof. unfold days_left. intros ->. reflexivity. Qed.

(** X17.  When the first record of the signature of an upgrade request, if
    any, is a failed one and [validate_transaction_rpc] accepts the
    payment, [process_pro_upgrade] answers that the membership is
    activated, with the stored end of the membership of the (non-empty)
    public key as [premium_end_date]; [check_user_pro_status] then reports
    the key as pro with 30 days more than it had left before (30 days when
    it had no active membership), and the membership of no other key
    changes. *)
Theorem X17_accepted_payment_adds_30_days W node M upgrade_request db :
  ProUpgradeRequest.public_key upgrade_request <> "" ->
  fresh_payment upgrade_request db ->
  fst (payment_verdict node M upgrade_request) = true ->
  ProUpgradeResponse.success
    (fst (process_pro_upgrade W node M upgrade_request db)) = true /\
  ProUpgradeResponse.message
    (fst (process_pro_upgrade W node M upgrade_request db)) =
    "Pro membership activated successfully" /\
  ProUpgradeResponse.premium_end_date
    (fst (process_pro_upgrade W node M upgrade_request db)) =
    premium_of (ProUpgradeRequest.public_key upgrade_request)
      (user_rows (snd (process_pro_upgrade W node M upgrade_request db))) /\
  user_pro_status W (ProUpgradeRequest.public_key upgrade_request)
    (user_rows (snd (process_pro_upgrade W node M upgrade_request db))) =
    UserProStatusResponse.Build
      true (Some (days_left W (ProUpgradeRequest.public_key upgrade_request)
                            (user_rows db) + 30)) /\
  (forall pk', pk' <> ProUpgradeRequest.public_key upgrade_request ->
     user_pro_status W pk'
       (user_rows (snd (process_pro_upgrade W node M upgrade_request db))) =
     user_pro_status W pk' (user_rows db)).
Proof.
  intros Hpk Hfresh Hok.
  destruct (@process_pro_upgrade_accepted W node M upgrade_request db
              Hfresh Hok) as (Hresp & _ & _ & Hprem & Hother).
  rewrite Hresp, Hprem.
  cbn [ProUpgradeResponse.success ProUpgradeResponse.message
       ProUpgradeResponse.premium_end_date].
  split; [reflexivity|]. split; [reflexivity|]. split; [reflexivity|].
  split.
  - apply accepted_days; assumption.
  - intros pk' Hne. rewrite !user_pro_status_premium.
    rewrite (Hother pk' Hne). reflexivity.
Qed.

Lemma X17_witness :
  user_pro_status Demo.silent "U1"
    (user_rows (snd (process_pro_upgrade Demo.silent Ledger.node
                       Ledger.membership (Ledger.upgrade "U1" "paid")
                       Ledger.nobody))) =
  UserProStatusResponse.Build
    true (Some (days_left Demo.silent "U1" (user_rows Ledger.nobody) + 30)).
Proof.
  apply (@X17_accepted_payment_adds_30_days Demo.silent Ledger.node
           Ledger.membership (Ledger.upgrade "U1" "paid") Ledger.nobody).
  - discriminate.
  - exact I.
  - reflexivity.
Defined.

(** X18.  After an accepted payment the chat pipeline treats the (non-empty)
    public key of the upgrade request as a pro caller at every clock
    reading earlier than 30 days after the upgrade. *)
Theorem X18_upgraded_caller_is_pro_for_30_days W node M upgrade_request db
    W' chat_request rs :
  ProUpgradeRequest.public_key upgrade_request <> "" ->
  fresh_payment upgrade_request db ->
  fst (payment_verdict node M upgrade_request) = true ->
  ChatRequest.public_key chat_request =
    ProUpgradeRequest.public_key upgrade_request ->
  datetime_now W' < datetime_now W + premium_period ->
  tier W' chat_request
    {| requests := rs;
       users := user_rows (snd (process_pro_upgrade W node M upgrade_request
                                                    db)) |} = true.
Proof.
  intros Hpk Hfresh Hok Hkey Hclock.
  destruct (@process_pro_upgrade_accepted W node M upgrade_request db
              Hfresh Hok) as (_ & _ & _ & Hprem & _).
  unfold tier. rewrite Hkey, check_user_pro_status_is_pro.
  rewrite user_pro_status_premium, (truthy_nonempty Hpk), Hprem.
  cbn [negb].
  pose proof (@extended_end_lasts W db
                (ProUpgradeRequest.public_key upgrade_request)) as Hl.
  assert (Hlt : (datetime_now W' <?
                 extended_end W (ProUpgradeRequest.public_key upgrade_request)
                              (user_rows db)) = true)
    by (apply Z.ltb_lt; lia).
  rewrite Hlt. reflexivity.
Qed.

Lemma X18_witness :
  tier Samples.answering (Demo.chat None None None)
    {| requests := requests Samples.busy;
       users := user_rows (snd (process_pro_upgrade Demo.silent Ledger.node
                                  Ledger.membership
                                  (Ledger.upgrade "U1" "paid")
                                  Ledger.nobody)) |} = true.
Proof.
  apply (@X18_upgraded_caller_is_pro_for_30_days Demo.silent Ledger.node
           Ledger.membership (Ledger.upgrade "U1" "paid") Ledger.nobody
           Samples.answering (Demo.chat None None None)
           (requests Samples.busy)).
  - discriminate.
  - exact I.
  - reflexivity.
  - reflexivity.
  - vm_compute. reflexivity.
Defined.

(** X19.  [process_pro_upgrade] changes the stored end of a membership only
    for the public key of the request, only when the first record of the
    signature, if any, is a failed one, and only when the node returned
    for the signature a transaction whose metadata lists a balance of the
    membership token owned by the membership wallet that is at least the
    membership cost above the balance of the same account index before. *)
Theorem X19_membership_changes_only_for_a_payment W node M upgrade_request
    db pk' :
  premium_of pk'
    (user_rows (snd (process_pro_upgrade W node M upgrade_request db))) <>
  premium_of pk' (user_rows db) ->
  pk' = ProUpgradeRequest.public_key upgrade_request /\
  fresh_payment upgrade_request db /\
  exists tx_data m b,
    node (ProUpgradeRequest.transaction_signature upgrade_request) =
      Retrieved tx_data /\
    meta tx_data = Some m /\
    In b (Meta.postTokenBalances m) /\
    pays (Meta.preTokenBalances m) (PRO_MEMBERSHIP_TOKEN M)
         (PRO_MEMBERSHIP_WALLET M) (PRO_MEMBERSHIP_COST M) b.
Proof.
  intros Hchange.
  destruct (fresh_payment_dec upgrade_request db) as [Hfresh|Hold].
  2:{ destruct Hchange.
      apply process_pro_upgrade_not_accepted. left. exact Hold. }
  destruct (fst (payment_verdict node M upgrade_request)) eqn:Hok.
  2:{ destruct Hchange.
      apply process_pro_upgrade_not_accepted. right. exact Hok. }
  destruct (@process_pro_upgrade_accepted W node M upgrade_request db
              Hfresh Hok) as (_ & _ & _ & _ & Hother).
  split.
  { destruct (String.eqb pk' (ProUpgradeRequest.public_key upgrade_request))
      eqn:E.
    - apply String.eqb_eq. exact E.
    - destruct Hchange. apply Hother. intros ->.
      rewrite String.eqb_refl in E. discriminate E. }
  split; [exact Hfresh|].
  unfold payment_verdict, validate_transaction_rpc in Hok.
  destruct (node (ProUpgradeRequest.transaction_signature upgrade_request))
    as [tx_data|msg]; [|discriminate Hok].
  destruct (verify_spl_token_transfer_pays _ _ _ _ Hok)
    as (m & b & Hm & Hin & Hpays).
  exists tx_data, m, b. split; [reflexivity|].
  split; [exact Hm|]. split; [exact Hin | exact Hpays].
Qed.

Lemma X19_witness :
  "U1" = ProUpgradeRequest.public_key (Ledger.upgrade "U1" "paid") /\
  fresh_payment (Ledger.upgrade "U1" "paid") Ledger.nobody /\
  exists tx_data m b,
    Ledger.node (ProUpgradeRequest.transaction_signature
                   (Ledger.upgrade "U1" "paid")) = Retrieved tx_data /\
    meta tx_data = Some m /\
    In b (Meta.postTokenBalances m) /\
    pays (Meta.preTokenBalances m) (PRO_MEMBERSHIP_TOKEN Ledger.membership)
         (PRO_MEMBERSHIP_WALLET Ledger.membership)
         (PRO_MEMBERSHIP_COST Ledger.membership) b.
Proof.
  apply (@X19_membership_changes_only_for_a_payment Demo.silent Ledger.node
           Ledger.membership (Ledger.upgrade "U1" "paid") Ledger.nobody
           "U1").
  vm_compute. discriminate.
Defined.

(** X20.  A signature without a record in the table [transactions] is
    honoured once: after [process_pro_upgrade] accepted its payment, any
    later request with the same signature, from any public key and
    whatever the node then answers, is answered [Transaction was already
    processed], records nothing and changes no membership. *)
Theorem X20_accepted_signature_is_not_honoured_again W node M
    upgrade_request db W2 node2 M2 request2 :
  first_record (ProUpgradeRequest.transaction_signature upgrade_request)
               (transactions db) = None ->
  fst (payment_verdict node M upgrade_request) = true ->
  ProUpgradeRequest.transaction_signature request2 =
    ProUpgradeRequest.transaction_signature upgrade_request ->
  fst (process_pro_upgrade W2 node2 M2 request2
         (snd (process_pro_upgrade W node M upgrade_request db))) =
    ProUpgradeResponse.Build
      true "Transaction was already processed"
      (premium_of (ProUpgradeRequest.public_key request2)
         (user_rows (snd (process_pro_upgrade W node M upgrade_request
                                              db)))) /\
  transactions
    (snd (process_pro_upgrade W2 node2 M2 request2
            (snd (process_pro_upgrade W node M upgrade_request db)))) =
    transactions (snd (process_pro_upgrade W node M upgrade_request db)) /\
  (forall pk',
     premium_of pk'
       (user_rows
          (snd (process_pro_upgrade W2 node2 M2 request2
                  (snd (process_pro_upgrade W node M upgrade_request
                                            db))))) =
     premium_of pk'
       (user_rows (snd (process_pro_upgrade W node M upgrade_request db)))).
Proof.
  intros Hnone Hok Hsig.
  assert (Hfresh : fresh_payment upgrade_request db)
    by (unfold fresh_payment; rewrite Hnone; exact I).
  destruct (@process_pro_upgrade_accepted W node M upgrade_request db
              Hfresh Hok) as (_ & Htx & _ & _ & _).
  set (db1 := snd (process_pro_upgrade W node M upgrade_request db)) in *.
  assert (Hrec :
    first_record (ProUpgradeRequest.transaction_signature request2)
                 (transactions db1) =
    Some (Transaction.Build
            (next_key (map Transaction.id (transactions db)))
            (ProUpgradeRequest.public_key upgrade_request)
            (ProUpgradeRequest.transaction_signature upgrade_request)
            true (func_now W))).
  { rewrite Htx, Hsig. unfold first_record in *.
    rewrite find_app_first, Hnone. cbn [find Transaction.tx_hash].
    rewrite String.eqb_refl. reflexivity. }
  destruct (@process_pro_upgrade_replayed W2 node2 M2 request2 db1 _ Hrec
              eq_refl) as (Hresp & Htx2 & _).
  split; [exact Hresp|]. split; [exact Htx2|].
  apply process_pro_upgrade_not_accepted. left.
  unfold fresh_payment. rewrite Hrec. discriminate.
Qed.

Lemma X20_witness :
  transactions
    (snd (process_pro_upgrade Samples.answering
            (fun _ => Retrieved Ledger.payment) Ledger.membership
            (Ledger.upgrade "U2" "paid")
            (snd (process_pro_upgrade Demo.silent Ledger.node
                    Ledger.membership (Ledger.upgrade "U1" "paid")
                    Ledger.nobody)))) =
  transactions
    (snd (process_pro_upgrade Demo.silent Ledger.node Ledger.membership
            (Ledger.upgrade "U1" "paid") Ledger.nobody)).
Proof.
  apply (@X20_accepted_signature_is_not_honoured_again Demo.silent
           Ledger.node Ledger.membership (Ledger.upgrade "U1" "paid")
           Ledger.nobody Samples.answering
           (fun _ => Retrieved Ledger.payment) Ledger.membership
           (Ledger.upgrade "U2" "paid")).
  - reflexivity.
  - reflexivity.
  - reflexivity.
Defined.

(** X21.  The check for an already processed signature reads the first
    record of the signature only: when that record is one of a failed
    validation, [process_pro_upgrade] honours the signature every time
    [validate_transaction_rpc] accepts it, so that two requests in a row
    with the same accepted signature add 30 days each to the membership of
    the (non-empty) public key. *)
Theorem X21_signature_first_recorded_as_failed_is_honoured_again W node M
    upgrade_request db t :
  ProUpgradeRequest.public_key upgrade_request <> "" ->
  first_record (ProUpgradeRequest.transaction_signature upgrade_request)
               (transactions db) = Some t ->
  Transaction.success t = false ->
  fst (payment_verdict node M upgrade_request) = true ->
  days_left W (ProUpgradeRequest.public_key upgrade_request)
    (user_rows (snd (process_pro_upgrade W node M upgrade_request db))) =
  days_left W (ProUpgradeRequest.public_key upgrade_request) (user_rows db)
  + 30 /\
  days_left W (ProUpgradeRequest.public_key upgrade_request)
    (user_rows
       (snd (process_pro_upgrade W node M upgrade_request
               (snd (process_pro_upgrade W node M upgrade_request db))))) =
  days_left W (ProUpgradeRequest.public_key upgrade_request) (user_rows db)
  + 60.
Proof.
  intros Hpk Hrec Hfail Hok.
  assert (Hfresh : fresh_payment upgrade_request db)
    by (unfold fresh_payment; rewrite Hrec; exact Hfail).
  destruct (@process_pro_upgrade_accepted W node M upgrade_request db
              Hfresh Hok) as (_ & Htx & _ & _ & _).
  pose proof (@accepted_days W node M upgrade_request db Hpk Hfresh Hok)
    as H1.
  apply days_left_of_status in H1.
  set (db1 := snd (process_pro_upgrade W node M upgrade_request db)) in *.
  assert (Hfresh1 : fresh_payment upgrade_request db1).
  { unfold fresh_payment. rewrite Htx. unfold first_record in *.
    rewrite find_app_first, Hrec. exact Hfail. }
  pose proof (@accepted_days W node M upgrade_request db1 Hpk Hfresh1 Hok)
    as H2.
  apply days_left_of_status in H2.
  split; [exact H1|]. rewrite H2, H1. lia.
Qed.

Lemma X21_witness :
  days_left Demo.silent "U1"
    (user_rows
       (snd (process_pro_upgrade Demo.silent Ledger.node Ledger.membership
               (Ledger.upgrade "U1" "paid")
               (snd (process_pro_upgrade Demo.silent Ledger.node
                       Ledger.membership (Ledger.upgrade "U1" "paid")
                       {| user_rows := [];
                          transactions :=
                            [Transaction.Build 1 "U1" "paid" false 999000];
                          login_logs := [] |}))))) =
  days_left Demo.silent "U1" [] + 60.
Proof.
  apply (@X21_signature_first_recorded_as_failed_is_honoured_again
           Demo.silent Ledger.node Ledger.membership
           (Ledger.upgrade "U1" "paid")
           {| user_rows := [];
              transactions := [Transaction.Build 1 "U1" "paid" false 999000];
              login_logs := [] |}
           (Transaction.Build 1 "U1" "paid" false 999000)).
  - discriminate.
  - reflexivity.
  - reflexivity.
  - reflexivity.
Defined.

Lemma authenticate_with_signature_unfold W user_request db :
  authenticate_with_signature W user_request db =
  if verify_signature W (UserAuthRequest.public_key user_request)
                      (UserAuthRequest.signature user_request)
  then
    (true,
     {| user_rows :=
          snd (first_or_new_user (UserAuthRequest.public_key user_request)
                                 (user_rows db));
        transactions := transactions db;
        login_logs :=
          (login_logs db ++
           [LoginLogs.Build (next_key (map LoginLogs.id (login_logs db)))
                            (UserAuthRequest.public_key user_request)
                            (func_now W)])%list |})
  else (false, db).
Proof.
  unfold authenticate_with_signature.
  destruct (verify_signature W _ _); cbn [negb]; [|reflexivity].
  destruct (first_or_new_user _ (user_rows db)); reflexivity.
Qed.

(** X22.  [authenticate_with_signature] answers with the verdict of the
    signature check.  It never touches the table [transactions] or the
    stored end of a membership; with an invalid signature it changes
    nothing at all; with a valid one it appends one login record for the
    public key, leaves a row of that key in the table [users], and a
    repeated authentication of the same request adds no further row to
    that table. *)
Theorem X22_authentication_registers_the_caller_once W user_request db :
  fst (authenticate_with_signature W user_request db) =
    verify_signature W (UserAuthRequest.public_key user_request)
                     (UserAuthRequest.signature user_request) /\
  (forall pk',
     premium_of pk'
       (user_rows (snd (authenticate_with_signature W user_request db))) =
     premium_of pk' (user_rows db)) /\
  transactions (snd (authenticate_with_signature W user_request db)) =
    transactions db /\
  (fst (authenticate_with_signature W user_request db) = false ->
   snd (authenticate_with_signature W user_request db) = db) /\
  (fst (authenticate_with_signature W user_request db) = true ->
   find (has_pubkey (UserAuthRequest.public_key user_request))
        (user_rows (snd (authenticate_with_signature W user_request db)))
     <> None /\
   login_logs (snd (authenticate_with_signature W user_request db)) =
     (login_logs db ++
      [LoginLogs.Build (next_key (map LoginLogs.id (login_logs db)))
                       (UserAuthRequest.public_key user_request)
                       (func_now W)])%list /\
   forall W',
     user_rows
       (snd (authenticate_with_signature W' user_request
               (snd (authenticate_with_signature W user_request db)))) =
     user_rows (snd (authenticate_with_signature W user_request db))).
Proof.
  rewrite (authenticate_with_signature_unfold W user_request db).
  destruct (verify_signature W _ _) eqn:Hv;
    cbn [fst snd user_rows transactions login_logs].
  - split; [reflexivity|].
    split; [intros pk'; apply premium_of_first_or_new|].
    split; [reflexivity|]. split; [discriminate|]. intros _.
    split; [apply first_or_new_found|]. split; [reflexivity|].
    intros W'. rewrite authenticate_with_signature_unfold.
    destruct (verify_signature W' _ _); cbn [snd user_rows]; [|reflexivity].
    rewrite first_or_new_again. reflexivity.
  - split; [reflexivity|]. split; [reflexivity|].
    split; [reflexivity|]. split; [reflexivity | discriminate].
Qed.

(** X23.  A table [users] that has no two rows with the same public key
    and no two rows with the same id still has none after
    [authenticate_with_signature] and after [process_pro_upgrade]. *)
Theorem X23_users_table_keeps_one_row_per_key W node M db :
  one_row_per_key (user_rows db) ->
  (forall user_request,
     one_row_per_key
       (user_rows (snd (authenticate_with_signature W user_request db)))) /\
  (forall upgrade_request,
     one_row_per_key
       (user_rows (snd (process_pro_upgrade W node M upgrade_request db)))).
Proof.
  intros Hkeyed. split.
  - intros user_request. rewrite authenticate_with_signature_unfold.
    destruct (verify_signature W _ _); cbn [snd user_rows]; [|exact Hkeyed].
    apply first_or_new_keyed. exact Hkeyed.
  - intros upgrade_request.
    pose proof (@first_or_new_keyed
                  (ProUpgradeRequest.public_key upgrade_request) _ Hkeyed)
      as H.
    destruct (process_pro_upgrade_rows W node M upgrade_request db)
      as [-> | [v ->]]; [exact H|].
    unfold one_row_per_key.
    rewrite set_premium_end_pubkeys, set_premium_end_ids. exact H.
Qed.

Lemma X23_witness :
  (forall user_request,
     one_row_per_key
       (user_rows (snd (authenticate_with_signature Demo.silent user_request
                          Ledger.nobody)))) /\
  (forall upgrade_request,
     one_row_per_key
       (user_rows (snd (process_pro_upgrade Demo.silent Ledger.node
                          Ledger.membership upgrade_request
                          Ledger.nobody)))).
Proof.
  apply (@X23_users_table_keeps_one_row_per_key Demo.silent Ledger.node
           Ledger.membership Ledger.nobody).
  split; constructor.
Defined.

(* ------------------------------------------------------------------ *)
(** ** Token amounts *)

Lemma int_from_bytes_little_bound data :
  0 <= int_from_bytes_little data < 256 ^ Z.of_nat (List.length data).
Proof.
  induction data as [|b data IH].
  - cbn. lia.
  - cbn [int_from_bytes_little fold_right List.length].
    fold (int_from_bytes_little data).
    rewrite Nat2Z.inj_succ, Z.pow_succ_r by lia.
    pose proof (Byte.to_N_bounded b) as Hb.
    assert (0 <= Z.of_N (Byte.to_N b) <= 255) by lia.
    lia.
Qed.

(** X24.  [parse_token_amount] returns an unsigned 64-bit value: never
    negative and below 2^64.  It is 0 for fewer than 8 bytes, and for 8
    bytes or more it reads the first 8 bytes only, the first byte being
    the least significant. *)
Theorem X24_parse_token_amount_reads_a_u64 (amount_data : list Byte.byte)
    (decimals : Z) :
  0 <= parse_token_amount amount_data decimals < 2 ^ 64 /\
  ((List.length amount_data < 8)%nat ->
   parse_token_amount amount_data decimals = 0) /\
  (forall b0 b1 b2 b3 b4 b5 b6 b7 rest,
     amount_data = (b0 :: b1 :: b2 :: b3 :: b4 :: b5 :: b6 :: b7 :: rest) ->
     parse_token_amount amount_data decimals =
     Z.of_N (Byte.to_N b0) + 2 ^ 8 * Z.of_N (Byte.to_N b1)
     + 2 ^ 16 * Z.of_N (Byte.to_N b2) + 2 ^ 24 * Z.of_N (Byte.to_N b3)
     + 2 ^ 32 * Z.of_N (Byte.to_N b4) + 2 ^ 40 * Z.of_N (Byte.to_N b5)
     + 2 ^ 48 * Z.of_N (Byte.to_N b6) + 2 ^ 56 * Z.of_N (Byte.to_N b7)).
Proof.
  unfold parse_token_amount. split; [|split].
  - destruct (8 <=? List.length amount_data)%nat eqn:E; [|lia].
    apply Nat.leb_le in E.
    pose proof (int_from_bytes_little_bound (firstn 8 amount_data)) as H.
    rewrite length_firstn, Nat.min_l in H by exact E.
    change (256 ^ Z.of_nat 8) with (2 ^ 64) in H. exact H.
  - intros H. destruct (8 <=? List.length amount_data)%nat eqn:E;
      [|reflexivity].
    apply Nat.leb_le in E. lia.
  - intros b0 b1 b2 b3 b4 b5 b6 b7 rest ->.
    cbn [List.length Nat.leb firstn int_from_bytes_little fold_right].
    lia.
Qed.
